(** * Campaign Analysis System (app.py): data enrichment, filtering and
      aggregation pipeline

    A shallow embedding of [src/app.py].  The pandas frame is a list of
    column labels with a list of positional rows; Python exceptions are
    the [Raise] branch of [result]; the process-wide [data] global is an
    explicit [option DataFrame] threaded through [update_content].

    Third-party library calls whose behaviour is not decided by the
    repository (phonenumbers, pycountry, [pd.to_datetime], the sort kind
    behind [sort_values], the order of the additions behind [Series.sum])
    are the fields of the class [Externals]. *)

From Stdlib Require Import ZArith QArith Qabs Qpower Lqa Ascii String.
From stdpp Require Import base list strings gmap pretty sorting.

(** ** Python strings *)

Module Py.

(** [str.lower] on the ASCII range; the keywords matched by the program
    are ASCII, bytes above 127 are left alone. *)
Definition lower_ascii (c : ascii) : ascii :=
  let n := nat_of_ascii c in
  if (65 <=? n)%nat && (n <=? 90)%nat then ascii_of_nat (n + 32) else c.

Fixpoint lower (s : string) : string :=
  match s with
  | EmptyString => EmptyString
  | String c s' => String (lower_ascii c) (lower s')
  end.

(** [s.replace(a, b)] for one-character [a] and [b]. *)
Fixpoint replace (a b : ascii) (s : string) : string :=
  match s with
  | EmptyString => EmptyString
  | String c s' => String (if Ascii.eqb c a then b else c) (replace a b s')
  end.

(** [s.startswith(p)] *)
Fixpoint startswith (s p : string) : bool :=
  match p, s with
  | EmptyString, _ => true
  | String a p', String b s' => Ascii.eqb a b && startswith s' p'
  | String _ _, EmptyString => false
  end.

(** [needle in hay] *)
Fixpoint contains (needle hay : string) : bool :=
  startswith hay needle ||
  match hay with
  | EmptyString => false
  | String _ hay' => contains needle hay'
  end.

(** [sep.join(parts)] *)
Fixpoint join (sep : string) (parts : list string) : string :=
  match parts with
  | [] => EmptyString
  | [p] => p
  | p :: ps => p +:+ sep +:+ join sep ps
  end.

(** Truth value of a string: empty is false. *)
Definition truthy (s : string) : bool := negb (String.eqb s EmptyString).

(** [repr] of a label that needs no escaping. *)
Definition repr (s : string) : string := "'" +:+ s +:+ "'".

(** [repr] of a list of such labels. *)
Definition repr_list (l : list string) : string :=
  "[" +:+ join ", " (map repr l) +:+ "]".

Definition dquote : string := String (ascii_of_nat 34) EmptyString.

End Py.

(** ** Exceptions *)

Inductive exn :=
| KeyError (label : string)               (* df['label'] on an absent column *)
| KeyErrorColumns (missing : list string) (* agg over absent columns *)
| ValueError (msg : string)
| AttributeError (msg : string)
| OtherError (msg : string)               (* raised while decoding the payload *)
| PreventUpdate.

(** [str(e)] as interpolated into the upload error message. *)
Definition exn_str (e : exn) : string :=
  match e with
  | KeyError label => Py.repr label
  | KeyErrorColumns missing =>
      Py.dquote +:+ "Column(s) " +:+ Py.repr_list missing +:+ " do not exist" +:+ Py.dquote
  | ValueError msg => msg
  | AttributeError msg => msg
  | OtherError msg => msg
  | PreventUpdate => EmptyString
  end.

Inductive result (A : Type) :=
| Ok (a : A)
| Raise (e : exn).
Arguments Ok {A} a.
Arguments Raise {A} e.

#[global] Instance result_ret : MRet result := fun _ a => Ok a.
#[global] Instance result_bind : MBind result := fun _ _ f m =>
  match m with
  | Ok a => f a
  | Raise e => Raise e
  end.

(** ** Cells and frames *)

(** A cell of a frame.  [NaN] stands for every missing value (NaN, None,
    NaT); [Timestamp t] is a timestamp in seconds since the epoch.  Floats and
    booleans read from a CSV are outside the model. *)
Inductive cell :=
| NaN
| Str (s : string)
| Int (n : Z)
| Timestamp (t : Z).

#[global] Instance cell_eq_dec : EqDecision cell.
Proof. solve_decision. Defined.

Definition notna (c : cell) : bool :=
  match c with NaN => false | _ => true end.

(** [str(x)]; [read_csv] produces no timestamp cell, a timestamp is
    rendered by its epoch seconds to keep the function total. *)
Definition py_str (c : cell) : string :=
  match c with
  | NaN => "nan"
  | Str s => s
  | Int n => pretty n
  | Timestamp t => pretty t
  end.

Record DataFrame := mkDF {
  columns : list string;
  rows : list (list cell)
}.

Fixpoint index_of (label : string) (l : list string) : option nat :=
  match l with
  | [] => None
  | c :: l' => if String.eqb c label then Some 0%nat else S <$> index_of label l'
  end.

Definition has_column (df : DataFrame) (label : string) : bool :=
  bool_decide (label ∈ columns df).

(** Column position of a label: [KeyError] when absent; the first one when a
    label is repeated. *)
Definition get_loc (df : DataFrame) (label : string) : result nat :=
  match index_of label (columns df) with
  | Some i => Ok i
  | None => Raise (KeyError label)
  end.

Definition cell_at (i : nat) (row : list cell) : cell := nth i row NaN.

(** [df[label]] *)
Definition getitem (df : DataFrame) (label : string) : result (list cell) :=
  i ← get_loc df label; Ok (map (cell_at i) (rows df)).

(** [df.rename(columns={old: new})] *)
Definition rename (df : DataFrame) (old new : string) : DataFrame :=
  mkDF (map (fun c => if String.eqb c old then new else c) (columns df)) (rows df).

Definition set_cell (i : nat) (v : cell) (row : list cell) : list cell :=
  <[i:=v]> (row ++ replicate (S i - length row) NaN).

(** [df[label] = vals]: overwrite in place when the label exists, append a
    new last column otherwise. *)
Definition setitem (df : DataFrame) (label : string) (vals : list cell) : DataFrame :=
  match index_of label (columns df) with
  | Some i => mkDF (columns df) (imap (fun k r => set_cell i (nth k vals NaN) r) (rows df))
  | None =>
      let i := length (columns df) in
      mkDF (columns df ++ [label]) (imap (fun k r => set_cell i (nth k vals NaN) r) (rows df))
  end.

(** [df[mask]] with the mask computed row by row. *)
Definition select (df : DataFrame) (p : list cell -> bool) : DataFrame :=
  mkDF (columns df) (List.filter p (rows df)).

(** [series.count()]: the number of non-missing values. *)
Definition count (l : list cell) : Z :=
  Z.of_nat (length (List.filter notna l)).

(** ** Third-party libraries *)

(** What the program asks of its libraries.
    - [phonenumbers_parse s] is [phonenumbers.parse(s, None)]; [None] is a
      [NumberParseException].
    - [region_code_for_number] is [phonenumbers.region_code_for_number].
    - [pycountry_get code] is [pycountry.countries.get(alpha_2=code)] and
      [country_name_attr c] is [c.name]; [None] there is an [AttributeError].
    - [to_datetime col] is [pd.to_datetime(col, errors='coerce')] on a whole
      column, [None] being NaT.
    - [to_datetime_scalar s] is [pd.to_datetime(s)] on one string; [None]
      means that it raises.
    - [argsort keys] is [keys.argsort(kind='quicksort')], the sort that
      [sort_values] runs when no [kind] is passed.
    - [float_sum values] is [np.add.reduce] on a float64 column, the sum
      that [Series.sum] runs; a finite float64 is the rational it denotes. *)
Class Externals := {
  PhoneNumber : Type;
  Country : Type;
  phonenumbers_parse : string -> option PhoneNumber;
  region_code_for_number : PhoneNumber -> option string;
  pycountry_get : string -> option Country;
  country_name_attr : Country -> option string;
  to_datetime : list cell -> list (option Z);
  to_datetime_scalar : string -> option Z;
  argsort : list Z -> list nat;
  float_sum : list Q -> Q
}.

(** ** Views handed to the rendering layer *)

Inductive content :=
| Div (text : string)
| DataTable (id : string) (table : DataFrame).

Inductive upd (A : Type) :=
| no_update
| Set_ (a : A).
Arguments no_update {A}.
Arguments Set_ {A} a.

Record card := mkCard {
  product : string;
  color : string;
  dispatched : Z;
  delivered : Z;
  delivery_rate : Q
}.

(** The six outputs of the callback, in the order of its [Output] list. *)
Record outputs := mkOut {
  filters_style : upd string;
  country_options : upd (list cell);
  start_date_out : upd (option Z);
  end_date_out : upd (option Z);
  tab_content : upd content;
  product_summary : upd (option (list card))
}.

(** ** Regular expressions of the product patterns *)

Inductive regex :=
| Empty
| Eps
| Lit (c : ascii)
| AnyChar
| Alt (r1 r2 : regex)
| Cat (r1 r2 : regex)
| Star (r : regex).

Fixpoint nullable (r : regex) : bool :=
  match r with
  | Empty => false
  | Eps => true
  | Lit _ => false
  | AnyChar => false
  | Alt r1 r2 => nullable r1 || nullable r2
  | Cat r1 r2 => nullable r1 && nullable r2
  | Star _ => true
  end.

Definition newline : ascii := ascii_of_nat 10.

(** Brzozowski derivative; [.] matches every character but a newline. *)
Fixpoint deriv (c : ascii) (r : regex) : regex :=
  match r with
  | Empty => Empty
  | Eps => Empty
  | Lit a => if Ascii.eqb a c then Eps else Empty
  | AnyChar => if Ascii.eqb c newline then Empty else Eps
  | Alt r1 r2 => Alt (deriv c r1) (deriv c r2)
  | Cat r1 r2 =>
      if nullable r1 then Alt (Cat (deriv c r1) r2) (deriv c r2)
      else Cat (deriv c r1) r2
  | Star r1 => Cat (deriv c r1) (Star r1)
  end.

(** [re.match]: some prefix of [s] is in the language of [r]. *)
Fixpoint re_match (r : regex) (s : string) : bool :=
  nullable r ||
  match s with
  | EmptyString => false
  | String c s' => re_match (deriv c r) s'
  end.

(** [re.search]: a match starting at some position of [s]. *)
Fixpoint re_search (r : regex) (s : string) : bool :=
  re_match r s ||
  match s with
  | EmptyString => false
  | String _ s' => re_search r s'
  end.

Fixpoint lits (s : string) : regex :=
  match s with
  | EmptyString => Eps
  | String c s' => Cat (Lit c) (lits s')
  end.

Definition dot_star : regex := Star AnyChar.

(** ** Numbers shown in the tables *)

(** The value of a float computed from two counts and rounded to two
    decimals.  A finite value is kept by its number of hundredths; a zero
    divisor gives the IEEE results of
    pandas' true division: [0/0] is NaN and [n/0] is infinite. *)
Inductive pyfloat :=
| Finite (hundredths : Z)
| Inf
| NaNf.

Definition round_half_even (a b : Z) : Z :=
  let q := (a / b)%Z in
  let r := (a mod b)%Z in
  if (2 * r <? b)%Z then q
  else if (b <? 2 * r)%Z then (q + 1)%Z
  else if Z.even q then q else (q + 1)%Z.

(** *** float64 arithmetic

    A finite float64 is kept as the rational it denotes, in lowest terms.
    [fl x] is the float64 nearest to [x], ties to even: the 53-bit
    significand of IEEE 754 binary64 without its exponent limits (no
    overflow, no subnormal number), which the counts of a dataset, their
    quotients and their products with 0.04 and 100 do not reach. *)
Definition pow2 (e : Z) : Q := Qpower 2 e.

(** [np.rint]: the nearest integer, ties to even. *)
Definition rint (x : Q) : Z := round_half_even (Qnum x) (Zpos (Qden x)).

(** The exponent [e] of the last place: [2^52 <= |x| / 2^e < 2^53]. *)
Definition exponent (x : Q) : Z :=
  let e0 := (Z.log2 (Z.abs (Qnum x)) - Z.log2 (Zpos (Qden x)) - 53)%Z in
  if Qle_bool (pow2 53) (Qabs x * pow2 (- e0)) then (e0 + 1)%Z else e0.

Definition fl (x : Q) : Q :=
  if Qeq_bool x 0 then 0%Q
  else let e := exponent x in Qred (inject_Z (rint (x * pow2 (- e))) * pow2 e).

Definition fadd (x y : Q) : Q := fl (x + y).
Definition fmul (x y : Q) : Q := fl (x * y).
Definition fdiv (x y : Q) : Q := fl (x / y).

(** An int64 count as a float64. *)
Definition of_int (n : Z) : Q := fl (inject_Z n).

(** [(num / den * 100).round(2)] on two count columns: the true division
    and the product are float64 operations, and [round(2)] multiplies by
    100, takes [rint] and divides by 100; the result is kept by its number
    of hundredths. *)
Definition rate (num den : Z) : pyfloat :=
  if (den =? 0)%Z then (if (num =? 0)%Z then NaNf else Inf)
  else Finite (rint (fmul (fmul (fdiv (of_int num) (of_int den)) 100) 100)).

Definition two_digits (n : Z) : string :=
  if (n <? 10)%Z then "0" +:+ pretty n else pretty n.

(** [f"{x}"] of a float that has at most two decimals: the shortest form,
    with at least one decimal. *)
Definition float_str (x : pyfloat) : string :=
  match x with
  | NaNf => "nan"
  | Inf => "inf"
  | Finite h =>
      let frac := (h mod 100)%Z in
      pretty (h / 100)%Z +:+ "." +:+
      (if (frac mod 10 =? 0)%Z then pretty (frac / 10)%Z else two_digits frac)
  end.

(** [f"{x}%"] *)
Definition percent (x : pyfloat) : string := float_str x +:+ "%".

(** ["$d.cc"] of an amount in cents. *)
Definition usd (cents : Z) : string :=
  "$" +:+ pretty (cents / 100)%Z +:+ "." +:+ two_digits (cents mod 100)%Z.

(** ** Grouping *)

Definition cell_rank (c : cell) : Z :=
  match c with NaN => 0 | Int _ => 1 | Timestamp _ => 2 | Str _ => 3 end.

(** Order of the group keys: numbers by value, strings by code point,
    numbers before strings. *)
Definition cell_compare (a b : cell) : comparison :=
  match a, b with
  | Int x, Int y => (x ?= y)%Z
  | Timestamp x, Timestamp y => (x ?= y)%Z
  | Str x, Str y => String.compare x y
  | _, _ => (cell_rank a ?= cell_rank b)%Z
  end.

Fixpoint insert_key (k : cell) (l : list cell) : list cell :=
  match l with
  | [] => [k]
  | x :: l' =>
      match cell_compare k x with
      | Lt => k :: l
      | Eq => l
      | Gt => x :: insert_key k l'
      end
  end.

(** [sorted(series.unique())] *)
Definition sorted_unique (l : list cell) : list cell := foldr insert_key [] l.

(** Keys of [groupby(key)]: missing keys dropped, each key once, sorted. *)
Definition group_keys (keys : list cell) : list cell :=
  sorted_unique (List.filter notna keys).

Definition int_of (c : cell) : Z :=
  match c with Int n => n | _ => 0%Z end.

Definition sum (l : list Z) : Z := foldr Z.add 0%Z l.

Fixpoint insert_label (s : string) (l : list string) : list string :=
  match l with
  | [] => [s]
  | x :: l' =>
      match String.compare s x with
      | Lt => s :: l
      | Eq => l
      | Gt => x :: insert_label s l'
      end
  end.

(** [list(Index(labels).difference(df.columns, sort=True))] once the labels
    present in the frame are taken out: each label once, sorted. *)
Definition sorted_labels (l : list string) : list string := foldr insert_label [] l.

(** [df.groupby(key).agg({c: 'count' for c in aggs}).reset_index()]; the
    KeyError for absent aggregation columns lists them sorted. *)
Definition groupby_count (df : DataFrame) (key : string) (aggs : list string)
  : result DataFrame :=
  k ← get_loc df key;
  match List.filter (fun c => negb (has_column df c)) aggs with
  | [] =>
      let locs := map (fun c => default 0%nat (index_of c (columns df))) aggs in
      let group g := List.filter (fun r => bool_decide (cell_at k r = g)) (rows df) in
      Ok (mkDF (key :: aggs)
            (map (fun g => g :: map (fun i => Int (count (map (cell_at i) (group g)))) locs)
               (group_keys (map (cell_at k) (rows df)))))
  | missing => Raise (KeyErrorColumns (sorted_labels missing))
  end.

(** [df.rename(columns=mapping)] *)
Definition rename_columns (df : DataFrame) (mapping : list (string * string)) : DataFrame :=
  foldl (fun d '(old, new) => rename d old new) df mapping.

(** ** Country Resolver *)

Definition special_cases : gmap string string :=
  {[ "KSA" := "Saudi Arabia"; "UAE" := "United Arab Emirates" ]}.

Section Program.
Context {E : Externals}.

Definition get_country_name (phone_number : string) : string :=
  let phone_number :=
    if Py.startswith phone_number "+" then phone_number else "+" +:+ phone_number in
  match phonenumbers_parse phone_number with
  | None => "Unknown"
  | Some parsed_number =>
      match region_code_for_number parsed_number with
      | Some country_code =>
          if Py.truthy country_code then
            match pycountry_get country_code with
            | Some country =>
                match country_name_attr country with
                | Some name => name
                | None => default country_code (special_cases !! country_code)
                end
            | None => country_code
            end
          else "Unknown"
      | None => "Unknown"
      end
  end.

(** ** Schema Normalizer, Campaign Classifier, Record Enricher *)

Definition column_mapping : list (string * string) :=
  [ ("Button Clicks", "button_clicks");
    ("Delivered", "delivered");
    ("Link Clicks", "link_clicks");
    ("Read", "read_at");
    ("Sent", "sent_at");
    ("Campaign Name", "campaign_name");
    ("campaign", "campaign_name");
    ("Campaign", "campaign_name") ].

Definition apply_column_mapping (df : DataFrame) : DataFrame :=
  foldl (fun d '(old_col, new_col) =>
           if has_column d old_col then rename d old_col new_col else d)
    df column_mapping.

Definition campaign_cols (df : DataFrame) : list string :=
  List.filter (fun col => Py.contains "campaign" (Py.lower col)) (columns df).

Definition resolve_campaign_name (df : DataFrame) : result DataFrame :=
  if has_column df "campaign_name" then Ok df
  else
    match campaign_cols df with
    | c :: _ => Ok (rename df c "campaign_name")
    | [] => Raise (ValueError "Could not find campaign name column in the CSV file")
    end.

Definition commercial_keywords : list string :=
  [ "cpc"; "dt"; "gem"; "top up"; "top_up"; "topup"; "automation" ].

Definition is_commercial_campaign (campaign_name : cell) : bool :=
  let name := Py.lower (py_str campaign_name) in
  existsb (fun keyword => Py.contains keyword (Py.replace "_" " " name)) commercial_keywords.

Definition campaign_type_of (x : cell) : cell :=
  Str (if is_commercial_campaign x then "Commercial" else "Non-Commercial").

(** [series.fillna('Unknown')] *)
Definition fillna (v : cell) (c : cell) : cell :=
  match c with NaN => v | _ => c end.

Definition of_datetime (t : option Z) : cell :=
  match t with Some t => Timestamp t | None => NaN end.

(** [df.dropna(subset=[label])] *)
Definition dropna (df : DataFrame) (label : string) : result DataFrame :=
  i ← get_loc df label; Ok (select df (fun r => notna (cell_at i r))).

(** [df['campaign_name']] as one series: with the label repeated the
    selection is a frame, and assigning the result of [apply] over it
    raises on the repeated index. *)
Definition campaign_name_series (df : DataFrame) : result (list cell) :=
  if (1 <? length (List.filter (String.eqb "campaign_name") (columns df)))%nat
  then Raise (ValueError "cannot reindex on an axis with duplicate labels")
  else getitem df "campaign_name".

(** [process_uploaded_file], from the frame that [pd.read_csv] returned (or
    the exception raised while splitting, decoding and reading the payload). *)
Definition process_uploaded_file (decoded : result DataFrame) : result DataFrame :=
  df ← decoded;
  df ← resolve_campaign_name (apply_column_mapping df);
  names ← campaign_name_series df;
  let df := setitem df "campaign_type" (map campaign_type_of names) in
  ids ← getitem df "customer_external_id";
  let df := setitem df "country_name" (map (fun x => Str (get_country_name (py_str x))) ids) in
  countries ← getitem df "country_name";
  let df := setitem df "country_name" (map (fillna (Str "Unknown")) countries) in
  dispatched_at ← getitem df "dispatched_at";
  let df := setitem df "dispatched_at" (map of_datetime (to_datetime dispatched_at)) in
  dropna df "dispatched_at".

(** ** Product Summary Cards *)

Definition products : list (string * (string * regex)) :=
  [ ("CPC", ("primary", Cat (lits "auto") (Cat dot_star (lits "cpc"))));
    ("Top Up", ("success",
       Cat dot_star (Cat (lits "top") (Cat dot_star (Cat (lits "up") dot_star)))));
    ("Gem", ("warning", Cat (lits "auto") (Cat dot_star (lits "gem"))));
    ("DT", ("danger", Cat (lits "auto") (Cat dot_star (lits "dt")))) ].

Definition is_str (c : cell) : bool :=
  match c with Str _ => true | _ => false end.

Definition is_int (c : cell) : bool :=
  match c with Int _ => true | _ => false end.

Definition is_timestamp (c : cell) : bool :=
  match c with Timestamp _ => true | _ => false end.

(** The dtype that [read_csv] gives a column, as far as [.str] asks: object
    for a column that holds a string and for the columns of a frame without
    rows, a numeric dtype otherwise.  A frame keeps the dtype of a column
    when rows are dropped from it; the cells that are left do not tell it,
    so the functions that use [.str] take it as the argument
    [object_names]. *)
Definition object_dtype (col : list cell) : bool :=
  match col with
  | [] => true
  | _ :: _ => existsb is_str col
  end.

(** The [.str] accessor ([StringMethods._validate]): refused on a column
    that is not of object dtype, and on an object column whose values, the
    missing ones aside, are all numbers or all times; elsewhere a value that
    is not a string is missing. *)
Definition str_accessor (object_names : bool) (col : list cell)
  : result (list (option string)) :=
  let values := List.filter notna col in
  let inferred_other :=
    match values with
    | [] => false
    | _ :: _ => forallb is_int values || forallb is_timestamp values
    end in
  if object_names && negb inferred_other
  then Ok (map (fun c => match c with Str s => Some s | _ => None end) col)
  else Raise (AttributeError "Can only use .str accessor with string values!").

(** [series.str.lower().str.contains(pattern, regex=True, na=False, case=False)] *)
Definition str_contains (pattern : regex) (x : option string) : bool :=
  match x with
  | Some s => re_search pattern (Py.lower s)
  | None => false
  end.

Definition boolean_index (df : DataFrame) (mask : list bool) : DataFrame :=
  mkDF (columns df) (map fst (List.filter snd (zip (rows df) mask))).

Definition product_card (object_names : bool) (df : DataFrame)
    (p : string * (string * regex)) : result card :=
  let '(product, (color, pattern)) := p in
  names ← getitem df "campaign_name";
  strs ← str_accessor object_names names;
  let product_data := boolean_index df (map (str_contains pattern) strs) in
  dispatched_at ← getitem product_data "dispatched_at";
  let dispatched := count dispatched_at in
  delivered_at ← getitem product_data "delivered_at";
  let delivered := count delivered_at in
  let delivery_rate :=
    if (0 <? dispatched)%Z
    then fmul (fdiv (of_int delivered) (of_int dispatched)) 100
    else 0%Q in
  Ok (mkCard product color dispatched delivered delivery_rate).

Definition create_product_summary_cards (object_names : bool) (df : DataFrame)
  : result (list card) :=
  mapM (product_card object_names df) products.

(** ** Aggregation Engine *)

Definition create_data_table (df : DataFrame) : content :=
  DataTable "data-table" df.

Definition summary_columns : list string :=
  [ "dispatched_at"; "sent_at"; "delivered_at"; "read_at"; "button_clicks"; "link_clicks" ].

Definition summary_labels : list (string * string) :=
  [ ("dispatched_at", "Dispatched");
    ("sent_at", "Sent");
    ("delivered_at", "Delivered");
    ("read_at", "Read");
    ("button_clicks", "Button Clicks");
    ("link_clicks", "Link Clicks") ].

Definition create_summary_table (df : DataFrame) : result content :=
  summary_df ← groupby_count df "campaign_name" summary_columns;
  Ok (DataTable "summary-table" (rename_columns summary_df summary_labels)).

(** A row of [cost_df] while its cost is still a number, a float64. *)
Record cost_row := mkCost {
  cost_campaign : cell;
  delivered_messages : Z;
  cost : Q
}.

(** The float64 of the literal [0.04]. *)
Definition usd_per_message : Q := fl (4 # 100).

(** [cost_df] before the totals row is appended. *)
Definition cost_groups (df : DataFrame) : result (list cost_row) :=
  t ← get_loc df "campaign_type";
  let non_commercial :=
    select df (fun r => bool_decide (cell_at t r = Str "Non-Commercial")) in
  cost_df ← groupby_count non_commercial "campaign_name" ["delivered_at"];
  Ok (map (fun r =>
             let delivered_at := int_of (cell_at 1 r) in
             mkCost (cell_at 0 r) delivered_at
               (fmul (of_int delivered_at) usd_per_message))
        (rows cost_df)).

Definition totals (cost_df : list cost_row) : cost_row :=
  mkCost (Str "Total")
    (sum (map delivered_messages cost_df))
    (float_sum (map cost cost_df)).

(** [cost_df] after [pd.concat] with the totals row, before formatting. *)
Definition cost_rows (df : DataFrame) : result (list cost_row) :=
  cost_df ← cost_groups df;
  Ok (cost_df ++ [totals cost_df]).

(** [f"${x:.2f}"] of a float64: its value rounded to cents, ties to even. *)
Definition format_cost (x : Q) : string := usd (rint (x * 100)).

Definition format_cost_row (r : cost_row) : list cell :=
  [ cost_campaign r; Int (delivered_messages r); Str (format_cost (cost r)) ].

Definition create_cost_analysis_table (df : DataFrame) : result content :=
  cost_df ← cost_rows df;
  Ok (DataTable "cost-table"
        (mkDF ["campaign_name"; "Delivered Messages"; "Cost (USD)"]
           (map format_cost_row cost_df))).

Definition country_columns : list string :=
  [ "dispatched_at"; "delivered_at"; "read_at"; "button_clicks"; "link_clicks" ].

Definition country_labels : list string :=
  [ "Country"; "Dispatched"; "Delivered"; "Read"; "Button Clicks"; "Link Clicks";
    "Delivery Rate"; "Read Rate" ].

(** A grouped row [country; dispatched; delivered; read; ...] with its two
    rate cells appended, already formatted. *)
Definition with_rates (r : list cell) : list cell :=
  let dispatched_at := int_of (cell_at 1 r) in
  let delivered_at := int_of (cell_at 2 r) in
  let read_at := int_of (cell_at 3 r) in
  r ++ [ Str (percent (rate delivered_at dispatched_at));
         Str (percent (rate read_at delivered_at)) ].

(** [country_df] as it stands before [sort_values]. *)
Definition country_df (df : DataFrame) : result DataFrame :=
  grouped ← groupby_count df "country_name" country_columns;
  Ok (mkDF country_labels (map with_rates (rows grouped))).

(** pandas' [nargsort] on a key column without missing values: a descending
    sort reverses the keys, sorts them ascending and reverses the result. *)
Definition nargsort (items : list Z) (ascending : bool) : list nat :=
  let idx := seq 0 (length items) in
  let non_nans := if ascending then items else rev items in
  let non_nan_idx := if ascending then idx else rev idx in
  let indexer := map (fun i => nth i non_nan_idx 0%nat) (argsort non_nans) in
  if ascending then indexer else rev indexer.

(** [df.take(indexer)] *)
Definition take (df : DataFrame) (indexer : list nat) : DataFrame :=
  mkDF (columns df) (map (fun i => nth i (rows df) []) indexer).

(** [df.sort_values(by, ascending=ascending)] on an integer column. *)
Definition sort_values (df : DataFrame) (by_ : string) (ascending : bool)
  : result DataFrame :=
  i ← get_loc df by_;
  Ok (take df (nargsort (map (fun r => int_of (cell_at i r)) (rows df)) ascending)).

Definition create_country_analysis_table (df : DataFrame) : result content :=
  c ← country_df df;
  sorted ← sort_values c "Dispatched" false;
  Ok (DataTable "country-table" sorted).

(** ** Filter Engine *)

Definition truthy_list (l : option (list string)) : bool :=
  match l with Some (_ :: _) => true | _ => false end.

Definition truthy_str (s : option string) : bool :=
  match s with Some s => Py.truthy s | None => false end.

(** [series.isin(values)] *)
Definition isin (values : option (list string)) (c : cell) : bool :=
  match c with
  | Str s => bool_decide (s ∈ default [] values)
  | _ => false
  end.

(** [timestamp.date()] as a day number. *)
Definition date_of (t : Z) : Z := (t / 86400)%Z.

Definition is_datetimelike (c : cell) : bool :=
  match c with Timestamp _ | NaN => true | _ => false end.

(** [series.dt.date]: refused unless the column holds timestamps. *)
Definition dt_date (col : list cell) : result (list (option Z)) :=
  if forallb is_datetimelike col
  then Ok (map (fun c => match c with Timestamp t => Some (date_of t) | _ => None end) col)
  else Raise (AttributeError "Can only use .dt accessor with datetimelike values").

(** [pd.to_datetime(s).date()] *)
Definition scalar_date (s : option string) : result Z :=
  match to_datetime_scalar (default EmptyString s) with
  | Some t => Ok (date_of t)
  | None => Raise (ValueError "Unknown datetime string format")
  end.

Definition apply_filters (df : DataFrame)
    (filter_country filter_campaign_type : option (list string))
    (start_date end_date : option string) : result DataFrame :=
  let filtered_data := df in
  filtered_data ←
    (if truthy_list filter_country then
       i ← get_loc filtered_data "country_name";
       Ok (select filtered_data (fun r => isin filter_country (cell_at i r)))
     else Ok filtered_data);
  filtered_data ←
    (if truthy_list filter_campaign_type then
       i ← get_loc filtered_data "campaign_type";
       Ok (select filtered_data (fun r => isin filter_campaign_type (cell_at i r)))
     else Ok filtered_data);
  if truthy_str start_date && truthy_str end_date then
    dispatched_at ← getitem filtered_data "dispatched_at";
    dates ← dt_date dispatched_at;
    lo ← scalar_date start_date;
    hi ← scalar_date end_date;
    let mask := map (fun d => match d with
                              | Some d => (lo <=? d)%Z && (d <=? hi)%Z
                              | None => false
                              end) dates in
    Ok (boolean_index filtered_data mask)
  else Ok filtered_data.

(** *** The same engine on shared objects

    A frame is an object of a store and a variable holds a reference to it:
    [df.copy()] and [frame[mask]] make a new object, an assignment to
    [filtered_data] rebinds the variable. *)
Definition store := list DataFrame.

Definition new_object (h : store) (df : DataFrame) : nat * store :=
  (length h, h ++ [df]).

Definition object_at (h : store) (l : nat) : result DataFrame :=
  match h !! l with
  | Some df => Ok df
  | None => Raise (OtherError "no such object")
  end.

Definition apply_filters_store (h : store) (df : nat)
    (filter_country filter_campaign_type : option (list string))
    (start_date end_date : option string) : result (nat * store) :=
  d ← object_at h df;
  let '(filtered_data, h) := new_object h d in
  '(filtered_data, h) ←
    (if truthy_list filter_country then
       d ← object_at h filtered_data;
       i ← get_loc d "country_name";
       Ok (new_object h (select d (fun r => isin filter_country (cell_at i r))))
     else Ok (filtered_data, h));
  '(filtered_data, h) ←
    (if truthy_list filter_campaign_type then
       d ← object_at h filtered_data;
       i ← get_loc d "campaign_type";
       Ok (new_object h (select d (fun r => isin filter_campaign_type (cell_at i r))))
     else Ok (filtered_data, h));
  if truthy_str start_date && truthy_str end_date then
    d ← object_at h filtered_data;
    dispatched_at ← getitem d "dispatched_at";
    dates ← dt_date dispatched_at;
    lo ← scalar_date start_date;
    hi ← scalar_date end_date;
    let mask := map (fun d => match d with
                              | Some d => (lo <=? d)%Z && (d <=? hi)%Z
                              | None => false
                              end) dates in
    Ok (new_object h (boolean_index d mask))
  else Ok (filtered_data, h).

(** ** The callback and the process-wide dataset *)

Definition timestamps (col : list cell) : list Z :=
  omap (fun c => match c with Timestamp t => Some t | _ => None end) col.

(** [series.min().date()] and [series.max().date()]; NaT on an empty column. *)
Definition min_date (col : list cell) : option Z :=
  match timestamps col with
  | [] => None
  | t :: ts => Some (date_of (foldl Z.min t ts))
  end.

Definition max_date (col : list cell) : option Z :=
  match timestamps col with
  | [] => None
  | t :: ts => Some (date_of (foldl Z.max t ts))
  end.

Definition upload_error (e : exn) : outputs :=
  mkOut (Set_ "none") (Set_ []) (Set_ None) (Set_ None)
    (Set_ (Div ("Error: " +:+ exn_str e))) (Set_ None).

(** The dtype of the campaign column of the frame that
    [process_uploaded_file] returns: that of the column as it was read. *)
Definition campaign_name_dtype (decoded : result DataFrame) : bool :=
  match (df ← decoded;
         df ← resolve_campaign_name (apply_column_mapping df);
         campaign_name_series df) with
  | Ok names => object_dtype names
  | Raise _ => false
  end.

(** What the upload branch computes after [data = df]. *)
Definition upload_success (object_names : bool) (df : DataFrame) : result outputs :=
  countries ← getitem df "country_name";
  let country_options := sorted_unique countries in
  dispatched_at ← getitem df "dispatched_at";
  let start_date := min_date dispatched_at in
  let end_date := max_date dispatched_at in
  cards ← create_product_summary_cards object_names df;
  Ok (mkOut (Set_ "block") (Set_ country_options) (Set_ start_date) (Set_ end_date)
        (Set_ (create_data_table df)) (Set_ (Some cards))).

Definition only_content (c : upd content) : outputs :=
  mkOut no_update no_update no_update no_update c no_update.

Definition is_filter_trigger (trigger_id : string) : bool :=
  bool_decide (trigger_id ∈ ["filter-button"; "filter-country"; "filter-campaign-type"; "filter-date"]).

(** [update_content]: from the value of the global [data] and the callback's
    arguments to the new value of [data] and what the callback returns or
    raises.  [triggered] lists the component ids of [ctx.triggered];
    [contents] is [None] for an absent payload, otherwise the frame read from
    it (or the exception raised while reading it). *)
Definition update_content (data : option DataFrame) (triggered : list string)
    (contents : option (result DataFrame)) (active_tab : string)
    (filter_country filter_campaign_type : option (list string))
    (start_date end_date : option string) : option DataFrame * result outputs :=
  match triggered with
  | [] => (data, Raise PreventUpdate)
  | trigger_id :: _ =>
      if String.eqb trigger_id "upload-data" then
        match contents with
        | None =>
            (data, Ok (mkOut (Set_ "none") (Set_ []) (Set_ None) (Set_ None)
                         (Set_ (Div "Please upload a file.")) (Set_ None)))
        | Some decoded =>
            match process_uploaded_file decoded with
            | Raise e => (data, Ok (upload_error e))
            | Ok df =>
                let data := Some df in
                match upload_success (campaign_name_dtype decoded) df with
                | Ok o => (data, Ok o)
                | Raise e => (data, Ok (upload_error e))
                end
            end
        end
      else if String.eqb trigger_id "tabs" then
        match data with
        | None => (data, Ok (only_content (Set_ (Div "No data available."))))
        | Some d =>
            if String.eqb active_tab "data-table-tab" then
              (data, Ok (only_content (Set_ (create_data_table d))))
            else if String.eqb active_tab "campaign-summary-tab" then
              (data, t ← create_summary_table d; Ok (only_content (Set_ t)))
            else if String.eqb active_tab "cost-analysis-tab" then
              (data, t ← create_cost_analysis_table d; Ok (only_content (Set_ t)))
            else
              (data, t ← create_country_analysis_table d; Ok (only_content (Set_ t)))
        end
      else if is_filter_trigger trigger_id then
        match data with
        | None => (data, Ok (only_content no_update))
        | Some d =>
            (data,
             filtered_data ←
               apply_filters d filter_country filter_campaign_type start_date end_date;
             if String.eqb active_tab "data-table-tab" then
               Ok (only_content (Set_ (create_data_table filtered_data)))
             else
               t ← create_summary_table filtered_data;
               Ok (only_content (Set_ t)))
        end
      else (data, Ok (only_content no_update))
  end.

(** The check that the unregistered callback [handle_upload_and_tabs] makes
    before it builds the campaign summary. *)
Definition required_columns : list string :=
  [ "campaign_name"; "dispatched_at"; "sent_at"; "delivered_at";
    "read_at"; "button_clicks"; "link_clicks" ].

Definition missing_columns (data : DataFrame) : list string :=
  List.filter (fun col => negb (has_column data col)) required_columns.

Definition missing_columns_report (data : DataFrame) : option content :=
  match missing_columns data with
  | [] => None
  | missing => Some (Div ("Missing columns: " +:+ Py.join ", " missing))
  end.

End Program.

(** ** numpy's index quicksort and pairwise summation

    [argsort(kind='quicksort')] on 64-bit integers, as numpy's generic
    [aquicksort] runs it: an introsort on the index array [tosort], median
    of three, insertion sort on segments of at most 17 entries, heapsort
    once the depth budget is spent. *)

Module Npy.

Definition SMALL_QUICKSORT : Z := 16.

Definition geti (a : list nat) (i : Z) : nat := nth (Z.to_nat i) a 0%nat.
Definition seti (a : list nat) (i : Z) (x : nat) : list nat := <[Z.to_nat i := x]> a.
Definition val (v : list Z) (i : nat) : Z := nth i v 0%Z.

Definition swap (a : list nat) (i j : Z) : list nat :=
  let x := geti a i in
  let y := geti a j in
  seti (seti a i y) j x.

(** [if less(v[tosort[p]], v[tosort[q]])] then swap the two entries. *)
Definition swap_if_less (v : list Z) (a : list nat) (p q : Z) : list nat :=
  if (val v (geti a p) <? val v (geti a q))%Z then swap a p q else a.

(** [do ++pi while less(v[tosort[pi]], vp)] *)
Fixpoint scan_up (fuel : nat) (v : list Z) (a : list nat) (vp pi : Z) : Z :=
  match fuel with
  | O => pi
  | S fuel =>
      let pi := (pi + 1)%Z in
      if (val v (geti a pi) <? vp)%Z then scan_up fuel v a vp pi else pi
  end.

(** [do --pj while less(vp, v[tosort[pj]])] *)
Fixpoint scan_down (fuel : nat) (v : list Z) (a : list nat) (vp pj : Z) : Z :=
  match fuel with
  | O => pj
  | S fuel =>
      let pj := (pj - 1)%Z in
      if (vp <? val v (geti a pj))%Z then scan_down fuel v a vp pj else pj
  end.

(** The [for (;;)] loop of the partition; returns the array and [pi]. *)
Fixpoint partition_loop (fuel : nat) (v : list Z) (a : list nat) (vp pi pj : Z)
  : list nat * Z :=
  match fuel with
  | O => (a, pi)
  | S fuel =>
      let pi := scan_up (length a) v a vp pi in
      let pj := scan_down (length a) v a vp pj in
      if (pj <=? pi)%Z then (a, pi)
      else partition_loop fuel v (swap a pi pj) vp pi pj
  end.

(** The segments still to sort, each with its depth budget. *)
Definition stack := list (Z * Z * Z).

(** [while ((pr - pl) > SMALL_QUICKSORT)]: partition, push the larger part,
    go on with the smaller one. *)
Fixpoint quicksort_partitions (fuel : nat) (v : list Z) (a : list nat)
    (pl pr : Z) (st : stack) (cdepth : Z) : list nat * Z * Z * stack * Z :=
  match fuel with
  | O => (a, pl, pr, st, cdepth)
  | S fuel =>
      if (SMALL_QUICKSORT <? pr - pl)%Z then
        let pm := (pl + Z.shiftr (pr - pl) 1)%Z in
        let a := swap_if_less v a pm pl in
        let a := swap_if_less v a pr pm in
        let a := swap_if_less v a pm pl in
        let vp := val v (geti a pm) in
        let pi := pl in
        let pj := (pr - 1)%Z in
        let a := swap a pm pj in
        let '(a, pi) := partition_loop (length a) v a vp pi pj in
        let pk := (pr - 1)%Z in
        let a := swap a pi pk in
        let cdepth := (cdepth - 1)%Z in
        if (pi - pl <? pr - pi)%Z then
          quicksort_partitions fuel v a pl (pi - 1)%Z (((pi + 1)%Z, pr, cdepth) :: st) cdepth
        else
          quicksort_partitions fuel v a (pi + 1)%Z pr ((pl, (pi - 1)%Z, cdepth) :: st) cdepth
      else (a, pl, pr, st, cdepth)
  end.

(** [while pj > pl and less(vp, v[tosort[pk]])]: move entry [pk] to [pj] and
    step both down, with [pk = pj - 1]. *)
Fixpoint shift_right (fuel : nat) (v : list Z) (a : list nat) (vp pl pj : Z)
  : list nat * Z :=
  match fuel with
  | O => (a, pj)
  | S fuel =>
      if (pl <? pj)%Z && (vp <? val v (geti a (pj - 1)))%Z
      then shift_right fuel v (seti a pj (geti a (pj - 1))) vp pl (pj - 1)%Z
      else (a, pj)
  end.

(** [for (pi = pl + 1; pi <= pr; ++pi)] *)
Fixpoint insertion_sort (fuel : nat) (v : list Z) (a : list nat) (pl pr pi : Z)
  : list nat :=
  match fuel with
  | O => a
  | S fuel =>
      if (pi <=? pr)%Z then
        let vi := geti a pi in
        let vp := val v vi in
        let '(a, pj) := shift_right (length a) v a vp pl pi in
        insertion_sort fuel v (seti a pj vi) pl pr (pi + 1)%Z
      else a
  end.

(** The sift loop of [aheapsort]; [a[k]] there is [tosort[base + k]]. *)
Fixpoint sift (fuel : nat) (v : list Z) (a : list nat) (base : Z) (tmp : nat)
    (i j n : Z) : list nat * Z :=
  match fuel with
  | O => (a, i)
  | S fuel =>
      if (j <=? n)%Z then
        let j :=
          if (j <? n)%Z &&
             (val v (geti a (base + j)) <? val v (geti a (base + j + 1)))%Z
          then (j + 1)%Z else j in
        if (val v tmp <? val v (geti a (base + j)))%Z
        then sift fuel v (seti a (base + i) (geti a (base + j))) base tmp j (j + j)%Z n
        else (a, i)
      else (a, i)
  end.

(** [for (l = n >> 1; l > 0; --l)] *)
Fixpoint heapify (fuel : nat) (v : list Z) (a : list nat) (base l n : Z) : list nat :=
  match fuel with
  | O => a
  | S fuel =>
      if (0 <? l)%Z then
        let tmp := geti a (base + l) in
        let '(a, i) := sift (length a) v a base tmp l (Z.shiftl l 1) n in
        heapify fuel v (seti a (base + i) tmp) base (l - 1)%Z n
      else a
  end.

(** [for (; n > 1;)] *)
Fixpoint sort_down (fuel : nat) (v : list Z) (a : list nat) (base n : Z) : list nat :=
  match fuel with
  | O => a
  | S fuel =>
      if (1 <? n)%Z then
        let tmp := geti a (base + n) in
        let a := seti a (base + n) (geti a (base + 1)) in
        let n := (n - 1)%Z in
        let '(a, i) := sift (length a) v a base tmp 1 2 n in
        sort_down fuel v (seti a (base + i) tmp) base n
      else a
  end.

Definition aheapsort (v : list Z) (a : list nat) (pl n : Z) : list nat :=
  let base := (pl - 1)%Z in
  let a := heapify (length a) v a base (Z.shiftr n 1) n in
  sort_down (length a) v a base n.

(** The [while (1)] loop: one segment per turn. *)
Fixpoint quicksort_loop (fuel : nat) (v : list Z) (a : list nat)
    (pl pr : Z) (st : stack) (cdepth : Z) : list nat :=
  match fuel with
  | O => a
  | S fuel =>
      let '(a, st) :=
        if (cdepth <? 0)%Z then (aheapsort v a pl (pr - pl + 1)%Z, st)
        else
          let '(a, pl, pr, st, _) := quicksort_partitions (length a) v a pl pr st cdepth in
          (insertion_sort (length a) v a pl pr (pl + 1)%Z, st) in
      match st with
      | [] => a
      | (pl, pr, cdepth) :: st => quicksort_loop fuel v a pl pr st cdepth
      end
  end.

Definition aquicksort (v : list Z) : list nat :=
  let num := Z.of_nat (length v) in
  quicksort_loop (S (length v)) v (seq 0 (length v)) 0%Z (num - 1)%Z [] (Z.log2 num * 2)%Z.

(** *** numpy's pairwise summation

    [np.add.reduce] on a float64 array, as numpy's [DOUBLE_pairwise_sum]
    runs it: a plain loop below eight values, eight accumulators on a block
    of at most 128 values, two halves above; the reduction adds the result
    to its initial value 0. *)

(** The loop [for (i = 8; i < n - (n % 8); i += 8) r[j] += a[i + j]]. *)
Fixpoint accumulate (fuel : nat) (r a : list Q) : list Q * list Q :=
  match fuel with
  | O => (r, a)
  | S fuel =>
      if (8 <=? length a)%nat
      then accumulate fuel (zip_with fadd r (firstn 8 a)) (skipn 8 a)
      else (r, a)
  end.

Definition pairwise_block (a : list Q) : Q :=
  let '(r, rest) := accumulate (length a) (firstn 8 a) (skipn 8 a) in
  let r i := nth i r 0%Q in
  let res :=
    fadd (fadd (fadd (r 0%nat) (r 1%nat)) (fadd (r 2%nat) (r 3%nat)))
         (fadd (fadd (r 4%nat) (r 5%nat)) (fadd (r 6%nat) (r 7%nat))) in
  foldl fadd res rest.

Fixpoint pairwise_sum (fuel : nat) (a : list Q) : Q :=
  let n := length a in
  if (n <? 8)%nat then foldl fadd 0%Q a
  else if (n <=? 128)%nat then pairwise_block a
  else
    match fuel with
    | O => 0%Q
    | S fuel =>
        let n2 := (n / 2)%nat in
        let n2 := (n2 - n2 mod 8)%nat in
        fadd (pairwise_sum fuel (firstn n2 a)) (pairwise_sum fuel (skipn n2 a))
    end.

Definition add_reduce (a : list Q) : Q := fadd 0%Q (pairwise_sum (length a) a).

End Npy.

(** ** A small instance of the libraries

    Enough of phonenumbers, pycountry and pandas' date parsing to run the
    program on concrete uploads: a few calling codes, their regions and
    names, ISO dates, and numpy's index quicksort. *)

Module Sample.

Definition digit (c : ascii) : option Z :=
  let n := nat_of_ascii c in
  if (48 <=? n)%nat && (n <=? 57)%nat then Some (Z.of_nat (n - 48)) else None.

Fixpoint number (acc : Z) (s : string) : option Z :=
  match s with
  | EmptyString => Some acc
  | String c s' =>
      match digit c with
      | Some d => number (acc * 10 + d) s'
      | None => None
      end
  end.

(** Calling codes and the regions phonenumbers gives them. *)
Definition calling_codes : list (string * string) :=
  [ ("+1", "US"); ("+20", "EG"); ("+44", "GB"); ("+383", "XK");
    ("+966", "SA"); ("+971", "AE") ].

(** A number parses when it is [+] followed by at least eight digits. *)
Definition parse (s : string) : option string :=
  match s with
  | String "+" ds =>
      match number 0 ds with
      | Some _ => if (8 <=? String.length ds)%nat then Some s else None
      | None => None
      end
  | _ => None
  end.

Definition region (s : string) : option string :=
  snd <$> List.find (fun p => Py.startswith s (fst p)) calling_codes.

(** ISO 3166 names; there is no entry for XK. *)
Definition countries : gmap string string :=
  {[ "US" := "United States"; "EG" := "Egypt"; "GB" := "United Kingdom";
     "SA" := "Saudi Arabia"; "AE" := "United Arab Emirates" ]}.

(** Days since 1970-01-01 of a civil date. *)
Definition days_from_civil (y m d : Z) : Z :=
  let y := if (m <=? 2)%Z then (y - 1)%Z else y in
  let era := (y / 400)%Z in
  let yoe := (y - era * 400)%Z in
  let mp := ((m + 9) mod 12)%Z in
  let doy := ((153 * mp + 2) / 5 + d - 1)%Z in
  let doe := (yoe * 365 + yoe / 4 - yoe / 100 + doy)%Z in
  (era * 146097 + doe - 719468)%Z.

(** [YYYY-MM-DD] to epoch seconds. *)
Definition parse_iso (s : string) : option Z :=
  match s with
  | String y1 (String y2 (String y3 (String y4 (String "-"
      (String m1 (String m2 (String "-" (String d1 (String d2 EmptyString))))))))) =>
      y ← number 0 (String y1 (String y2 (String y3 (String y4 EmptyString))));
      m ← number 0 (String m1 (String m2 EmptyString));
      d ← number 0 (String d1 (String d2 EmptyString));
      if (1 <=? m)%Z && (m <=? 12)%Z && (1 <=? d)%Z && (d <=? 31)%Z
      then Some (days_from_civil y m d * 86400)%Z
      else None
  | _ => None
  end.

Definition parse_cell (c : cell) : option Z :=
  match c with
  | Str s => parse_iso s
  | _ => None
  end.

#[export] Instance externals : Externals := {|
  PhoneNumber := string;
  Country := string;
  phonenumbers_parse := parse;
  region_code_for_number := region;
  pycountry_get := fun code => countries !! code;
  country_name_attr := Some;
  to_datetime := map parse_cell;
  to_datetime_scalar := parse_iso;
  argsort := Npy.aquicksort;
  float_sum := Npy.add_reduce
|}.

(** The two raw rows of the end-to-end example. *)
Definition example_upload : DataFrame :=
  mkDF [ "campaign_name"; "dispatched_at"; "delivered_at"; "customer_external_id" ]
    [ [ Str "Auto CPC Promo"; Str "2024-01-01"; Str "2024-01-01"; Str "+14155552671" ];
      [ Str "Winter Sale"; Str "2024-01-02"; NaN; Str "+442071838750" ] ].

End Sample.

(** ** Vocabulary of the statements *)

(** One filter dimension as a predicate on a record (spec 4.5): an absent or
    empty list of values lets every record pass. *)
Definition dimension_ok (values : option (list string)) (i : nat) (r : list cell) : bool :=
  if truthy_list values then isin values (cell_at i r) else true.

(** The inclusive calendar range of the date dimension; [None] when no date
    predicate applies. *)
Definition in_range (range : option (Z * Z)) (i : nat) (r : list cell) : bool :=
  match range with
  | None => true
  | Some (lo, hi) =>
      match cell_at i r with
      | Timestamp t => (lo <=? date_of t)%Z && (date_of t <=? hi)%Z
      | _ => false
      end
  end.

(** The range that a pair of date arguments denotes: both must be supplied. *)
Definition date_range {E : Externals} (start_date end_date : option string)
  : result (option (Z * Z)) :=
  if truthy_str start_date && truthy_str end_date then
    lo ← scalar_date start_date;
    hi ← scalar_date end_date;
    Ok (Some (lo, hi))
  else Ok None.

(** The unit roundoff of float64, [2^-53]. *)
Definition unit_roundoff : Q := 1 # 9007199254740992.

(** The exact sum of rational numbers. *)
Definition Qsum (l : list Q) : Q := foldr Qplus 0%Q l.

(** [float_sums n l x]: [x] is the result of adding the values of [l] by
    [n] float64 additions, in some order and with some bracketing; an
    initial value 0 is the sum of no value. *)
Inductive float_sums : nat -> list Q -> Q -> Prop :=
| float_sums_nil : float_sums 0 [] 0%Q
| float_sums_one x : float_sums 0 [x] x
| float_sums_add n1 n2 l1 l2 x1 x2 :
    float_sums n1 l1 x1 -> float_sums n2 l2 x2 ->
    float_sums (S (n1 + n2)) (l1 ++ l2) (fadd x1 x2)
| float_sums_perm n l l' x :
    l ≡ₚ l' -> float_sums n l x -> float_sums n l' x.

(** A record passes a filter dimension when no value is asked for, or when
    its cell is one of the values asked for. *)
Definition passes (values : option (list string)) (c : cell) : Prop :=
  match values with
  | None | Some [] => True
  | Some values => exists s, c = Str s /\ s ∈ values
  end.

(** A record passes the date dimension when no range applies, or when the
    day of its dispatch time lies between the day of the start and the day
    of the end, both included; the day of a time [t] in seconds is
    [t / 86400]. *)
Definition dispatched_within (range : option (Z * Z)) (c : cell) : Prop :=
  match range with
  | None => True
  | Some (t1, t2) =>
      exists t, c = Timestamp t /\ (t1 / 86400 <= t / 86400 <= t2 / 86400)%Z
  end.

#[global] Instance passes_dec (values : option (list string)) (c : cell) :
  Decision (passes values c).
Proof.
  destruct values as [[|v l]|]; [left; exact I| |left; exact I].
  destruct c as [|s|n|t];
    try (right; intros (s' & Hs & _); discriminate).
  destruct (decide (s ∈ v :: l)) as [Hin|Hout].
  - left. by exists s.
  - right. intros (s' & [= <-] & Hin). done.
Defined.

#[global] Instance dispatched_within_dec (range : option (Z * Z)) (c : cell) :
  Decision (dispatched_within range c).
Proof.
  destruct range as [[t1 t2]|]; [|left; exact I].
  destruct c as [|s|n|t];
    try (right; intros (t' & Ht & _); discriminate).
  destruct (decide (t1 / 86400 <= t / 86400 <= t2 / 86400)%Z) as [Hin|Hout].
  - left. by exists t.
  - right. intros (t' & [= <-] & Hin). done.
Defined.

(** The range that the two date arguments denote: both must be supplied,
    non-empty and readable as times; with one of them absent or empty no
    range applies. *)
Inductive reads_range {E : Externals}
  : option string -> option string -> option (Z * Z) -> Prop :=
| reads_both s1 s2 t1 t2 :
    s1 <> EmptyString -> s2 <> EmptyString ->
    to_datetime_scalar s1 = Some t1 -> to_datetime_scalar s2 = Some t2 ->
    reads_range (Some s1) (Some s2) (Some (t1, t2))
| reads_no_start ed : reads_range None ed None
| reads_empty_start ed : reads_range (Some EmptyString) ed None
| reads_no_end sd : reads_range sd None None
| reads_empty_end sd : reads_range sd (Some EmptyString) None.

(** How a phone number resolves, case by case. *)
Inductive resolves {E : Externals} (phone : string) : string -> Prop :=
| resolves_unparseable :
    phonenumbers_parse phone = None ->
    resolves phone "Unknown"
| resolves_no_region n :
    phonenumbers_parse phone = Some n ->
    region_code_for_number n = None \/ region_code_for_number n = Some EmptyString ->
    resolves phone "Unknown"
| resolves_named n code c name :
    phonenumbers_parse phone = Some n ->
    region_code_for_number n = Some code -> code <> EmptyString ->
    pycountry_get code = Some c -> country_name_attr c = Some name ->
    resolves phone name
| resolves_unmapped n code :
    phonenumbers_parse phone = Some n ->
    region_code_for_number n = Some code -> code <> EmptyString ->
    pycountry_get code = None ->
    resolves phone code
| resolves_special n code c :
    phonenumbers_parse phone = Some n ->
    region_code_for_number n = Some code -> code <> EmptyString ->
    pycountry_get code = Some c -> country_name_attr c = None ->
    resolves phone (default code (special_cases !! code)).

(** E.164-like form: a leading [+] is added when missing. *)
Definition with_plus (phone_number : string) : string :=
  if Py.startswith phone_number "+" then phone_number else "+" +:+ phone_number.

(** The Dispatched count of a Country Analysis row. *)
Definition dispatched_of (r : list cell) : Z := int_of (cell_at 1 r).

(** A stable descending sort by Dispatched (spec 4.6): a row is placed
    before the first later row that does not exceed it. *)
Fixpoint insert_desc (r : list cell) (l : list (list cell)) : list (list cell) :=
  match l with
  | [] => [r]
  | x :: l' =>
      if (dispatched_of r <? dispatched_of x)%Z then x :: insert_desc r l' else r :: l
  end.

Definition stable_sort_desc (l : list (list cell)) : list (list cell) :=
  foldr insert_desc [] l.

(** An index array sorts [keys]: it is a permutation of the positions and
    the keys read along it never decrease. *)
Definition sorts (keys : list Z) (indexer : list nat) : Prop :=
  indexer ≡ₚ seq 0 (length keys) /\
  Sorted Z.le (map (fun i => nth i keys 0%Z) indexer).

(** ** Concrete datasets *)

Module Cases.

(** The dataset that the end-to-end example upload produces. *)
Definition example_dataset : DataFrame :=
  mkDF [ "campaign_name"; "dispatched_at"; "delivered_at"; "customer_external_id";
         "campaign_type"; "country_name" ]
    [ [ Str "Auto CPC Promo"; Timestamp 1704067200; Str "2024-01-01";
        Str "+14155552671"; Str "Commercial"; Str "United States" ];
      [ Str "Winter Sale"; Timestamp 1704153600; NaN;
        Str "+442071838750"; Str "Non-Commercial"; Str "United Kingdom" ] ].

(** An upload with every column that the views read. *)
Definition full_upload : DataFrame :=
  mkDF [ "campaign_name"; "customer_external_id"; "dispatched_at"; "sent_at";
         "delivered_at"; "read_at"; "button_clicks"; "link_clicks" ]
    [ [ Str "Auto CPC Promo"; Str "+14155552671"; Str "2024-01-01"; Str "2024-01-01";
        Str "2024-01-01"; Str "2024-01-01"; Int 1; NaN ];
      [ Str "Winter Sale"; Str "+442071838750"; Str "2024-01-02"; Str "2024-01-02";
        Str "2024-01-02"; NaN; NaN; NaN ];
      [ Str "Winter Sale"; Str "+442071838751"; Str "2024-01-03"; Str "2024-01-03";
        NaN; NaN; NaN; NaN ];
      [ Str "Survey"; Str "+38344123456"; Str "not a date"; NaN; NaN; NaN; NaN; NaN ];
      [ Str "Survey"; Str "no phone"; Str "2024-01-05"; Str "2024-01-05";
        Str "2024-01-05"; NaN; NaN; Int 2 ] ].

Definition full_dataset : DataFrame :=
  mkDF [ "campaign_name"; "customer_external_id"; "dispatched_at"; "sent_at";
         "delivered_at"; "read_at"; "button_clicks"; "link_clicks";
         "campaign_type"; "country_name" ]
    [ [ Str "Auto CPC Promo"; Str "+14155552671"; Timestamp 1704067200; Str "2024-01-01";
        Str "2024-01-01"; Str "2024-01-01"; Int 1; NaN;
        Str "Commercial"; Str "United States" ];
      [ Str "Winter Sale"; Str "+442071838750"; Timestamp 1704153600; Str "2024-01-02";
        Str "2024-01-02"; NaN; NaN; NaN;
        Str "Non-Commercial"; Str "United Kingdom" ];
      [ Str "Winter Sale"; Str "+442071838751"; Timestamp 1704240000; Str "2024-01-03";
        NaN; NaN; NaN; NaN;
        Str "Non-Commercial"; Str "United Kingdom" ];
      [ Str "Survey"; Str "no phone"; Timestamp 1704412800; Str "2024-01-05";
        Str "2024-01-05"; NaN; NaN; Int 2;
        Str "Non-Commercial"; Str "Unknown" ] ].

(** An upload with the three required columns and a [Delivered] column,
    which the rename table maps to [delivered], not to [delivered_at]. *)
Definition delivered_upload : DataFrame :=
  mkDF [ "Campaign Name"; "customer_external_id"; "dispatched_at"; "Delivered" ]
    [ [ Str "Spring Sale"; Str "+201001234567"; Str "2024-02-01"; Str "2024-02-01" ] ].

Definition delivered_dataset : DataFrame :=
  mkDF [ "campaign_name"; "customer_external_id"; "dispatched_at"; "delivered";
         "campaign_type"; "country_name" ]
    [ [ Str "Spring Sale"; Str "+201001234567"; Timestamp 1706745600; Str "2024-02-01";
        Str "Non-Commercial"; Str "Egypt" ] ].

(** An upload without any campaign column. *)
Definition no_campaign_upload : DataFrame :=
  mkDF [ "customer_external_id"; "dispatched_at" ]
    [ [ Str "+201001234567"; Str "2024-02-01" ] ].

(** A dataset of twenty countries, one dispatched record each but two for
    Kenya, in alphabetical order of country. *)
Definition twenty_countries : list string :=
  [ "Algeria"; "Bahrain"; "Chile"; "Denmark"; "Egypt"; "Finland"; "Ghana";
    "Hungary"; "India"; "Japan"; "Kenya"; "Lebanon"; "Morocco"; "Norway";
    "Oman"; "Peru"; "Qatar"; "Romania"; "Spain"; "Tunisia" ].

Definition country_record (country : string) : list cell :=
  [ Str country; Timestamp 1704067200; Timestamp 1704067200; NaN; NaN; NaN ].

Definition twenty_dataset : DataFrame :=
  mkDF [ "country_name"; "dispatched_at"; "delivered_at"; "read_at";
         "button_clicks"; "link_clicks" ]
    (map country_record twenty_countries ++ [ country_record "Kenya" ]).

(** A dataset in which no record of Egypt was delivered or read, and the one
    record of Ghana carries a read time without a delivery time. *)
Definition undelivered_dataset : DataFrame :=
  mkDF [ "country_name"; "dispatched_at"; "delivered_at"; "read_at";
         "button_clicks"; "link_clicks" ]
    [ [ Str "Egypt"; Timestamp 1704067200; NaN; NaN; NaN; NaN ];
      [ Str "Ghana"; Timestamp 1704067200; NaN; Timestamp 1704070800; NaN; NaN ] ].

(** A dataset of two Non-Commercial campaigns, of one and of five delivered
    records. *)
Definition delivered_record (campaign : string) : list cell :=
  [ Str campaign; Str "Non-Commercial"; Timestamp 1704067200 ].

Definition one_and_five : DataFrame :=
  mkDF [ "campaign_name"; "campaign_type"; "delivered_at" ]
    (delivered_record "Survey" :: replicate 5 (delivered_record "Winter Sale")).

(** [country_df] of [full_dataset]. *)
Definition full_country_df : DataFrame :=
  mkDF country_labels
    [ [ Str "United Kingdom"; Int 2; Int 1; Int 0; Int 0; Int 0;
        Str "50.0%"; Str "0.0%" ];
      [ Str "United States"; Int 1; Int 1; Int 1; Int 1; Int 0;
        Str "100.0%"; Str "100.0%" ];
      [ Str "Unknown"; Int 1; Int 1; Int 0; Int 0; Int 1;
        Str "100.0%"; Str "0.0%" ] ].

End Cases.


(** ** Vocabulary of the further properties *)

(** The canonical name of a label under a rename table: the name given to
    it by the first entry for it, the label itself when there is none. *)
Fixpoint canonical_label (mapping : list (string * string)) (label : string) : string :=
  match mapping with
  | [] => label
  | (old, new) :: mapping' =>
      if String.eqb label old then new else canonical_label mapping' label
  end.

(** No canonical name of the table is itself an alias of a later entry. *)
Fixpoint renames_apart (mapping : list (string * string)) : bool :=
  match mapping with
  | [] => true
  | (old, new) :: mapping' =>
      negb (bool_decide (new ∈ map fst mapping')) && renames_apart mapping'
  end.

(** The strict order of the group keys. *)
Definition cell_lt (a b : cell) : Prop := cell_compare a b = Lt.

(** The strict order of labels, by code point. *)
Definition label_lt (a b : string) : Prop := String.compare a b = Lt.

(** The rows of a frame whose key cell is [g]. *)
Definition group_rows (df : DataFrame) (k : nat) (g : cell) : list (list cell) :=
  List.filter (fun r => bool_decide (cell_at k r = g)) (rows df).

(** The number of rows with a value in column [i]. *)
Definition count_at (i : nat) (l : list (list cell)) : Z :=
  count (map (cell_at i) l).

(** The language of a regular expression. *)
Inductive matches : regex -> string -> Prop :=
| matches_eps : matches Eps EmptyString
| matches_lit c : matches (Lit c) (String c EmptyString)
| matches_any c : c <> newline -> matches AnyChar (String c EmptyString)
| matches_alt_l r1 r2 s : matches r1 s -> matches (Alt r1 r2) s
| matches_alt_r r1 r2 s : matches r2 s -> matches (Alt r1 r2) s
| matches_cat r1 r2 s1 s2 :
    matches r1 s1 -> matches r2 s2 -> matches (Cat r1 r2) (s1 +:+ s2)
| matches_star_nil r : matches (Star r) EmptyString
| matches_star_cons r s1 s2 :
    matches r s1 -> matches (Star r) s2 -> matches (Star r) (s1 +:+ s2).

(** A string without a line break. *)
Fixpoint one_line (s : string) : bool :=
  match s with
  | EmptyString => true
  | String c s' => negb (Ascii.eqb c newline) && one_line s'
  end.

(** [s] holds [first] and, later on the same line, [second]. *)
Definition in_order (first second s : string) : Prop :=
  exists pre mid suf,
    s = pre +:+ first +:+ mid +:+ second +:+ suf /\ one_line mid = true.

(** ** The unregistered callback [handle_upload_and_tabs] *)

(** Its rename table, applied in one [df.rename(columns=...)]. *)
Definition legacy_column_mapping : list (string * string) :=
  [ ("Button Clicks", "button_clicks");
    ("Delivered", "delivered");
    ("Link Clicks", "link_clicks");
    ("Read", "read_at");
    ("Sent", "sent_at") ].

(** [df.rename(columns=mapping)] with a whole table. *)
Definition rename_all (df : DataFrame) (mapping : list (string * string)) : DataFrame :=
  mkDF (map (canonical_label mapping) (columns df)) (rows df).

Definition legacy_keywords : list string := [ "cps"; "top up"; "gems"; "dt" ].

(** [type(x).__name__] of a cell. *)
Definition type_name (c : cell) : string :=
  match c with
  | NaN => "float"
  | Str _ => "str"
  | Int _ => "int"
  | Timestamp _ => "Timestamp"
  end.

(** The classifier of the old callback: [x.lower()] needs a string. *)
Definition legacy_campaign_type (x : cell) : result cell :=
  match x with
  | Str s =>
      Ok (Str (if existsb (fun keyword => Py.contains keyword (Py.lower s)) legacy_keywords
               then "Commercial" else "Non-Commercial"))
  | _ =>
      Raise (AttributeError
               ("'" +:+ type_name x +:+ "' object has no attribute 'lower'"))
  end.

(** What the old callback shows: a message or a table, or the error block
    with its heading and its details. *)
Inductive legacy_content :=
| LegacyView (c : content)
| LegacyError (title details : string).

(** Its five outputs. *)
Record legacy_outputs := mkLegacyOut {
  legacy_style : upd string;
  legacy_options : upd (list cell);
  legacy_start : upd (option Z);
  legacy_end : upd (option Z);
  legacy_tab_content : upd legacy_content
}.

Definition legacy_only_content (c : legacy_content) : legacy_outputs :=
  mkLegacyOut no_update no_update no_update no_update (Set_ c).

Section Legacy.
Context {E : Externals}.

(** The body of the [try] block up to [dropna]. *)
Definition legacy_process (decoded : result DataFrame) : result DataFrame :=
  df ← decoded;
  let df := rename_all df legacy_column_mapping in
  names ← getitem df "campaign_name";
  types ← mapM legacy_campaign_type names;
  let df := setitem df "campaign_type" types in
  ids ← getitem df "customer_external_id";
  let df := setitem df "country_name" (map (fun x => Str (get_country_name (py_str x))) ids) in
  countries ← getitem df "country_name";
  let df := setitem df "country_name" (map (fillna (Str "Unknown")) countries) in
  dispatched_at ← getitem df "dispatched_at";
  let df := setitem df "dispatched_at" (map of_datetime (to_datetime dispatched_at)) in
  dropna df "dispatched_at".

(** The campaign-summary tab: the check for missing columns first. *)
Definition legacy_summary (data : DataFrame) : result content :=
  match missing_columns_report data with
  | Some report => Ok report
  | None =>
      summary_df ← groupby_count data "campaign_name" summary_columns;
      Ok (DataTable "summary-table" (rename_columns summary_df summary_labels))
  end.

Definition handle_upload_and_tabs (data : option DataFrame) (triggered : list string)
    (contents : option (result DataFrame)) (active_tab : string)
  : option DataFrame * result legacy_outputs :=
  match triggered with
  | [] => (data, Raise PreventUpdate)
  | trigger :: _ =>
      if String.eqb trigger "upload-data" then
        match contents with
        | None =>
            (data, Ok (mkLegacyOut (Set_ "none") (Set_ []) (Set_ None) (Set_ None)
                         (Set_ (LegacyView (Div "Please upload a file to begin analysis.")))))
        | Some decoded =>
            match
              df ← legacy_process decoded;
              dispatched_at ← getitem df "dispatched_at";
              countries ← getitem df "country_name";
              Ok (df, min_date dispatched_at, max_date dispatched_at,
                  sorted_unique countries)
            with
            | Ok (df, start_date, end_date, country_options) =>
                (Some df,
                 Ok (mkLegacyOut (Set_ "block") (Set_ country_options)
                       (Set_ start_date) (Set_ end_date)
                       (Set_ (LegacyView (DataTable "data-table" df)))))
            | Raise e =>
                (data,
                 Ok (mkLegacyOut (Set_ "none") (Set_ []) (Set_ None) (Set_ None)
                       (Set_ (LegacyError "Error Processing File"
                                ("Details: " +:+ exn_str e)))))
            end
        end
      else if String.eqb trigger "tabs" then
        match data with
        | None =>
            (data, Ok (legacy_only_content
                         (LegacyView (Div "No data available. Please upload a file."))))
        | Some d =>
            if String.eqb active_tab "data-table-tab" then
              (data, Ok (legacy_only_content (LegacyView (DataTable "data-table" d))))
            else if String.eqb active_tab "campaign-summary-tab" then
              (data, c ← legacy_summary d; Ok (legacy_only_content (LegacyView c)))
            else (data, Raise PreventUpdate)
        end
      else (data, Raise PreventUpdate)
  end.

End Legacy.

(** * Proofs *)

(** ** Lists *)

Lemma filter_sublist {A} (p : A -> bool) (l : list A) :
  sublist (List.filter p l) l.
Proof.
  induction l as [|x l IH]; simpl.
  - constructor.
  - destruct (p x); [by apply sublist_skip | by apply sublist_cons].
Qed.

Lemma filter_filter {A} (p q : A -> bool) (l : list A) :
  List.filter q (List.filter p l) = List.filter (fun x => p x && q x) l.
Proof.
  induction l as [|x l IH]; simpl; [done|].
  destruct (p x); simpl; [destruct (q x)|]; by rewrite IH.
Qed.

Lemma filter_all {A} (p : A -> bool) (l : list A) :
  (forall x, p x = true) -> List.filter p l = l.
Proof.
  intros Hp. induction l as [|x l IH]; simpl; [done|]. by rewrite Hp, IH.
Qed.

Lemma boolean_index_filter (df : DataFrame) (p : list cell -> bool) :
  boolean_index df (map p (rows df)) = select df p.
Proof.
  unfold boolean_index, select. f_equal.
  induction (rows df) as [|r l IH]; simpl; [done|].
  destruct (p r); simpl; by rewrite IH.
Qed.

(** ** Frames *)

Lemma index_of_Some (label : string) (l : list string) (i : nat) :
  index_of label l = Some i -> l !! i = Some label.
Proof.
  revert i. induction l as [|c l IH]; intros i; simpl; [done|].
  destruct (String.eqb c label) eqn:Hc.
  - apply String.eqb_eq in Hc. by intros [= <-]; subst.
  - destruct (index_of label l) as [j|]; simpl; [|done].
    intros [= <-]. simpl. by apply IH.
Qed.

Lemma index_of_app_other (label other : string) (l : list string) :
  label <> other -> index_of label (l ++ [other]) = index_of label l.
Proof.
  intros Hne. induction l as [|c l IH]; simpl.
  - destruct (String.eqb other label) eqn:Hc; [|done].
    apply String.eqb_eq in Hc. by subst.
  - destruct (String.eqb c label); [done|]. by rewrite IH.
Qed.

Lemma index_of_app_fresh (label : string) (l : list string) :
  index_of label l = None -> index_of label (l ++ [label]) = Some (length l).
Proof.
  induction l as [|c l IH]; simpl.
  - by rewrite String.eqb_refl.
  - destruct (String.eqb c label); [done|].
    destruct (index_of label l); [done|]. intros _. by rewrite IH.
Qed.

Lemma index_of_lt (label : string) (l : list string) (i : nat) :
  index_of label l = Some i -> (i < length l)%nat.
Proof. intros H. apply index_of_Some in H. by apply lookup_lt_Some in H. Qed.

Lemma get_loc_Ok (df : DataFrame) (label : string) (i : nat) :
  get_loc df label = Ok i <-> index_of label (columns df) = Some i.
Proof.
  unfold get_loc. destruct (index_of label (columns df)); split; congruence.
Qed.

Lemma get_loc_has_column (df : DataFrame) (label : string) (i : nat) :
  get_loc df label = Ok i -> has_column df label = true.
Proof.
  intros H. apply get_loc_Ok in H. apply index_of_Some in H.
  unfold has_column. apply bool_decide_eq_true. by eapply list_elem_of_lookup_2.
Qed.

Lemma cell_at_set_cell_same (i : nat) (v : cell) (r : list cell) :
  cell_at i (set_cell i v r) = v.
Proof.
  unfold cell_at, set_cell. rewrite nth_lookup.
  rewrite list_lookup_insert_eq; [done|].
  rewrite length_app, length_replicate. lia.
Qed.

Lemma cell_at_set_cell_other (i j : nat) (v : cell) (r : list cell) :
  j <> i -> cell_at j (set_cell i v r) = cell_at j r.
Proof.
  intros Hne. unfold cell_at, set_cell. rewrite !nth_lookup.
  rewrite list_lookup_insert_ne by done.
  destruct (decide (j < length r)%nat) as [Hlt|Hge].
  - by rewrite lookup_app_l.
  - rewrite lookup_app_r by lia.
    rewrite (lookup_ge_None_2 r) by lia. simpl.
    destruct (replicate _ _ !! _) as [c|] eqn:Hc; [|done].
    apply lookup_replicate in Hc. by destruct Hc as [-> _].
Qed.

(** What [df[label] = vals] does: the position [i] of the assigned column,
    the positions of the other labels, and the rows. *)
Lemma setitem_spec (df : DataFrame) (label : string) (vals : list cell) :
  exists i,
    get_loc (setitem df label vals) label = Ok i /\
    (forall other, other <> label ->
       get_loc (setitem df label vals) other = get_loc df other) /\
    (forall other j, other <> label -> get_loc df other = Ok j -> j <> i) /\
    (forall j, get_loc df label = Ok j -> j = i) /\
    rows (setitem df label vals) =
      imap (fun k r => set_cell i (nth k vals NaN) r) (rows df).
Proof.
  unfold setitem. destruct (index_of label (columns df)) as [i|] eqn:Hi.
  - exists i. simpl. repeat split.
    + by apply get_loc_Ok.
    + intros other j Hne Hj ->. apply get_loc_Ok, index_of_Some in Hj.
      apply index_of_Some in Hi. congruence.
    + intros j Hj. apply get_loc_Ok in Hj. congruence.
  - exists (length (columns df)). simpl. repeat split.
    + apply get_loc_Ok. simpl. by apply index_of_app_fresh.
    + intros other Hne. unfold get_loc. simpl. by rewrite index_of_app_other.
    + intros other j Hne Hj ->. apply get_loc_Ok, index_of_lt in Hj. lia.
    + intros j Hj. apply get_loc_Ok in Hj. congruence.
Qed.

Lemma index_of_rename_other (label old new : string) (l : list string) :
  label <> old -> label <> new ->
  index_of label (map (fun c => if String.eqb c old then new else c) l)
  = index_of label l.
Proof.
  intros Ho Hn. induction l as [|c l IH]; simpl; [done|]. rewrite IH.
  destruct (String.eqb c old) eqn:Hc.
  - apply String.eqb_eq in Hc. subst c.
    replace (String.eqb new label) with false
      by (symmetry; apply String.eqb_neq; congruence).
    replace (String.eqb old label) with false
      by (symmetry; apply String.eqb_neq; congruence).
    done.
  - done.
Qed.

Lemma get_loc_rename_other (df : DataFrame) (label old new : string) :
  label <> old -> label <> new ->
  get_loc (rename df old new) label = get_loc df label.
Proof.
  intros Ho Hn. unfold get_loc, rename. simpl.
  by rewrite index_of_rename_other.
Qed.

Lemma filter_head {A} (p : A -> bool) (l : list A) (x : A) (k : list A) :
  List.filter p l = x :: k -> p x = true.
Proof.
  induction l as [|y l IH]; simpl; [done|].
  destruct (p y) eqn:Hy; [|done]. by intros [= -> _].
Qed.

Lemma apply_column_mapping_rows (df : DataFrame) :
  rows (apply_column_mapping df) = rows df.
Proof.
  unfold apply_column_mapping. generalize column_mapping. intros m.
  revert df. induction m as [|[old new] m IH]; intros df; simpl; [done|].
  rewrite IH. by destruct (has_column df old).
Qed.

Lemma apply_column_mapping_dispatched_at (df : DataFrame) :
  get_loc (apply_column_mapping df) "dispatched_at" = get_loc df "dispatched_at".
Proof.
  unfold apply_column_mapping.
  assert (Forall (fun p => "dispatched_at" <> p.1 /\ "dispatched_at" <> p.2)
            column_mapping) as Hm by (repeat constructor; done).
  revert Hm. generalize column_mapping. intros m Hm. revert df.
  induction Hm as [|[old new] m [Ho Hn] _ IH]; intros df; simpl; [done|].
  rewrite IH. destruct (has_column df old); [|done].
  by apply get_loc_rename_other.
Qed.

Lemma resolve_campaign_name_rows (df df' : DataFrame) :
  resolve_campaign_name df = Ok df' -> rows df' = rows df.
Proof.
  unfold resolve_campaign_name.
  destruct (has_column df "campaign_name"); [by intros [= <-]|].
  destruct (campaign_cols df); [done|]. by intros [= <-].
Qed.

Lemma resolve_campaign_name_dispatched_at (df df' : DataFrame) :
  resolve_campaign_name df = Ok df' ->
  get_loc df' "dispatched_at" = get_loc df "dispatched_at".
Proof.
  unfold resolve_campaign_name.
  destruct (has_column df "campaign_name"); [by intros [= <-]|].
  destruct (campaign_cols df) as [|c k] eqn:Hc; [done|]. intros [= <-].
  apply get_loc_rename_other; [|done].
  intros <-. apply filter_head in Hc. done.
Qed.

Lemma bind_Ok {A B} (a : A) (f : A -> result B) : (Ok a ≫= f) = f a.
Proof. reflexivity. Qed.

Lemma nth_map_lookup {A B} (f : A -> B) (l : list A) (k : nat) (d : B) (x : A) :
  l !! k = Some x -> nth k (map f l) d = f x.
Proof. intros H. by rewrite nth_lookup, list_lookup_fmap, H. Qed.

Lemma map_imap_ext {A B C} (g : B -> C) (F : nat -> A -> B) (h : A -> C) (l : list A) :
  (forall k r, g (F k r) = h r) -> map g (imap F l) = map h l.
Proof.
  intros Hg. apply list_eq. intros k.
  rewrite !list_lookup_fmap, list_lookup_imap.
  destruct (l !! k); simpl; [|done]. by rewrite Hg.
Qed.

Lemma getitem_Ok (df : DataFrame) (label : string) (col : list cell) :
  getitem df label = Ok col ->
  exists i, get_loc df label = Ok i /\ col = map (cell_at i) (rows df).
Proof.
  unfold getitem. destruct (get_loc df label) as [i|e]; [|done].
  rewrite bind_Ok. intros [= <-]. by exists i.
Qed.

Lemma campaign_name_series_Ok (df : DataFrame) (names : list cell) :
  campaign_name_series df = Ok names ->
  exists i, names = map (cell_at i) (rows df).
Proof.
  unfold campaign_name_series. destruct (_ <? _)%nat; [done|].
  intros H. apply getitem_Ok in H as (i & _ & ->). by exists i.
Qed.

Lemma campaign_type_of_cases (x : cell) :
  campaign_type_of x = Str "Commercial" \/ campaign_type_of x = Str "Non-Commercial".
Proof. unfold campaign_type_of. destruct (is_commercial_campaign x); auto. Qed.

Lemma fillna_Str (v : string) (c : cell) :
  (c = NaN \/ exists s, c = Str s) -> exists s, fillna (Str v) c = Str s.
Proof. intros [->|[s ->]]; simpl; eauto. Qed.

Lemma of_datetime_notna (t : option Z) :
  notna (of_datetime t) = true -> exists z, of_datetime t = Timestamp z.
Proof. destruct t; simpl; [eauto | done]. Qed.

Lemma nth_of_datetime (k : nat) (l : list (option Z)) :
  nth k (map of_datetime l) NaN = of_datetime (nth k l None).
Proof.
  rewrite !nth_lookup, list_lookup_fmap. by destruct (l !! k).
Qed.

Section Enricher.
Context {E : Externals}.

(** The frame that [process_uploaded_file] holds before [dropna]: row by
    row the raw row with three cells set. *)
Lemma process_uploaded_file_rows (decoded : result DataFrame) (df : DataFrame) :
  process_uploaded_file decoded = Ok df ->
  exists raw, decoded = Ok raw /\
  exists (enriched : list (list cell)) (id it ic : nat) (col : list cell),
    getitem raw "dispatched_at" = Ok col /\
    get_loc df "dispatched_at" = Ok id /\
    get_loc df "campaign_type" = Ok it /\
    get_loc df "country_name" = Ok ic /\
    rows df = List.filter (fun r => notna (cell_at id r)) enriched /\
    length enriched = length (rows raw) /\
    forall k r, enriched !! k = Some r ->
      exists r0, rows raw !! k = Some r0 /\
        cell_at id r = of_datetime (nth k (to_datetime col) None) /\
        (cell_at it r = Str "Commercial" \/ cell_at it r = Str "Non-Commercial") /\
        (exists s, cell_at ic r = Str s) /\
        forall j, j <> id -> j <> it -> j <> ic -> cell_at j r = cell_at j r0.
Proof.
  intros H. unfold process_uploaded_file in H.
  destruct decoded as [raw|e]; [rewrite bind_Ok in H | done].
  exists raw. split; [done|].
  destruct (resolve_campaign_name (apply_column_mapping raw)) as [df1|e] eqn:H1;
    [rewrite bind_Ok in H | done].
  assert (rows df1 = rows raw) as Hrows1.
  { erewrite resolve_campaign_name_rows by done. apply apply_column_mapping_rows. }
  assert (get_loc df1 "dispatched_at" = get_loc raw "dispatched_at") as Hd1.
  { erewrite resolve_campaign_name_dispatched_at by done.
    apply apply_column_mapping_dispatched_at. }
  destruct (campaign_name_series df1) as [names|e] eqn:Hnames;
    [rewrite bind_Ok in H | done].
  apply campaign_name_series_Ok in Hnames as [n ->].
  destruct (setitem_spec df1 "campaign_type" (map campaign_type_of (map (cell_at n) (rows df1))))
    as (it & Hit & Hit_other & Hit_ne & _ & Hrows2).
  set (df2 := setitem df1 "campaign_type" _) in *.
  destruct (getitem df2 "customer_external_id") as [ids|e] eqn:Hids;
    [rewrite bind_Ok in H | done].
  apply getitem_Ok in Hids as (x & _ & ->).
  destruct (setitem_spec df2 "country_name"
              (map (fun x => Str (get_country_name (py_str x))) (map (cell_at x) (rows df2))))
    as (ic3 & Hic3 & Hic3_other & Hic3_ne & _ & Hrows3).
  set (df3 := setitem df2 "country_name" _) in *.
  destruct (getitem df3 "country_name") as [countries|e] eqn:Hcountries;
    [rewrite bind_Ok in H | done].
  apply getitem_Ok in Hcountries as (ic3' & Hic3' & ->).
  assert (ic3' = ic3) as -> by congruence.
  destruct (setitem_spec df3 "country_name"
              (map (fillna (Str "Unknown")) (map (cell_at ic3) (rows df3))))
    as (ic & Hic & Hic_other & Hic_ne & Hic_same & Hrows4).
  assert (ic3 = ic) as -> by (by apply Hic_same).
  set (df4 := setitem df3 "country_name" _) in *.
  destruct (getitem df4 "dispatched_at") as [disp|e] eqn:Hdisp;
    [rewrite bind_Ok in H | done].
  apply getitem_Ok in Hdisp as (id' & Hid' & ->).
  destruct (setitem_spec df4 "dispatched_at"
              (map of_datetime (to_datetime (map (cell_at id') (rows df4)))))
    as (id & Hid & Hid_other & Hid_ne & Hid_same & Hrows5).
  assert (id' = id) as -> by (by apply Hid_same).
  set (df5 := setitem df4 "dispatched_at" _) in *.
  unfold dropna in H. rewrite Hid, bind_Ok in H. injection H as <-.
  (* positions of the three labels are pairwise distinct *)
  assert (get_loc df4 "campaign_type" = Ok it) as Hit4.
  { rewrite Hic_other, Hic3_other by done. done. }
  assert (it <> id) as Hitid by (by eapply Hid_ne; [|apply Hit4]).
  assert (ic <> id) as Hicid by (by eapply Hid_ne; [|apply Hic]).
  assert (get_loc df2 "dispatched_at" = Ok id) as Hid2.
  { rewrite <- Hic3_other, <- Hic_other by done. done. }
  assert (get_loc df3 "campaign_type" = Ok it) as Hit3.
  { rewrite Hic3_other by done. done. }
  assert (it <> ic) as Hitic by (by eapply Hic_ne; [|apply Hit3]).
  assert (get_loc raw "dispatched_at" = Ok id) as Hid0.
  { rewrite <- Hd1, <- Hit_other by done. done. }
  (* the column handed to [to_datetime] is the raw one *)
  assert (map (cell_at id) (rows df4) = map (cell_at id) (rows raw)) as Hcol.
  { rewrite Hrows4, Hrows3, Hrows2, Hrows1.
    rewrite (map_imap_ext _ _ (cell_at id))
      by (intros; by apply cell_at_set_cell_other).
    rewrite (map_imap_ext _ _ (cell_at id))
      by (intros; by apply cell_at_set_cell_other).
    apply map_imap_ext. intros. by apply cell_at_set_cell_other. }
  exists (rows df5), id, it, ic, (map (cell_at id) (rows raw)).
  split; [unfold getitem; by rewrite Hid0|].
  split; [done|].
  split; [change (get_loc df5 "campaign_type" = Ok it); by rewrite Hid_other|].
  split; [change (get_loc df5 "country_name" = Ok ic); by rewrite Hid_other|].
  split; [done|].
  split.
  { rewrite Hrows5, Hrows4, Hrows3, Hrows2, Hrows1. by rewrite !length_imap. }
  intros k r Hr.
  rewrite Hrows5 in Hr. apply list_lookup_imap_Some in Hr as (r4 & Hr4 & ->).
  pose proof Hr4 as Hr4'.
  rewrite Hrows4 in Hr4. apply list_lookup_imap_Some in Hr4 as (r3 & Hr3 & ->).
  pose proof Hr3 as Hr3'.
  rewrite Hrows3 in Hr3. apply list_lookup_imap_Some in Hr3 as (r2 & Hr2 & ->).
  pose proof Hr2 as Hr2'.
  rewrite Hrows2 in Hr2. apply list_lookup_imap_Some in Hr2 as (r1 & Hr1 & ->).
  exists r1. split; [by rewrite <- Hrows1|].
  split.
  { rewrite cell_at_set_cell_same, Hcol. apply nth_of_datetime. }
  split.
  { rewrite !cell_at_set_cell_other by done. rewrite cell_at_set_cell_same.
    rewrite (nth_map_lookup _ _ _ _ (cell_at n r1))
      by (by rewrite list_lookup_fmap, Hr1).
    apply campaign_type_of_cases. }
  split.
  { rewrite cell_at_set_cell_other by done. rewrite cell_at_set_cell_same.
    rewrite (nth_map_lookup _ _ _ _ (cell_at ic (set_cell ic
               (nth k (map (fun x => Str (get_country_name (py_str x)))
                         (map (cell_at x) (rows df2))) NaN)
               (set_cell it (nth k (map campaign_type_of (map (cell_at n) (rows df1))) NaN) r1))))
      by (by rewrite list_lookup_fmap, Hr3').
    apply fillna_Str. right. rewrite cell_at_set_cell_same.
    rewrite (nth_map_lookup _ _ _ _ (cell_at x (set_cell it
               (nth k (map campaign_type_of (map (cell_at n) (rows df1))) NaN) r1)))
      by (by rewrite list_lookup_fmap, Hr2').
    eauto. }
  intros j Hjd Hjt Hjc. by rewrite !cell_at_set_cell_other.
Qed.

End Enricher.

(** ** Filter Engine *)

Section Filters.
Context {E : Externals}.

Lemma dt_date_datetimelike (col : list cell) :
  Forall (fun c => is_datetimelike c = true) col ->
  dt_date col =
    Ok (map (fun c => match c with Timestamp t => Some (date_of t) | _ => None end) col).
Proof.
  intros H. unfold dt_date.
  replace (forallb is_datetimelike col) with true; [done|].
  symmetry. apply forallb_forall. intros c Hc.
  rewrite Forall_forall in H. apply H. by apply list_elem_of_In.
Qed.

(** The date stage of [apply_filters] on a frame with a valid
    [dispatched_at] column. *)
Lemma date_stage (fd : DataFrame) (sd ed : option string) (i : nat)
    (range : option (Z * Z)) :
  get_loc fd "dispatched_at" = Ok i ->
  Forall (fun r => is_datetimelike (cell_at i r) = true) (rows fd) ->
  date_range sd ed = Ok range ->
  (if truthy_str sd && truthy_str ed then
     dispatched_at ← getitem fd "dispatched_at";
     dates ← dt_date dispatched_at;
     lo ← scalar_date sd;
     hi ← scalar_date ed;
     Ok (boolean_index fd
           (map (fun d => match d with
                          | Some d => (lo <=? d)%Z && (d <=? hi)%Z
                          | None => false
                          end) dates))
   else Ok fd) = Ok (select fd (in_range range i)).
Proof.
  intros Hloc Hdt Hrange. unfold date_range in Hrange.
  destruct (truthy_str sd && truthy_str ed).
  - unfold getitem. rewrite Hloc. simpl.
    rewrite dt_date_datetimelike by (by apply Forall_map).
    simpl.
    destruct (scalar_date sd) as [lo|e]; simpl in *; [|done].
    destruct (scalar_date ed) as [hi|e]; simpl in *; [|done].
    injection Hrange as <-.
    rewrite !map_map. rewrite <- boolean_index_filter.
    do 2 f_equal. apply map_ext. intros r. simpl.
    by destruct (cell_at i r).
  - injection Hrange as <-. unfold select. simpl.
    rewrite filter_all by done. by destruct fd.
Qed.

Lemma dimension_stage (fd : DataFrame) (values : option (list string))
    (label : string) (i : nat) :
  get_loc fd label = Ok i ->
  (if truthy_list values then
     i ← get_loc fd label;
     Ok (select fd (fun r => isin values (cell_at i r)))
   else Ok fd) = Ok (select fd (dimension_ok values i)).
Proof.
  intros Hloc. unfold dimension_ok.
  destruct (truthy_list values).
  - by rewrite Hloc.
  - unfold select. rewrite filter_all by done. by destruct fd.
Qed.

Lemma select_select (df : DataFrame) (p q : list cell -> bool) :
  select (select df p) q = select df (fun r => p r && q r).
Proof. unfold select. simpl. by rewrite filter_filter. Qed.

Lemma Forall_filter_bool {A} (P : A -> Prop) (p : A -> bool) (l : list A) :
  Forall P l -> Forall P (List.filter p l).
Proof.
  induction 1 as [|x l Hx _ IH]; simpl; [done|].
  destruct (p x); [by constructor | done].
Qed.

(** [apply_filters] on a dataset that has the three filtered columns. *)
Lemma apply_filters_spec (df : DataFrame)
    (fc ft : option (list string)) (sd ed : option string)
    (ic it id : nat) (range : option (Z * Z)) :
  get_loc df "country_name" = Ok ic ->
  get_loc df "campaign_type" = Ok it ->
  get_loc df "dispatched_at" = Ok id ->
  Forall (fun r => is_datetimelike (cell_at id r) = true) (rows df) ->
  date_range sd ed = Ok range ->
  apply_filters df fc ft sd ed =
    Ok (select df (fun r => dimension_ok fc ic r && dimension_ok ft it r
                            && in_range range id r)).
Proof.
  intros Hc Ht Hd Hdt Hrange. unfold apply_filters.
  rewrite (dimension_stage df fc "country_name" ic Hc). simpl.
  rewrite (dimension_stage _ ft "campaign_type" it) by done. simpl.
  rewrite (date_stage _ sd ed id range); [| done | | done].
  - by rewrite (select_select df), (select_select df).
  - simpl. by do 2 apply Forall_filter_bool.
Qed.

(** Filtering by country and then by campaign type is filtering by both. *)
Lemma apply_filters_sequence (df : DataFrame) (fc ft : option (list string)) :
  (d ← apply_filters df fc None None None; apply_filters d None ft None None)
  = apply_filters df fc ft None None.
Proof.
  unfold apply_filters. simpl.
  destruct (truthy_list fc); simpl.
  - destruct (get_loc df "country_name") as [i|e]; simpl; [|done].
    by destruct (truthy_list ft).
  - by destruct (truthy_list ft).
Qed.

(** A filter request leaves the dataset slot as it was. *)
Lemma filter_request_keeps_data (data : option DataFrame) (trigger : string)
    (contents : option (result DataFrame)) (tab : string)
    (fc ft : option (list string)) (sd ed : option string) :
  is_filter_trigger trigger = true ->
  (update_content data [trigger] contents tab fc ft sd ed).1 = data.
Proof.
  intros H. unfold update_content.
  destruct (String.eqb trigger "upload-data") eqn:Hu.
  { apply String.eqb_eq in Hu. subst. done. }
  destruct (String.eqb trigger "tabs") eqn:Ht.
  { apply String.eqb_eq in Ht. subst. done. }
  rewrite H. by destruct data.
Qed.

(** The predicates of the model decide the dimensions as stated. *)
Lemma dimension_ok_passes (values : option (list string)) (i : nat) (r : list cell) :
  dimension_ok values i r = true <-> passes values (cell_at i r).
Proof.
  unfold dimension_ok, passes, truthy_list, isin.
  destruct values as [[|v l]|]; [done| |done].
  destruct (cell_at i r) as [|s|n|t]; simpl;
    try (split; [done|]; intros (s' & Hs & _); discriminate).
  rewrite bool_decide_eq_true. split.
  - intros Hin. by exists s.
  - intros (s' & [= <-] & Hin). done.
Qed.

Lemma in_range_dispatched_within (t1 t2 : Z) (i : nat) (r : list cell) :
  in_range (Some (date_of t1, date_of t2)) i r = true
  <-> dispatched_within (Some (t1, t2)) (cell_at i r).
Proof.
  unfold in_range, dispatched_within, date_of.
  destruct (cell_at i r) as [|s|n|t];
    try (split; [done|]; intros (t' & Ht & _); discriminate).
  rewrite andb_true_iff, !Z.leb_le. split.
  - intros Hin. by exists t.
  - intros (t' & [= <-] & Hin). done.
Qed.

Lemma reads_range_date_range (sd ed : option string) (range : option (Z * Z)) :
  reads_range sd ed range ->
  date_range sd ed
  = Ok (match range with
        | Some (t1, t2) => Some (date_of t1, date_of t2)
        | None => None
        end).
Proof.
  unfold date_range, truthy_str, Py.truthy, scalar_date.
  destruct 1 as [s1 s2 t1 t2 H1 H2 Ht1 Ht2|ed|ed|sd|sd]; simpl.
  - apply String.eqb_neq in H1, H2. rewrite H1, H2. simpl. by rewrite Ht1, Ht2.
  - done.
  - done.
  - by rewrite andb_false_r.
  - by rewrite andb_false_r.
Qed.

Lemma filter_decide {A} (P : A -> Prop) `{forall x, Decision (P x)}
    (p : A -> bool) (l : list A) :
  (forall x, p x = true <-> P x) -> List.filter p l = filter P l.
Proof.
  intros Hp. induction l as [|x l IH]; [done|]. simpl.
  destruct (p x) eqn:Hx.
  - rewrite filter_cons_True by (by apply Hp). by rewrite IH.
  - rewrite filter_cons_False; [done|]. intros HP. apply Hp in HP. congruence.
Qed.

Lemma lookup_new_object (h : store) (df : DataFrame) :
  (h ++ [df]) !! length h = Some df.
Proof. by apply list_lookup_middle. Qed.

(** On shared objects the engine computes what [apply_filters] computes,
    in a new object, and appends to the store. *)
Lemma apply_filters_store_spec (h : store) (l : nat) (df : DataFrame)
    (fc ft : option (list string)) (sd ed : option string) :
  h !! l = Some df ->
  match apply_filters df fc ft sd ed with
  | Ok d =>
      exists l' k,
        apply_filters_store h l fc ft sd ed = Ok (l', h ++ k)
        /\ (h ++ k) !! l' = Some d
        /\ (length h <= l')%nat
  | Raise e => apply_filters_store h l fc ft sd ed = Raise e
  end.
Proof.
  intros Hl. unfold apply_filters, apply_filters_store, object_at, new_object.
  rewrite Hl, bind_Ok.
  assert (Hnew : forall (hcur k1 : list DataFrame) (d1 : DataFrame),
            hcur = h ++ k1 ->
            exists l' k, Ok (length hcur, hcur ++ [d1]) = Ok (l', h ++ k)
                         /\ (h ++ k) !! l' = Some d1 /\ (length h <= l')%nat).
  { intros hcur k1 d1 ->. exists (length (h ++ k1)), (k1 ++ [d1]).
    rewrite app_assoc. split; [done|]. split; [apply lookup_new_object|].
    rewrite length_app. lia. }
  assert (Hnil : h = h ++ []) by (by rewrite app_nil_r).
  set (dc := fun d i => select d (fun r => isin fc (cell_at i r))).
  set (dt := fun d i => select d (fun r => isin ft (cell_at i r))).
  destruct (truthy_list fc).
  - rewrite lookup_new_object, !bind_Ok.
    destruct (get_loc df "country_name") as [ic|e]; [|done]. rewrite !bind_Ok.
    fold (dc df ic).
    destruct (truthy_list ft).
    + rewrite lookup_new_object, !bind_Ok.
      destruct (get_loc (dc df ic) "campaign_type") as [it|e]; [|done]. rewrite !bind_Ok.
      fold (dt (dc df ic) it).
      destruct (truthy_str sd && truthy_str ed).
      * rewrite lookup_new_object, !bind_Ok.
        destruct (getitem _ "dispatched_at") as [col|e]; [|done]. rewrite !bind_Ok.
        destruct (dt_date col) as [dates|e]; [|done]. rewrite !bind_Ok.
        destruct (scalar_date sd) as [lo|e]; [|done]. rewrite !bind_Ok.
        destruct (scalar_date ed) as [hi|e]; [|done]. rewrite !bind_Ok.
        eapply Hnew; by rewrite <- ?app_assoc.
      * eapply Hnew; by rewrite <- ?app_assoc.
    + rewrite !bind_Ok.
      destruct (truthy_str sd && truthy_str ed).
      * rewrite lookup_new_object, !bind_Ok.
        destruct (getitem _ "dispatched_at") as [col|e]; [|done]. rewrite !bind_Ok.
        destruct (dt_date col) as [dates|e]; [|done]. rewrite !bind_Ok.
        destruct (scalar_date sd) as [lo|e]; [|done]. rewrite !bind_Ok.
        destruct (scalar_date ed) as [hi|e]; [|done]. rewrite !bind_Ok.
        eapply Hnew; by rewrite <- ?app_assoc.
      * eapply Hnew; by rewrite <- ?app_assoc.
  - rewrite !bind_Ok.
    destruct (truthy_list ft).
    + rewrite lookup_new_object, !bind_Ok.
      destruct (get_loc df "campaign_type") as [it|e]; [|done]. rewrite !bind_Ok.
      destruct (truthy_str sd && truthy_str ed).
      * rewrite lookup_new_object, !bind_Ok.
        destruct (getitem _ "dispatched_at") as [col|e]; [|done]. rewrite !bind_Ok.
        destruct (dt_date col) as [dates|e]; [|done]. rewrite !bind_Ok.
        destruct (scalar_date sd) as [lo|e]; [|done]. rewrite !bind_Ok.
        destruct (scalar_date ed) as [hi|e]; [|done]. rewrite !bind_Ok.
        eapply Hnew; by rewrite <- ?app_assoc.
      * eapply Hnew; by rewrite <- ?app_assoc.
    + rewrite !bind_Ok.
      destruct (truthy_str sd && truthy_str ed).
      * rewrite lookup_new_object, !bind_Ok.
        destruct (getitem _ "dispatched_at") as [col|e]; [|done]. rewrite !bind_Ok.
        destruct (dt_date col) as [dates|e]; [|done]. rewrite !bind_Ok.
        destruct (scalar_date sd) as [lo|e]; [|done]. rewrite !bind_Ok.
        destruct (scalar_date ed) as [hi|e]; [|done]. rewrite !bind_Ok.
        eapply Hnew; by rewrite <- ?app_assoc.
      * by eapply Hnew.
Qed.

End Filters.

(** ** float64 *)

Lemma round_half_even_close (a b : Z) :
  (0 < b)%Z -> (Z.abs (2 * (round_half_even a b * b - a)) <= b)%Z.
Proof.
  intros Hb. unfold round_half_even.
  pose proof (Z.div_mod a b ltac:(lia)) as Hdm.
  pose proof (Z.mod_pos_bound a b Hb) as Hr.
  destruct (Z.ltb_spec (2 * (a mod b)) b).
  - nia.
  - destruct (Z.ltb_spec b (2 * (a mod b))).
    + nia.
    + destruct (Z.even (a / b)); nia.
Qed.

Lemma rint_close (x : Q) : (Qabs (inject_Z (rint x) - x) <= 1 # 2)%Q.
Proof.
  destruct x as [n d]. unfold rint. cbn [Qnum Qden].
  pose proof (round_half_even_close n (Zpos d) ltac:(lia)) as H.
  set (m := round_half_even n (Zpos d)) in *.
  apply Qabs_Qle_condition. unfold Qle, Qminus, Qplus, Qopp, inject_Z. cbn.
  split; lia.
Qed.

Lemma pow2_pos (e : Z) : (0 < pow2 e)%Q.
Proof. unfold pow2. apply Qpower_0_lt. reflexivity. Qed.

Lemma pow2_plus (a b : Z) : (pow2 (a + b) == pow2 a * pow2 b)%Q.
Proof. unfold pow2. apply Qpower_plus. discriminate. Qed.

Lemma pow2_inv (a : Z) : (pow2 a * pow2 (- a) == 1)%Q.
Proof. rewrite <- pow2_plus. by rewrite Z.add_opp_diag_r. Qed.

Lemma pow2_inject (a : Z) : (0 <= a)%Z -> (inject_Z (2 ^ a) == pow2 a)%Q.
Proof. intros Ha. unfold pow2. by rewrite Zpower_Qpower. Qed.

(** The scaled value lies in the binade of 53-bit integers. *)
Lemma exponent_spec (x : Q) :
  (0 < x)%Q -> (pow2 52 <= x * pow2 (- exponent x))%Q.
Proof.
  intros Hx. unfold exponent.
  rewrite (Qabs_pos x) by lra.
  destruct x as [n d]. cbn [Qnum Qden].
  assert (Hn : (0 < n)%Z) by (unfold Qlt in Hx; cbn in Hx; lia).
  rewrite (Z.abs_eq n) by lia.
  set (e0 := (Z.log2 n - Z.log2 (Zpos d) - 53)%Z).
  destruct (Qle_bool (pow2 53) ((n # d) * pow2 (- e0))) eqn:Hb.
  - apply Qle_bool_iff in Hb.
    replace (- (e0 + 1))%Z with (- e0 + - 1)%Z by lia.
    rewrite pow2_plus. change (pow2 (-1)) with (1 # 2)%Q.
    change (pow2 53) with (2 * pow2 52)%Q in Hb.
    lra.
  - clear Hb.
    pose proof (Z.log2_spec n Hn) as [Hn1 _].
    pose proof (Z.log2_spec (Zpos d) ltac:(lia)) as [_ Hd2].
    pose proof (Z.log2_nonneg n) as Hln.
    pose proof (Z.log2_nonneg (Zpos d)) as Hld.
    set (ln := Z.log2 n) in *. set (ld := Z.log2 (Zpos d)) in *.
    assert (HA : (pow2 ln <= inject_Z n)%Q).
    { rewrite <- pow2_inject by lia. by rewrite <- Zle_Qle. }
    assert (HB : (inject_Z (Zpos d) <= pow2 (ld + 1))%Q).
    { rewrite <- pow2_inject by lia. rewrite <- Zle_Qle. lia. }
    assert (HB0 : (0 < inject_Z (Zpos d))%Q) by (by apply (Qlt_alt 0)).
    assert (HP : (pow2 ln * pow2 (- e0) == pow2 52 * pow2 (ld + 1))%Q).
    { rewrite <- !pow2_plus. unfold e0. f_equiv. lia. }
    pose proof (pow2_pos (- e0)) as HP0.
    pose proof (pow2_pos 52) as H52.
    rewrite (Qmake_Qdiv n d).
    set (A := inject_Z n) in *. set (B := inject_Z (Zpos d)) in *.
    set (P := pow2 (- e0)) in *.
    assert (Heq : (A / B * P == A * P / B)%Q) by (field; lra).
    rewrite Heq.
    apply Qle_shift_div_l; [done|].
    nra.
Qed.

(** Rounding a non-negative number keeps its sign and moves it by at most
    the unit roundoff, relatively. *)
Lemma fl_error (x : Q) :
  (0 <= x)%Q -> (0 <= fl x)%Q /\ (Qabs (fl x - x) <= x * unit_roundoff)%Q.
Proof.
  intros Hx. unfold fl.
  destruct (Qeq_bool x 0) eqn:H0.
  { apply Qeq_bool_iff in H0. split; [lra|].
    apply Qabs_Qle_condition. unfold unit_roundoff. split; lra. }
  assert (Hpos : (0 < x)%Q).
  { apply Qeq_bool_neq in H0. lra. }
  cbv zeta. rewrite Qred_correct.
  pose proof (exponent_spec x Hpos) as Hy.
  set (e := exponent x) in *.
  pose proof (rint_close (x * pow2 (- e))) as Hm.
  set (M := inject_Z (rint (x * pow2 (- e)))) in *.
  pose proof (pow2_pos e) as Hpe. pose proof (pow2_pos (- e)) as Hpn.
  pose proof (pow2_inv e) as Hinv.
  set (Pe := pow2 e) in *. set (Pn := pow2 (- e)) in *.
  change (pow2 52) with (4503599627370496 # 1)%Q in Hy.
  apply Qabs_Qle_condition in Hm. destruct Hm as [Hm1 Hm2].
  assert (HxP : (x == x * Pn * Pe)%Q).
  { rewrite <- Qmult_assoc, (Qmult_comm Pn Pe), Hinv. ring. }
  assert (Hbig : (4503599627370496 * Pe <= x)%Q).
  { rewrite HxP at 1. apply Qmult_le_compat_r; lra. }
  assert (Hd1 : (- (1 # 2) * Pe <= (M - x * Pn) * Pe)%Q).
  { apply Qmult_le_compat_r; lra. }
  assert (Hd2 : ((M - x * Pn) * Pe <= (1 # 2) * Pe)%Q).
  { apply Qmult_le_compat_r; lra. }
  assert (Hdiff : (M * Pe - x == (M - x * Pn) * Pe)%Q).
  { rewrite HxP at 1. ring. }
  split.
  - assert (0 <= M)%Q by lra. apply Qmult_le_0_compat; lra.
  - apply Qabs_Qle_condition. rewrite Hdiff. unfold unit_roundoff. split; lra.
Qed.

Lemma Qsum_app (l1 l2 : list Q) : (Qsum (l1 ++ l2) == Qsum l1 + Qsum l2)%Q.
Proof.
  induction l1 as [|x l1 IH]; simpl; [ring|]. rewrite IH. ring.
Qed.

Lemma Qsum_perm (l l' : list Q) : l ≡ₚ l' -> (Qsum l == Qsum l')%Q.
Proof.
  induction 1 as [|x l l' _ IH|x y l|l l' l'' _ IH1 _ IH2]; simpl.
  - reflexivity.
  - by rewrite IH.
  - ring.
  - by rewrite IH1.
Qed.

Lemma Qsum_nonneg (l : list Q) : Forall (fun y => (0 <= y)%Q) l -> (0 <= Qsum l)%Q.
Proof. induction 1 as [|x l Hx _ IH]; simpl; lra. Qed.

(** The error of a float64 summation of non-negative values that sum to at
    most [M]: at most [2 * unit_roundoff * M] by addition. *)
Lemma float_sums_error (M : Q) (n : nat) (l : list Q) (x : Q) :
  float_sums n l x ->
  Forall (fun y => (0 <= y)%Q) l ->
  (Qsum l <= M)%Q ->
  (inject_Z (Z.of_nat n) * (2 * unit_roundoff * M) <= M)%Q ->
  (0 <= x)%Q /\ (Qabs (x - Qsum l) <= inject_Z (Z.of_nat n) * (2 * unit_roundoff * M))%Q.
Proof.
  set (delta := (2 * unit_roundoff * M)%Q).
  induction 1 as [|y|n1 n2 l1 l2 x1 x2 H1 IH1 H2 IH2|n l l' x Hp H IH];
    intros Hl HM Hn.
  - split; [lra|]. cbn [Qsum foldr]. apply Qabs_Qle_condition.
    change (inject_Z (Z.of_nat 0)) with 0%Q. split; lra.
  - apply Forall_cons in Hl as [Hy _]. split; [done|]. cbn [Qsum foldr].
    apply Qabs_Qle_condition. change (inject_Z (Z.of_nat 0)) with 0%Q. split; lra.
  - apply Forall_app in Hl as [Hl1 Hl2].
    pose proof (Qsum_nonneg l1 Hl1) as Hs1. pose proof (Qsum_nonneg l2 Hl2) as Hs2.
    rewrite Qsum_app in HM |- *.
    assert (HM0 : (0 <= M)%Q) by lra.
    assert (Hd0 : (0 <= delta)%Q) by (unfold delta, unit_roundoff; lra).
    assert (Hnat : (inject_Z (Z.of_nat (S (n1 + n2)))
                    == inject_Z (Z.of_nat n1) + inject_Z (Z.of_nat n2) + 1)%Q).
    { rewrite Nat2Z.inj_succ, Nat2Z.inj_add. unfold Z.succ.
      rewrite !inject_Z_plus. ring. }
    rewrite Hnat in Hn |- *.
    assert (Hn1 : (0 <= inject_Z (Z.of_nat n1))%Q).
    { change 0%Q with (inject_Z 0). rewrite <- Zle_Qle. lia. }
    assert (Hn2 : (0 <= inject_Z (Z.of_nat n2))%Q).
    { change 0%Q with (inject_Z 0). rewrite <- Zle_Qle. lia. }
    set (a1 := (inject_Z (Z.of_nat n1) * delta)%Q) in *.
    set (a2 := (inject_Z (Z.of_nat n2) * delta)%Q) in *.
    assert (Ha1 : (0 <= a1)%Q) by (by apply Qmult_le_0_compat).
    assert (Ha2 : (0 <= a2)%Q) by (by apply Qmult_le_0_compat).
    assert (Hsplit : ((inject_Z (Z.of_nat n1) + inject_Z (Z.of_nat n2) + 1) * delta
                      == a1 + a2 + delta)%Q) by (unfold a1, a2; ring).
    rewrite Hsplit in Hn |- *.
    destruct IH1 as [Hx1 He1]; [done|lra|lra|].
    destruct IH2 as [Hx2 He2]; [done|lra|lra|].
    apply Qabs_Qle_condition in He1 as [He1a He1b].
    apply Qabs_Qle_condition in He2 as [He2a He2b].
    destruct (fl_error (x1 + x2)) as [Hf0 Hf]; [lra|].
    apply Qabs_Qle_condition in Hf as [Hfa Hfb].
    fold (fadd x1 x2) in Hf0, Hfa, Hfb.
    assert (Hu : ((x1 + x2) * unit_roundoff <= delta)%Q).
    { unfold delta, unit_roundoff in *. lra. }
    split; [done|]. apply Qabs_Qle_condition. split; lra.
  - assert (Hl0 : Forall (fun y => (0 <= y)%Q) l).
    { apply Forall_forall. intros y Hy. apply (proj1 (Forall_forall _ _) Hl).
      by rewrite <- Hp. }
    rewrite <- (Qsum_perm l l' Hp) in HM |- *. by apply IH.
Qed.

(** *** Rounding keeps the order *)

Lemma round_half_even_tie (a b : Z) :
  (0 < b)%Z -> Z.abs (2 * (round_half_even a b * b - a)) = b ->
  Z.even (round_half_even a b) = true.
Proof.
  intros Hb. unfold round_half_even.
  pose proof (Z.div_mod a b ltac:(lia)) as Hdm.
  pose proof (Z.mod_pos_bound a b Hb) as Hr.
  destruct (Z.ltb_spec (2 * (a mod b)) b).
  - intros Habs. nia.
  - destruct (Z.ltb_spec b (2 * (a mod b))).
    + intros Habs. nia.
    + intros _. destruct (Z.even (a / b)) eqn:He; [done|].
      replace (a / b + 1)%Z with (Z.succ (a / b)) by lia.
      by rewrite Z.even_succ, <- Z.negb_even, He.
Qed.

Lemma rint_tie (x : Q) :
  (inject_Z (rint x) - x == 1 # 2)%Q \/ (x - inject_Z (rint x) == 1 # 2)%Q ->
  Z.even (rint x) = true.
Proof.
  destruct x as [n d]. unfold rint. cbn [Qnum Qden]. intros H.
  apply round_half_even_tie; [lia|].
  set (m := round_half_even n (Zpos d)) in *.
  unfold Qeq, Qminus, Qplus, Qopp, inject_Z in H. cbn in H. lia.
Qed.

Lemma rint_mono (x y : Q) : (x <= y)%Q -> (rint x <= rint y)%Z.
Proof.
  intros Hxy.
  pose proof (rint_close x) as Hx. pose proof (rint_close y) as Hy.
  apply Qabs_Qle_condition in Hx as [Hx1 Hx2].
  apply Qabs_Qle_condition in Hy as [Hy1 Hy2].
  destruct (Z_le_gt_dec (rint x) (rint y)) as [|Hgt]; [done|]. exfalso.
  assert (H1 : (inject_Z (rint y + 1) <= inject_Z (rint x))%Q).
  { rewrite <- Zle_Qle. lia. }
  rewrite inject_Z_plus in H1. change (inject_Z 1) with 1%Q in H1.
  assert (Hex : Z.even (rint x) = true) by (apply rint_tie; left; lra).
  assert (Hey : Z.even (rint y) = true) by (apply rint_tie; right; lra).
  assert (Heq : rint x = Z.succ (rint y)).
  { assert (H2 : (inject_Z (rint x) < inject_Z (rint y + 2))%Q).
    { rewrite inject_Z_plus. change (inject_Z 2) with 2%Q. lra. }
    rewrite <- Zlt_Qlt in H2. lia. }
  rewrite Heq, Z.even_succ, <- Z.negb_even, Hey in Hex. done.
Qed.

Lemma exponent_upper (x : Q) :
  (0 < x)%Q -> (x * pow2 (- exponent x) < pow2 53)%Q.
Proof.
  intros Hx. unfold exponent.
  rewrite (Qabs_pos x) by lra.
  destruct x as [n d]. cbn [Qnum Qden].
  assert (Hn : (0 < n)%Z) by (unfold Qlt in Hx; cbn in Hx; lia).
  rewrite (Z.abs_eq n) by lia.
  set (e0 := (Z.log2 n - Z.log2 (Zpos d) - 53)%Z).
  destruct (Qle_bool (pow2 53) ((n # d) * pow2 (- e0))) eqn:Hb.
  - clear Hb.
    replace (- (e0 + 1))%Z with (- e0 + - 1)%Z by lia.
    rewrite pow2_plus. change (pow2 (-1)) with (1 # 2)%Q.
    pose proof (Z.log2_spec n Hn) as [_ Hn2].
    pose proof (Z.log2_spec (Zpos d) ltac:(lia)) as [Hd1 _].
    pose proof (Z.log2_nonneg n) as Hln.
    pose proof (Z.log2_nonneg (Zpos d)) as Hld.
    set (ln := Z.log2 n) in *. set (ld := Z.log2 (Zpos d)) in *.
    assert (HA : (inject_Z n < pow2 (ln + 1))%Q).
    { rewrite <- pow2_inject by lia. rewrite <- Zlt_Qlt. lia. }
    assert (HB : (pow2 ld <= inject_Z (Zpos d))%Q).
    { rewrite <- pow2_inject by lia. by rewrite <- Zle_Qle. }
    assert (HB0 : (0 < inject_Z (Zpos d))%Q) by (by apply (Qlt_alt 0)).
    assert (HP : (pow2 (ln + 1) * pow2 (- e0) == 2 * pow2 53 * pow2 ld)%Q).
    { change (2 * pow2 53)%Q with (pow2 54). rewrite <- !pow2_plus. unfold e0.
      f_equiv. lia. }
    pose proof (pow2_pos (- e0)) as HP0.
    pose proof (pow2_pos 53) as H53.
    pose proof (pow2_pos ld) as Hpld.
    rewrite (Qmake_Qdiv n d).
    set (A := inject_Z n) in *. set (B := inject_Z (Zpos d)) in *.
    set (P := pow2 (- e0)) in *.
    assert (Heq : (A / B * (P * (1 # 2)) == A * P * (1 # 2) / B)%Q) by (field; lra).
    rewrite Heq.
    apply Qlt_shift_div_r; [done|].
    nra.
  - apply Qnot_le_lt. intros Hle. apply Qle_bool_iff in Hle. congruence.
Qed.

Lemma pow2_le_mono (a b : Z) : (a <= b)%Z -> (pow2 a <= pow2 b)%Q.
Proof.
  intros Hab.
  assert (Heq : (pow2 b == pow2 a * pow2 (b - a))%Q).
  { rewrite <- pow2_plus. f_equiv. lia. }
  assert (H1 : (1 <= pow2 (b - a))%Q).
  { rewrite <- pow2_inject by lia. change 1%Q with (inject_Z 1). rewrite <- Zle_Qle.
    pose proof (Z.pow_pos_nonneg 2 (b - a)). lia. }
  pose proof (pow2_pos a). nra.
Qed.

Lemma fl_pos (x : Q) :
  (0 < x)%Q ->
  (fl x == inject_Z (rint (x * pow2 (- exponent x))) * pow2 (exponent x))%Q.
Proof.
  intros Hx. unfold fl.
  destruct (Qeq_bool x 0) eqn:H0.
  { apply Qeq_bool_iff in H0. lra. }
  apply Qred_correct.
Qed.

Lemma exponent_mono (x y : Q) :
  (0 < x)%Q -> (x <= y)%Q -> (exponent x <= exponent y)%Z.
Proof.
  intros Hx Hxy.
  pose proof (exponent_spec x Hx) as Hlo.
  pose proof (exponent_upper y ltac:(lra)) as Hhi.
  destruct (Z_le_gt_dec (exponent x) (exponent y)) as [|Hgt]; [done|]. exfalso.
  set (ex := exponent x) in *. set (ey := exponent y) in *.
  pose proof (pow2_inv ex) as Hix. pose proof (pow2_inv ey) as Hiy.
  pose proof (pow2_pos ex) as Hpx. pose proof (pow2_pos ey) as Hpy.
  pose proof (pow2_pos (- ex)) as Hnx. pose proof (pow2_pos (- ey)) as Hny.
  assert (Hle : (pow2 (ey + 1) <= pow2 ex)%Q) by (apply pow2_le_mono; lia).
  rewrite pow2_plus in Hle. change (pow2 1) with 2%Q in Hle.
  change (pow2 53) with (2 * pow2 52)%Q in Hhi.
  pose proof (pow2_pos 52) as H52.
  assert (H1 : (pow2 52 * pow2 ex <= x)%Q).
  { assert (Hm : (pow2 52 * pow2 ex <= x * pow2 (- ex) * pow2 ex)%Q).
    { apply Qmult_le_compat_r; lra. }
    assert (He : (x * pow2 (- ex) * pow2 ex == x * (pow2 ex * pow2 (- ex)))%Q) by ring.
    rewrite He, Hix in Hm. lra. }
  assert (H2 : (y < 2 * pow2 52 * pow2 ey)%Q).
  { assert (Hm : (y * pow2 (- ey) * pow2 ey < 2 * pow2 52 * pow2 ey)%Q).
    { apply Qmult_lt_compat_r; lra. }
    assert (He : (y * pow2 (- ey) * pow2 ey == y * (pow2 ey * pow2 (- ey)))%Q) by ring.
    rewrite He, Hiy in Hm. lra. }
  nra.
Qed.

(** Rounding to float64 keeps the order. *)
Lemma fl_mono (x y : Q) : (0 <= x)%Q -> (x <= y)%Q -> (fl x <= fl y)%Q.
Proof.
  intros Hx Hxy.
  destruct (Qlt_le_dec 0 x) as [Hpos|Hzero].
  2: { assert (Hx0 : (x == 0)%Q) by lra.
       assert (Hf : fl x = 0%Q).
       { unfold fl. apply Qeq_bool_iff in Hx0. by rewrite Hx0. }
       rewrite Hf. by apply fl_error; lra. }
  assert (Hypos : (0 < y)%Q) by lra.
  rewrite (fl_pos x Hpos), (fl_pos y Hypos).
  pose proof (exponent_mono x y Hpos Hxy) as He.
  pose proof (exponent_spec x Hpos) as Hxlo.
  pose proof (exponent_upper x Hpos) as Hxhi.
  pose proof (exponent_spec y Hypos) as Hylo.
  set (ex := exponent x) in *. set (ey := exponent y) in *.
  pose proof (pow2_pos ex) as Hpx. pose proof (pow2_pos ey) as Hpy.
  destruct (Z.eq_dec ex ey) as [Heq|Hne].
  - rewrite Heq in *.
    apply Qmult_le_compat_r; [|lra].
    rewrite <- Zle_Qle. apply rint_mono.
    apply Qmult_le_compat_r; [done|]. pose proof (pow2_pos (- ey)). lra.
  - assert (H1 : (rint (x * pow2 (- ex)) <= 2 ^ 53)%Z).
    { change (2 ^ 53)%Z with (rint (pow2 53)). apply rint_mono. lra. }
    assert (H2 : (2 ^ 52 <= rint (y * pow2 (- ey)))%Z).
    { change (2 ^ 52)%Z with (rint (pow2 52)). by apply rint_mono. }
    rewrite Zle_Qle in H1, H2.
    change (inject_Z (2 ^ 53)) with (2 * pow2 52)%Q in H1.
    change (inject_Z (2 ^ 52)) with (pow2 52) in H2.
    assert (Hle : (pow2 (ex + 1) <= pow2 ey)%Q) by (apply pow2_le_mono; lia).
    rewrite pow2_plus in Hle. change (pow2 1) with 2%Q in Hle.
    pose proof (pow2_pos 52) as H52.
    set (rx := inject_Z (rint (x * pow2 (- ex)))) in *.
    set (ry := inject_Z (rint (y * pow2 (- ey)))) in *.
    apply (Qle_trans _ (2 * pow2 52 * pow2 ex)).
    { apply Qmult_le_compat_r; lra. }
    apply (Qle_trans _ (pow2 52 * pow2 ey)).
    { nra. }
    apply Qmult_le_compat_r; lra.
Qed.

(** ** Aggregation Engine *)

Lemma groupby_count_one (df : DataFrame) (key agg : string) (k d : nat) :
  get_loc df key = Ok k ->
  get_loc df agg = Ok d ->
  groupby_count df key [agg] =
    Ok (mkDF [key; agg]
          (map (fun g =>
                  [ g; Int (count (map (cell_at d)
                                     (List.filter (fun r => bool_decide (cell_at k r = g))
                                        (rows df)))) ])
             (group_keys (map (cell_at k) (rows df))))).
Proof.
  intros Hk Hd. unfold groupby_count. rewrite Hk, bind_Ok. simpl List.filter.
  rewrite (get_loc_has_column df agg d Hd). simpl.
  apply get_loc_Ok in Hd. by rewrite Hd.
Qed.

Lemma cost_groups_spec (df : DataFrame) (t k d : nat) :
  get_loc df "campaign_type" = Ok t ->
  get_loc df "campaign_name" = Ok k ->
  get_loc df "delivered_at" = Ok d ->
  exists groups : list cost_row,
    cost_groups df = Ok groups /\
    map cost_campaign groups =
      group_keys (map (cell_at k)
                    (List.filter (fun r => bool_decide (cell_at t r = Str "Non-Commercial"))
                       (rows df))) /\
    Forall (fun g =>
      delivered_messages g =
        count (map (cell_at d)
                 (List.filter (fun r => bool_decide (cell_at t r = Str "Non-Commercial")
                                        && bool_decide (cell_at k r = cost_campaign g))
                    (rows df))) /\
      cost g = fmul (of_int (delivered_messages g)) usd_per_message) groups.
Proof.
  intros Ht Hk Hd. unfold cost_groups. rewrite Ht, bind_Ok.
  rewrite (groupby_count_one _ "campaign_name" "delivered_at" k d) by done.
  rewrite bind_Ok. eexists. split; [done|].
  simpl rows. rewrite !map_map. split.
  { simpl. apply map_id. }
  apply Forall_forall. intros g Hg.
  apply list_elem_of_fmap in Hg as (key & -> & _). simpl.
  rewrite filter_filter. split; done.
Qed.

(** *** Group keys *)

Lemma ascii_compare_refl (a : ascii) : Ascii.compare a a = Eq.
Proof. unfold Ascii.compare. apply N.compare_refl. Qed.

Lemma string_compare_refl (s : string) : String.compare s s = Eq.
Proof. induction s as [|a s IH]; simpl; [done|]. by rewrite ascii_compare_refl. Qed.

Lemma string_compare_trans (a b c : string) :
  String.compare a b = Lt -> String.compare b c = Lt -> String.compare a c = Lt.
Proof.
  revert b c. induction a as [|x a IH]; intros [|y b] [|z c]; simpl; try done.
  destruct (Ascii.compare x y) eqn:Hxy; try done.
  - apply Ascii.compare_eq_iff in Hxy as ->.
    destruct (Ascii.compare y z); try done. apply IH.
  - intros _. destruct (Ascii.compare y z) eqn:Hyz; try done.
    + apply Ascii.compare_eq_iff in Hyz as <-. by rewrite Hxy.
    + intros _. unfold Ascii.compare in *.
      rewrite N.compare_lt_iff in Hxy, Hyz.
      replace (N_of_ascii x ?= N_of_ascii z)%N with Lt; [done|].
      symmetry. apply N.compare_lt_iff. lia.
Qed.

Lemma cell_compare_eq (a b : cell) : cell_compare a b = Eq -> a = b.
Proof.
  destruct a, b; simpl; try done.
  - intros H. apply String.compare_eq_iff in H. by subst.
  - intros H. apply Z.compare_eq in H. by subst.
  - intros H. apply Z.compare_eq in H. by subst.
Qed.

Lemma cell_compare_refl (a : cell) : cell_compare a a = Eq.
Proof.
  destruct a; simpl; [done | apply string_compare_refl | apply Z.compare_refl..].
Qed.

Lemma cell_lt_trans (a b c : cell) : cell_lt a b -> cell_lt b c -> cell_lt a c.
Proof.
  unfold cell_lt. destruct a, b, c; simpl; try done.
  - apply string_compare_trans.
  - rewrite !Z.compare_lt_iff. lia.
  - rewrite !Z.compare_lt_iff. lia.
Qed.

Lemma cell_compare_Gt (a b : cell) : cell_compare a b = Gt -> cell_lt b a.
Proof.
  unfold cell_lt. destruct a, b; simpl; try done.
  - rewrite String.compare_antisym. by destruct (String.compare s0 s).
  - rewrite Z.compare_antisym. by destruct (n0 ?= n)%Z.
  - rewrite Z.compare_antisym. by destruct (t0 ?= t)%Z.
Qed.

Lemma elem_of_insert_key (x k : cell) (l : list cell) :
  x ∈ insert_key k l <-> x = k \/ x ∈ l.
Proof.
  induction l as [|y l IH]; simpl.
  - rewrite list_elem_of_singleton. split; [by left | intros [?|H]; [done|]].
    by apply elem_of_nil in H.
  - destruct (cell_compare k y) eqn:Hc.
    + apply cell_compare_eq in Hc as ->. split; [by right|].
      intros [->|H]; [by left | done].
    + by rewrite elem_of_cons.
    + rewrite !elem_of_cons, IH. tauto.
Qed.

Lemma insert_key_sorted (k : cell) (l : list cell) :
  StronglySorted cell_lt l -> StronglySorted cell_lt (insert_key k l).
Proof.
  induction 1 as [|y l Hl IH Hy]; simpl.
  - repeat constructor.
  - destruct (cell_compare k y) eqn:Hc.
    + by constructor.
    + constructor; [by constructor|]. constructor; [done|].
      eapply Forall_impl; [exact Hy|]. intros z Hz. by eapply cell_lt_trans.
    + constructor; [done|]. apply Forall_forall. intros z Hz.
      apply elem_of_insert_key in Hz as [->|Hz].
      * by apply cell_compare_Gt.
      * rewrite Forall_forall in Hy. by apply Hy.
Qed.

Lemma sorted_unique_sorted (l : list cell) : StronglySorted cell_lt (sorted_unique l).
Proof.
  unfold sorted_unique. induction l as [|x l IH]; simpl; [constructor|].
  by apply insert_key_sorted.
Qed.

Lemma elem_of_sorted_unique (x : cell) (l : list cell) : x ∈ sorted_unique l <-> x ∈ l.
Proof.
  unfold sorted_unique. induction l as [|y l IH]; simpl; [done|].
  rewrite elem_of_insert_key, elem_of_cons, IH. done.
Qed.

Lemma sorted_NoDup (l : list cell) : StronglySorted cell_lt l -> NoDup l.
Proof.
  induction 1 as [|y l Hl IH Hy]; constructor; [|done].
  intros Hin. rewrite Forall_forall in Hy. specialize (Hy y Hin).
  unfold cell_lt in Hy. by rewrite cell_compare_refl in Hy.
Qed.

(** The keys of a grouping are the values present in the key column, each
    once, in increasing order; a missing key makes no group. *)
Lemma group_keys_spec (keys : list cell) :
  NoDup (group_keys keys)
  /\ StronglySorted cell_lt (group_keys keys)
  /\ forall g, g ∈ group_keys keys <-> g ∈ keys /\ g <> NaN.
Proof.
  unfold group_keys. split; [apply sorted_NoDup, sorted_unique_sorted|].
  split; [apply sorted_unique_sorted|].
  intros g. rewrite elem_of_sorted_unique, list_elem_of_In, filter_In.
  rewrite <- list_elem_of_In. split.
  - intros [Hin Hna]. split; [done|]. by intros ->.
  - intros [Hin Hna]. split; [done|]. by destruct g.
Qed.

(** *** Counting over groups *)

Lemma sum_map_add {A} (a b : A -> Z) (l : list A) :
  sum (map (fun x => (a x + b x)%Z) l) = (sum (map a l) + sum (map b l))%Z.
Proof.
  induction l as [|x l IH]; [done|].
  change (a x + b x + sum (map (fun x => a x + b x) l)
          = a x + sum (map a l) + (b x + sum (map b l)))%Z.
  rewrite IH. lia.
Qed.

Lemma sum_indicator (x : cell) (keys : list cell) :
  NoDup keys ->
  sum (map (fun g => if bool_decide (x = g) then 1%Z else 0%Z) keys)
  = if bool_decide (x ∈ keys) then 1%Z else 0%Z.
Proof.
  induction 1 as [|g keys Hg Hnd IH].
  - by rewrite bool_decide_eq_false_2 by apply not_elem_of_nil.
  - change ((if bool_decide (x = g) then 1 else 0)
            + sum (map (fun g => if bool_decide (x = g) then 1 else 0) keys)
            = if bool_decide (x ∈ g :: keys) then 1 else 0)%Z.
    rewrite IH. destruct (decide (x = g)) as [->|Hne].
    + rewrite bool_decide_eq_true_2 by done.
      rewrite (bool_decide_eq_false_2 (g ∈ keys)) by done.
      by rewrite bool_decide_eq_true_2 by (by left).
    + rewrite (bool_decide_eq_false_2 (x = g)) by done.
      destruct (decide (x ∈ keys)) as [Hin|Hnin].
      * rewrite !bool_decide_eq_true_2; [done | by right | done].
      * rewrite !bool_decide_eq_false_2; [done | | done].
        intros Hin. apply elem_of_cons in Hin as [?|?]; done.
Qed.

(** Counting group by group counts each row with a key among the groups
    once. *)
Lemma sum_group_counts {A} (key : A -> cell) (p : A -> bool) (keys : list cell)
    (l : list A) :
  NoDup keys ->
  sum (map (fun g =>
              Z.of_nat (length (List.filter (fun r => bool_decide (key r = g) && p r) l)))
         keys)
  = Z.of_nat (length (List.filter (fun r => bool_decide (key r ∈ keys) && p r) l)).
Proof.
  intros Hnd. induction l as [|r l IH].
  - simpl. induction keys as [|g keys IHk]; [done|].
    apply NoDup_cons in Hnd as [_ Hnd]. simpl in *. by rewrite IHk.
  - simpl List.filter.
    erewrite (map_ext _ (fun g =>
                ((if p r then (if bool_decide (key r = g) then 1 else 0) else 0)
                 + Z.of_nat (length (List.filter
                                       (fun r => bool_decide (key r = g) && p r) l)))%Z)).
    2: { intros g. destruct (bool_decide (key r = g)), (p r); simpl; lia. }
    rewrite sum_map_add, IH.
    destruct (p r).
    + rewrite sum_indicator by done.
      destruct (bool_decide (key r ∈ keys)); simpl; lia.
    + rewrite andb_false_r.
      replace (sum (map (fun _ : cell => 0%Z) keys)) with 0%Z; [lia|].
      clear. induction keys as [|g keys IHk]; [done|]. simpl. by rewrite <- IHk.
Qed.

Lemma count_at_filter (i : nat) (p : list cell -> bool) (l : list (list cell)) :
  count (map (cell_at i) (List.filter p l))
  = Z.of_nat (length (List.filter (fun r => p r && notna (cell_at i r)) l)).
Proof.
  unfold count. f_equal.
  induction l as [|r l IH]; simpl; [done|].
  destruct (p r); simpl; [|done].
  destruct (notna (cell_at i r)); simpl; by rewrite IH.
Qed.

Lemma sum_map_Forall {A} (f g : A -> Z) (l : list A) :
  Forall (fun x => f x = g x) l -> sum (map f l) = sum (map g l).
Proof.
  induction 1 as [|x l Hx _ IH]; [done|].
  change (f x + sum (map f l) = g x + sum (map g l))%Z. by rewrite Hx, IH.
Qed.

Lemma length_insert_key (k : cell) (l : list cell) :
  (length (insert_key k l) <= S (length l))%nat.
Proof.
  induction l as [|x l IH]; simpl; [lia|].
  destruct (cell_compare k x); simpl; lia.
Qed.

Lemma length_group_keys (keys : list cell) :
  (length (group_keys keys) <= length keys)%nat.
Proof.
  unfold group_keys, sorted_unique.
  induction keys as [|x keys IH]; simpl; [lia|].
  destruct (notna x); simpl; [|lia].
  pose proof (length_insert_key x (foldr insert_key [] (List.filter notna keys))). lia.
Qed.

(** The groups of the Cost Analysis and what their counts add up to. *)
Lemma cost_groups_counts (df : DataFrame) (t k d : nat) :
  get_loc df "campaign_type" = Ok t ->
  get_loc df "campaign_name" = Ok k ->
  get_loc df "delivered_at" = Ok d ->
  exists groups : list cost_row,
    cost_groups df = Ok groups /\
    NoDup (map cost_campaign groups) /\
    Forall (fun g =>
      delivered_messages g
      = Z.of_nat (length (List.filter
                            (fun r => bool_decide (cell_at t r = Str "Non-Commercial")
                                      && bool_decide (cell_at k r = cost_campaign g)
                                      && notna (cell_at d r))
                            (rows df))) /\
      cost g = fmul (of_int (delivered_messages g)) usd_per_message) groups /\
    sum (map delivered_messages groups)
    = Z.of_nat (length (List.filter
                          (fun r => bool_decide (cell_at t r = Str "Non-Commercial")
                                    && notna (cell_at k r) && notna (cell_at d r))
                          (rows df))) /\
    (length groups <= length (rows df))%nat.
Proof.
  intros Ht Hk Hd.
  destruct (cost_groups_spec df t k d Ht Hk Hd) as (groups & Hgroups & Hkeys & Hall).
  exists groups. split; [done|].
  set (nc := fun r : list cell => bool_decide (cell_at t r = Str "Non-Commercial")) in *.
  set (keys := group_keys (map (cell_at k) (List.filter nc (rows df)))) in *.
  destruct (group_keys_spec (map (cell_at k) (List.filter nc (rows df))))
    as (Hnd & _ & Hin). fold keys in Hnd, Hin.
  split; [by rewrite Hkeys|].
  split.
  { eapply Forall_impl; [exact Hall|]. intros g [Hg Hc]. split; [|done].
    rewrite Hg, (count_at_filter d). do 2 f_equal. }
  split.
  2: { rewrite <- (length_map cost_campaign groups), Hkeys. unfold keys.
       etrans; [apply length_group_keys|]. rewrite length_map.
       apply sublist_length, filter_sublist. }
  set (F := fun g : cell =>
              Z.of_nat (length (List.filter
                (fun r => bool_decide (cell_at k r = g)
                          && (nc r && notna (cell_at d r))) (rows df)))).
  rewrite (sum_map_Forall _ (fun g => F (cost_campaign g))).
  2: { eapply Forall_impl; [exact Hall|]. intros g [-> _].
       rewrite (count_at_filter d). unfold F. do 2 f_equal.
       apply filter_ext. intros r. unfold nc.
       destruct (bool_decide (cell_at t r = Str "Non-Commercial")),
         (bool_decide (cell_at k r = cost_campaign g)), (notna (cell_at d r)); done. }
  replace (map (fun g => F (cost_campaign g)) groups)
    with (map F (map cost_campaign groups)) by (by rewrite map_map).
  rewrite Hkeys. fold keys. unfold F.
  rewrite (sum_group_counts (cell_at k) (fun r => nc r && notna (cell_at d r)) keys)
    by done.
  do 2 f_equal. apply filter_ext_in. intros r Hr.
  unfold nc at 1.
  destruct (bool_decide (cell_at t r = Str "Non-Commercial")) eqn:Hnc;
    [|by rewrite andb_false_r].
  destruct (notna (cell_at d r)); [|by rewrite !andb_false_r].
  rewrite !andb_true_r. simpl.
  destruct (notna (cell_at k r)) eqn:Hna.
  - apply bool_decide_eq_true. apply Hin. split.
    + apply list_elem_of_fmap. exists r. split; [done|].
      apply list_elem_of_In, filter_In. by split.
    + intros Heq. by rewrite Heq in Hna.
  - apply bool_decide_eq_false. intros Hg. apply Hin in Hg as [_ Hg].
    by destruct (cell_at k r).
Qed.

(** *** Costs in float64 *)

(** A number within a half of an integer rounds to it. *)
Lemma rint_near (x : Q) (k : Z) : (Qabs (x - inject_Z k) < 1 # 2)%Q -> rint x = k.
Proof.
  intros Hx. pose proof (rint_close x) as Hm.
  apply Qabs_Qle_condition in Hm as [Hm1 Hm2].
  apply Qabs_Qlt_condition in Hx as [Hx1 Hx2].
  assert (H1 : (inject_Z (rint x - k) < inject_Z 1)%Q).
  { unfold Zminus. rewrite inject_Z_plus, inject_Z_opp. change (inject_Z 1) with 1%Q. lra. }
  assert (H2 : (inject_Z (-1) < inject_Z (rint x - k))%Q).
  { unfold Zminus. rewrite inject_Z_plus, inject_Z_opp. change (inject_Z (-1)) with (-1)%Q.
    lra. }
  rewrite <- Zlt_Qlt in H1, H2. lia.
Qed.

Lemma inject_Z_nonneg (n : Z) : (0 <= n)%Z -> (0 <= inject_Z n)%Q.
Proof. intros H. change 0%Q with (inject_Z 0). by rewrite <- Zle_Qle. Qed.

(** The cost of one group: [n * 0.04] in float64 is 0.04 times [n] up to
    [n / 10^16]. *)
Lemma group_cost_error (n : Z) :
  (0 <= n)%Z ->
  (0 <= fmul (of_int n) usd_per_message)%Q
  /\ (Qabs (fmul (of_int n) usd_per_message - inject_Z n * (4 # 100))
      <= inject_Z n * (1 # 10000000000000000))%Q.
Proof.
  intros Hn. apply inject_Z_nonneg in Hn.
  destruct (fl_error (inject_Z n) Hn) as [Hf0 Hf].
  fold (of_int n) in Hf0, Hf.
  apply Qabs_Qle_condition in Hf as [Hf1 Hf2].
  change usd_per_message with (5764607523034235 # 144115188075855872)%Q.
  set (f := of_int n) in *. set (N := inject_Z n) in *.
  destruct (fl_error (f * (5764607523034235 # 144115188075855872))) as [Hx0 Hx].
  { apply Qmult_le_0_compat; [done|discriminate]. }
  fold (fmul f (5764607523034235 # 144115188075855872)) in Hx0, Hx.
  apply Qabs_Qle_condition in Hx as [Hx1 Hx2].
  split; [done|]. apply Qabs_Qle_condition.
  unfold unit_roundoff in *. split; lra.
Qed.

Lemma costs_sum_error (groups : list cost_row) :
  Forall (fun g => (0 <= delivered_messages g)%Z
                   /\ cost g = fmul (of_int (delivered_messages g)) usd_per_message)
    groups ->
  (0 <= sum (map delivered_messages groups))%Z
  /\ Forall (fun x => (0 <= x)%Q) (map cost groups)
  /\ (Qabs (Qsum (map cost groups)
            - inject_Z (sum (map delivered_messages groups)) * (4 # 100))
      <= inject_Z (sum (map delivered_messages groups)) * (1 # 10000000000000000))%Q.
Proof.
  induction 1 as [|g l [Hg Hc] _ (IH0 & IHp & IH)].
  - split; [done|]. split; [constructor|]. vm_compute. discriminate.
  - change (sum (map delivered_messages (g :: l)))
      with (delivered_messages g + sum (map delivered_messages l))%Z.
    change (map cost (g :: l)) with (cost g :: map cost l).
    change (Qsum (cost g :: map cost l)) with (cost g + Qsum (map cost l))%Q.
    destruct (group_cost_error _ Hg) as [Hx0 Hx]. rewrite <- Hc in Hx0, Hx.
    split; [lia|]. split; [by constructor|].
    rewrite inject_Z_plus.
    apply Qabs_Qle_condition in IH as [IH1 IH2].
    apply Qabs_Qle_condition in Hx as [Hx1 Hx2].
    apply Qabs_Qle_condition. split; lra.
Qed.

(** The float64 total of at most a million groups that count at most a
    million messages: 0.04 times the count, up to a ten-billionth by
    message. *)
Lemma total_cost_error (groups : list cost_row) (n : nat) (total : Q) :
  Forall (fun g => (0 <= delivered_messages g)%Z
                   /\ cost g = fmul (of_int (delivered_messages g)) usd_per_message)
    groups ->
  float_sums n (map cost groups) total ->
  (n <= 2 * length groups + 1)%nat ->
  (Z.of_nat (length groups) <= 1000000)%Z ->
  (sum (map delivered_messages groups) <= 1000000)%Z ->
  (Qabs (total - inject_Z (sum (map delivered_messages groups)) * (4 # 100))
   <= inject_Z (sum (map delivered_messages groups)) * (1 # 10000000000))%Q
  /\ format_cost total = usd (4 * sum (map delivered_messages groups)).
Proof.
  intros Hall Hsum Hn Hlen Hcount.
  destruct (costs_sum_error groups Hall) as (HN0 & Hpos & Hs).
  set (N := sum (map delivered_messages groups)) in *. clearbody N.
  assert (HNq : (0 <= inject_Z N)%Q) by (by apply inject_Z_nonneg).
  assert (HNq' : (inject_Z N <= 1000000)%Q).
  { change 1000000%Q with (inject_Z 1000000). by rewrite <- Zle_Qle. }
  assert (Hnq : (0 <= inject_Z (Z.of_nat n) <= 2000001)%Q).
  { split; [apply inject_Z_nonneg; lia|].
    change 2000001%Q with (inject_Z 2000001). rewrite <- Zle_Qle. lia. }
  destruct Hnq as [Hnq0 Hnq1].
  apply Qabs_Qle_condition in Hs as [Hs1 Hs2].
  assert (Hd0 : (0 <= 2 * unit_roundoff * (inject_Z N * (1 # 24)))%Q)
    by (unfold unit_roundoff; lra).
  assert (Hstep : (inject_Z (Z.of_nat n) * (2 * unit_roundoff * (inject_Z N * (1 # 24)))
                   <= 2000001 * (2 * unit_roundoff * (inject_Z N * (1 # 24))))%Q).
  { apply Qmult_le_compat_r; [lra|done]. }
  destruct (float_sums_error (inject_Z N * (1 # 24)) n (map cost groups) total Hsum Hpos)
    as [Ht0 Ht].
  { lra. }
  { unfold unit_roundoff in *. lra. }
  apply Qabs_Qle_condition in Ht as [Ht1 Ht2].
  assert (Hclose : (Qabs (total - inject_Z N * (4 # 100))
                    <= inject_Z N * (1 # 10000000000))%Q).
  { apply Qabs_Qle_condition. unfold unit_roundoff in *. split; lra. }
  split; [done|].
  unfold format_cost. f_equal. apply rint_near.
  apply Qabs_Qle_condition in Hclose as [Hc1 Hc2].
  apply Qabs_Qlt_condition. rewrite inject_Z_mult. change (inject_Z 4) with 4%Q.
  split; lra.
Qed.

(** A group of at most a million messages shows 4 cents a message. *)
Lemma format_group_cost (n : Z) :
  (0 <= n <= 1000000)%Z ->
  format_cost (fmul (of_int n) usd_per_message) = usd (4 * n).
Proof.
  intros [Hn0 Hn1]. destruct (group_cost_error n Hn0) as [_ Hx].
  assert (H0 : (0 <= inject_Z n)%Q) by (by apply inject_Z_nonneg).
  assert (H1 : (inject_Z n <= 1000000)%Q).
  { change 1000000%Q with (inject_Z 1000000). by rewrite <- Zle_Qle. }
  unfold format_cost. f_equal. apply rint_near.
  apply Qabs_Qle_condition in Hx as [Hx1 Hx2].
  apply Qabs_Qlt_condition. rewrite inject_Z_mult. change (inject_Z 4) with 4%Q.
  split; lra.
Qed.

Lemma length_filter_le {A} (f : A -> bool) (l : list A) :
  (length (List.filter f l) <= length l)%nat.
Proof. induction l as [|x l IH]; simpl; [done|]. destruct (f x); simpl; lia. Qed.

(** The Cost Analysis of a dataset of at most a million records, when the
    sum of the costs is made of float64 additions. *)
Lemma cost_table_spec {E : Externals} (df : DataFrame) (t k d : nat) :
  get_loc df "campaign_type" = Ok t ->
  get_loc df "campaign_name" = Ok k ->
  get_loc df "delivered_at" = Ok d ->
  (Z.of_nat (length (rows df)) <= 1000000)%Z ->
  (forall groups, cost_groups df = Ok groups ->
     exists n, (n <= 2 * length groups + 1)%nat /\
               float_sums n (map cost groups) (float_sum (map cost groups))) ->
  exists groups : list cost_row,
    cost_groups df = Ok groups /\
    NoDup (map cost_campaign groups) /\
    (forall c, c ∈ map cost_campaign groups <->
       c <> NaN /\ exists r, r ∈ rows df /\ cell_at t r = Str "Non-Commercial"
                             /\ cell_at k r = c) /\
    Forall (fun g =>
      delivered_messages g
      = Z.of_nat (length (List.filter
                            (fun r => bool_decide (cell_at t r = Str "Non-Commercial")
                                      && bool_decide (cell_at k r = cost_campaign g)
                                      && notna (cell_at d r))
                            (rows df))) /\
      cost g = fmul (of_int (delivered_messages g)) usd_per_message) groups /\
    sum (map delivered_messages groups)
    = Z.of_nat (length (List.filter
                          (fun r => bool_decide (cell_at t r = Str "Non-Commercial")
                                    && notna (cell_at k r) && notna (cell_at d r))
                          (rows df))) /\
    cost_rows df
    = Ok (groups ++ [mkCost (Str "Total") (sum (map delivered_messages groups))
                       (float_sum (map cost groups))]) /\
    (Qabs (float_sum (map cost groups)
           - inject_Z (sum (map delivered_messages groups)) * (4 # 100))
     <= inject_Z (sum (map delivered_messages groups)) * (1 # 10000000000))%Q /\
    create_cost_analysis_table df =
      Ok (DataTable "cost-table"
            (mkDF ["campaign_name"; "Delivered Messages"; "Cost (USD)"]
               (map (fun g => [ cost_campaign g; Int (delivered_messages g);
                                Str (usd (4 * delivered_messages g)) ]) groups
                ++ [[Str "Total"; Int (sum (map delivered_messages groups));
                     Str (usd (4 * sum (map delivered_messages groups)))]]))).
Proof.
  intros Ht Hk Hd Hrows Hfloat.
  destruct (cost_groups_counts df t k d Ht Hk Hd)
    as (groups & Hgroups & Hnd & Hall & Hsum & Hlen).
  destruct (cost_groups_spec df t k d Ht Hk Hd) as (groups' & Hgroups' & Hkeys & _).
  assert (groups' = groups) as -> by congruence.
  destruct (Hfloat groups Hgroups) as (n & Hn & Hsums).
  exists groups.
  assert (Hnonneg : Forall (fun g => (0 <= delivered_messages g <= 1000000)%Z
                     /\ cost g = fmul (of_int (delivered_messages g)) usd_per_message)
                      groups).
  { eapply Forall_impl; [exact Hall|]. intros g [-> Hc]. split; [|done].
    pose proof (length_filter_le
                  (fun r => bool_decide (cell_at t r = Str "Non-Commercial")
                            && bool_decide (cell_at k r = cost_campaign g)
                            && notna (cell_at d r)) (rows df)). lia. }
  destruct (total_cost_error groups n (float_sum (map cost groups))) as [Herr Hshown].
  { eapply Forall_impl; [exact Hnonneg|]. intros g [? ?]. split; [lia|done]. }
  { done. } { done. } { lia. }
  { rewrite Hsum.
    pose proof (length_filter_le
                  (fun r => bool_decide (cell_at t r = Str "Non-Commercial")
                            && notna (cell_at k r) && notna (cell_at d r)) (rows df)).
    lia. }
  split; [done|]. split; [done|]. split.
  { intros c. rewrite Hkeys.
    destruct (group_keys_spec
                (map (cell_at k)
                   (List.filter (fun r => bool_decide (cell_at t r = Str "Non-Commercial"))
                      (rows df)))) as (_ & _ & Hin).
    rewrite Hin, list_elem_of_fmap. split.
    - intros [(r & -> & Hr) Hna]. split; [done|].
      apply list_elem_of_In, filter_In in Hr as [Hr Hnc]. apply bool_decide_eq_true in Hnc.
      exists r. by rewrite list_elem_of_In.
    - intros [Hna (r & Hr & Hnc & <-)]. split; [|done].
      exists r. split; [done|]. apply list_elem_of_In, filter_In.
      split; [by apply list_elem_of_In|]. by apply bool_decide_eq_true. }
  split; [done|]. split; [done|].
  assert (Hrows' : cost_rows df
                   = Ok (groups ++ [mkCost (Str "Total") (sum (map delivered_messages groups))
                                      (float_sum (map cost groups))])).
  { unfold cost_rows. by rewrite Hgroups, bind_Ok. }
  split; [done|]. split; [done|].
  unfold create_cost_analysis_table. rewrite Hrows', bind_Ok.
  rewrite map_app.
  assert (Hshown' : map format_cost_row groups
                    = map (fun g => [ cost_campaign g; Int (delivered_messages g);
                                      Str (usd (4 * delivered_messages g)) ]) groups).
  { apply map_ext_Forall. eapply Forall_impl; [exact Hnonneg|].
    intros g [Hg Hc]. unfold format_cost_row. rewrite Hc. by rewrite format_group_cost. }
  rewrite Hshown'. cbn [map]. unfold format_cost_row at 1.
  cbn [cost_campaign delivered_messages cost]. by rewrite Hshown.
Qed.

(** *** Rates in float64 *)

Lemma rint_bounds (x : Q) (lo hi : Z) :
  (inject_Z lo - (1 # 2) < x)%Q -> (x < inject_Z hi + (1 # 2))%Q ->
  (lo <= rint x <= hi)%Z.
Proof.
  intros Hlo Hhi. pose proof (rint_close x) as Hm.
  apply Qabs_Qle_condition in Hm as [Hm1 Hm2].
  assert (H1 : (inject_Z (lo - 1) < inject_Z (rint x))%Q).
  { unfold Zminus. rewrite inject_Z_plus, inject_Z_opp. change (inject_Z 1) with 1%Q. lra. }
  assert (H2 : (inject_Z (rint x) < inject_Z (hi + 1))%Q).
  { rewrite inject_Z_plus. change (inject_Z 1) with 1%Q. lra. }
  rewrite <- Zlt_Qlt in H1, H2. lia.
Qed.

(** The percentage of a part in a whole, as the code computes it in
    float64, lies between 0 and 100. *)
Lemma rate_bounds (a b : Z) :
  (0 <= a <= b)%Z -> (1 <= b)%Z ->
  (0 <= rint (fmul (fmul (fdiv (of_int a) (of_int b)) 100) 100) <= 10000)%Z.
Proof.
  intros [Ha0 Hab] Hb.
  assert (HA0 : (0 <= inject_Z a)%Q) by (by apply inject_Z_nonneg).
  assert (HAB : (inject_Z a <= inject_Z b)%Q) by (by rewrite <- Zle_Qle).
  assert (HB : (1 <= inject_Z b)%Q).
  { change 1%Q with (inject_Z 1). by rewrite <- Zle_Qle. }
  destruct (fl_error (inject_Z a) HA0) as [Hfa0 Hfa].
  destruct (fl_error (inject_Z b) ltac:(lra)) as [Hfb0 Hfb].
  fold (of_int a) in Hfa0, Hfa. fold (of_int b) in Hfb0, Hfb.
  apply Qabs_Qle_condition in Hfa as [Hfa1 Hfa2].
  apply Qabs_Qle_condition in Hfb as [Hfb1 Hfb2].
  unfold unit_roundoff in *.
  set (fa := of_int a) in *. set (fb := of_int b) in *.
  assert (Hfbpos : (0 < fb)%Q) by lra.
  assert (Hq0 : (0 <= fa / fb)%Q).
  { apply Qle_shift_div_l; [done|]. lra. }
  assert (Hq1 : (fa / fb <= 1 + (1 # 1000000000000000))%Q).
  { apply Qle_shift_div_r; [done|]. lra. }
  destruct (fl_error (fa / fb) Hq0) as [Hd0 Hd]. fold (fdiv fa fb) in Hd0, Hd.
  apply Qabs_Qle_condition in Hd as [Hd1 Hd2]. unfold unit_roundoff in *.
  set (q := fdiv fa fb) in *.
  destruct (fl_error (q * 100) ltac:(lra)) as [Hp0 Hp]. fold (fmul q 100) in Hp0, Hp.
  apply Qabs_Qle_condition in Hp as [Hp1 Hp2]. unfold unit_roundoff in *.
  set (p := fmul q 100) in *.
  destruct (fl_error (p * 100) ltac:(lra)) as [Hr0 Hr]. fold (fmul p 100) in Hr0, Hr.
  apply Qabs_Qle_condition in Hr as [Hr1 Hr2]. unfold unit_roundoff in *.
  set (r := fmul p 100) in *.
  apply rint_bounds.
  - change (inject_Z 0) with 0%Q. lra.
  - change (inject_Z 10000) with 10000%Q. lra.
Qed.

(** The percentage of a part in a whole, before it is rounded. *)
Lemma float_rate_bounds (a b : Z) :
  (0 <= a <= b)%Z -> (0 < b)%Z ->
  (0 <= fmul (fdiv (of_int a) (of_int b)) 100 <= 100)%Q.
Proof.
  intros [Ha Hab] Hb.
  assert (HA0 : (0 <= inject_Z a)%Q) by (by apply inject_Z_nonneg).
  assert (HAB : (inject_Z a <= inject_Z b)%Q) by (by rewrite <- Zle_Qle).
  assert (HB : (1 <= inject_Z b)%Q).
  { change 1%Q with (inject_Z 1). rewrite <- Zle_Qle. lia. }
  pose proof (proj1 (fl_error (inject_Z a) HA0)) as Hfa0.
  pose proof (fl_mono _ _ HA0 HAB) as Hfab.
  pose proof (fl_mono 1 (inject_Z b) ltac:(lra) HB) as Hfb1.
  change (fl 1) with 1%Q in Hfb1.
  fold (of_int a) in Hfa0, Hfab. fold (of_int b) in Hfab, Hfb1.
  set (fa := of_int a) in *. set (fb := of_int b) in *.
  assert (Hq0 : (0 <= fa / fb)%Q).
  { apply Qle_shift_div_l; lra. }
  assert (Hq1 : (fa / fb <= 1)%Q).
  { apply Qle_shift_div_r; lra. }
  pose proof (proj1 (fl_error _ Hq0)) as Hd0.
  pose proof (fl_mono _ 1 Hq0 Hq1) as Hd1. change (fl 1) with 1%Q in Hd1.
  fold (fdiv fa fb) in Hd0, Hd1. set (q := fdiv fa fb) in *.
  assert (Hp0 : (0 <= q * 100)%Q) by lra.
  assert (Hp1 : (q * 100 <= 100)%Q) by lra.
  split; [exact (proj1 (fl_error _ Hp0))|].
  pose proof (fl_mono _ 100 Hp0 Hp1) as H. by change (fl 100) with 100%Q in H.
Qed.

(** ** Sorting *)

Lemma map_nth_seq {A} (l : list A) (d : A) :
  map (fun i => nth i l d) (seq 0 (length l)) = l.
Proof.
  apply list_eq. intros k. rewrite list_lookup_fmap.
  destruct (decide (k < length l)%nat) as [Hlt|Hge].
  - rewrite lookup_seq_lt by done. simpl.
    destruct (nth_lookup_or_length l k d) as [->|?]; [done | lia].
  - rewrite lookup_seq_ge by lia. simpl. symmetry. apply lookup_ge_None. lia.
Qed.

Lemma StronglySorted_rev {A} (R : relation A) (l : list A) :
  StronglySorted R l -> StronglySorted (flip R) (rev l).
Proof.
  induction 1 as [|x l Hl IH Hx]; simpl; [constructor|].
  apply StronglySorted_app_2; [|done|repeat constructor].
  intros y z Hy Hz. apply list_elem_of_singleton in Hz as ->.
  rewrite Forall_forall in Hx. apply Hx.
  apply list_elem_of_In. apply list_elem_of_In, in_rev in Hy. done.
Qed.

Lemma Sorted_le_rev (l : list Z) : Sorted Z.le l -> Sorted Z.ge (rev l).
Proof.
  intros H. apply (Sorted_StronglySorted _) in H.
  apply StronglySorted_rev, StronglySorted_Sorted in H.
  induction H as [|x k Hk IH Hx]; constructor; [done|].
  destruct Hx as [|y k Hy]; constructor. unfold flip in Hy. lia.
Qed.

Section Sorting.
Context {E : Externals}.

Lemma country_df_columns (df c : DataFrame) :
  country_df df = Ok c -> columns c = country_labels.
Proof.
  unfold country_df. destruct (groupby_count _ _ _); [|done].
  rewrite bind_Ok. by intros [= <-].
Qed.

Lemma sorts_lt (keys : list Z) (indexer : list nat) (i : nat) :
  sorts keys indexer -> i ∈ indexer -> (i < length keys)%nat.
Proof.
  intros [Hp _] Hi. rewrite Hp in Hi.
  apply list_elem_of_In, in_seq in Hi. lia.
Qed.

(** The indexer of a descending sort is a permutation of the positions. *)
Lemma nargsort_desc_perm (keys : list Z) :
  sorts (rev keys) (argsort (rev keys)) ->
  nargsort keys false ≡ₚ seq 0 (length keys).
Proof.
  intros [Hp Hs]. unfold nargsort. rewrite length_rev in Hp.
  rewrite <- Permutation_rev. rewrite Hp.
  pose proof (map_nth_seq (rev (seq 0 (length keys))) 0%nat) as Hm.
  rewrite length_rev, length_seq in Hm. rewrite Hm.
  by rewrite <- Permutation_rev.
Qed.

(** The keys read along the indexer of a descending sort never increase. *)
Lemma nargsort_desc_sorted (keys : list Z) :
  sorts (rev keys) (argsort (rev keys)) ->
  Sorted Z.ge (map (fun j => nth j keys 0%Z) (nargsort keys false)).
Proof.
  intros Hsorts. pose proof Hsorts as [Hp Hs]. unfold nargsort.
  rewrite map_rev. apply Sorted_le_rev. rewrite map_map.
  erewrite map_ext_in; [exact Hs|].
  intros i Hi. simpl.
  assert (i < length keys)%nat as Hlt.
  { apply list_elem_of_In in Hi. apply (sorts_lt _ _ _ Hsorts) in Hi.
    by rewrite length_rev in Hi. }
  rewrite rev_nth by (by rewrite length_seq).
  rewrite length_seq, seq_nth by lia. simpl.
  by rewrite rev_nth.
Qed.

Lemma take_perm (df : DataFrame) (indexer : list nat) :
  indexer ≡ₚ seq 0 (length (rows df)) -> rows (take df indexer) ≡ₚ rows df.
Proof.
  intros Hp. unfold take. simpl. rewrite Hp. by rewrite map_nth_seq.
Qed.

Lemma take_dispatched (df : DataFrame) (indexer : list nat) :
  map dispatched_of (rows (take df indexer))
  = map (fun j => nth j (map dispatched_of (rows df)) 0%Z) indexer.
Proof.
  unfold take. simpl. rewrite map_map. apply map_ext. intros j.
  by rewrite <- (map_nth dispatched_of).
Qed.

Lemma sort_values_dispatched (c : DataFrame) :
  columns c = country_labels ->
  sort_values c "Dispatched" false
  = Ok (take c (nargsort (map dispatched_of (rows c)) false)).
Proof.
  intros Hc. unfold sort_values, get_loc. rewrite Hc. reflexivity.
Qed.

End Sorting.

(** * The claims *)

(** ** Country Resolver *)

(** The cases of [resolves] exclude one another. *)
Lemma resolves_functional {E : Externals} (phone a b : string) :
  resolves phone a -> resolves phone b -> a = b.
Proof.
  intros Ha Hb.
  destruct Ha as [Hp|n Hp Hr|n code c name Hp Hr Hne Hc Hn|n code Hp Hr Hne Hc
                 |n code c Hp Hr Hne Hc Hn];
  destruct Hb as [Hp'|n' Hp' Hr'|n' code' c' name' Hp' Hr' Hne' Hc' Hn'
                 |n' code' Hp' Hr' Hne' Hc'|n' code' c' Hp' Hr' Hne' Hc' Hn'];
  try done; try congruence;
  rewrite Hp in Hp'; try discriminate; injection Hp' as <-;
  try (destruct Hr as [Hr|Hr]; congruence);
  try (destruct Hr' as [Hr'|Hr']; congruence);
  rewrite Hr in Hr'; injection Hr' as <-; congruence.
Qed.

(** C3 (as amended): for every input string the Country Resolver returns a
    string, decided by the cases of [resolves] on the number with its leading
    [+]: "Unknown" when parsing raises or no region code comes back, the
    country's name when the region is mapped, and the region code itself when
    it has no mapping (the special-cases table being consulted only when the
    country object has no name). *)
Theorem C3_country_resolver {E : Externals} (phone_number : string) :
  resolves (with_plus phone_number) (get_country_name phone_number).
Proof.
  unfold get_country_name. fold (with_plus phone_number).
  destruct (phonenumbers_parse (with_plus phone_number)) as [n|] eqn:Hp;
    [|by apply resolves_unparseable].
  destruct (region_code_for_number n) as [code|] eqn:Hr;
    [|by eapply resolves_no_region; eauto].
  destruct (Py.truthy code) eqn:Ht.
  - assert (code <> EmptyString) as Hne.
    { intros ->. done. }
    destruct (pycountry_get code) as [c|] eqn:Hc;
      [|by eapply resolves_unmapped].
    destruct (country_name_attr c) as [name|] eqn:Hn.
    + by eapply resolves_named.
    + by eapply resolves_special.
  - eapply resolves_no_region; [done|]. right.
    unfold Py.truthy in Ht. apply negb_false_iff, String.eqb_eq in Ht.
    by subst.
Qed.

(** C3, the claim as stated fails: the number 38344123456 parses, its region
    code XK is in neither table, and the resolver returns "XK", not
    "Unknown". *)
Lemma C3_unmapped_region_counterexample :
  phonenumbers_parse (Externals := Sample.externals) "+38344123456" = Some "+38344123456"
  /\ region_code_for_number (Externals := Sample.externals) "+38344123456" = Some "XK"
  /\ pycountry_get (Externals := Sample.externals) "XK" = None
  /\ special_cases !! "XK" = None
  /\ get_country_name (E := Sample.externals) "38344123456" = "XK"
  /\ get_country_name (E := Sample.externals) "38344123456" <> "Unknown".
Proof. repeat split; try reflexivity. vm_compute. discriminate. Qed.

(** ** Filter Engine *)

(** C6: on a dataset with its three filtered columns and dispatch times, and
    date arguments that read, the Filter Engine returns a frame with the same
    columns whose records are exactly the records of the dataset that pass
    the country, campaign-type and date dimensions, in their order, an absent
    or empty filter letting every record pass; filtering by country "Unknown"
    and then by type "Commercial" equals filtering by both at once; and when
    the dataset is an object of a store, the result is a new object and every
    object of the store, the dataset included, is as it was. *)
Theorem C6_filter_engine {E : Externals} (df : DataFrame)
    (fc ft : option (list string)) (sd ed : option string)
    (ic it id : nat) (range : option (Z * Z)) :
  get_loc df "country_name" = Ok ic ->
  get_loc df "campaign_type" = Ok it ->
  get_loc df "dispatched_at" = Ok id ->
  Forall (fun r => cell_at id r = NaN \/ exists t, cell_at id r = Timestamp t) (rows df) ->
  reads_range sd ed range ->
  exists d,
    apply_filters df fc ft sd ed = Ok d
    /\ columns d = columns df
    /\ rows d
       = filter (fun r => passes fc (cell_at ic r)
                          /\ passes ft (cell_at it r)
                          /\ dispatched_within range (cell_at id r)) (rows df)
    /\ sublist (rows d) (rows df)
    /\ (d ← apply_filters df (Some ["Unknown"]) None None None;
        apply_filters d None (Some ["Commercial"]) None None)
       = apply_filters df (Some ["Unknown"]) (Some ["Commercial"]) None None
    /\ (forall (h : store) (l : nat),
          h !! l = Some df ->
          exists l' h',
            apply_filters_store h l fc ft sd ed = Ok (l', h')
            /\ h' !! l' = Some d
            /\ l' <> l
            /\ forall l0 d0, h !! l0 = Some d0 -> h' !! l0 = Some d0).
Proof.
  intros Hc Ht Hd Hdt Hrange.
  assert (Hdt' : Forall (fun r => is_datetimelike (cell_at id r) = true) (rows df)).
  { eapply Forall_impl; [exact Hdt|]. intros r Hr. simpl.
    by destruct Hr as [->|[t ->]]. }
  pose proof (reads_range_date_range sd ed range Hrange) as Hdr.
  pose proof (apply_filters_spec df fc ft sd ed ic it id _ Hc Ht Hd Hdt' Hdr) as Hspec.
  eexists. split; [exact Hspec|]. split; [done|]. split.
  { cbn [rows select]. apply filter_decide. intros r.
    rewrite !andb_true_iff, !dimension_ok_passes.
    destruct range as [[t1 t2]|];
      [rewrite in_range_dispatched_within; tauto|simpl; tauto]. }
  split; [apply filter_sublist|].
  split; [apply apply_filters_sequence|].
  intros h l Hl.
  pose proof (apply_filters_store_spec h l df fc ft sd ed Hl) as Hst.
  rewrite Hspec in Hst. destruct Hst as (l' & k & Hrun & Hres & Hlen).
  exists l', (h ++ k). split; [done|]. split; [done|]. split.
  - apply lookup_lt_Some in Hl. lia.
  - intros l0 d0 H0. by apply lookup_app_l_Some.
Qed.

(** C6 on the four-record dataset, filtered by two countries, one campaign
    type and the range 2024-01-02 to 2024-01-04. *)
Lemma C6_filter_engine_witness :
  exists d,
    apply_filters (E := Sample.externals) Cases.full_dataset
      (Some ["Unknown"; "United Kingdom"]) (Some ["Non-Commercial"])
      (Some "2024-01-02") (Some "2024-01-04")
    = Ok d
    /\ columns d = columns Cases.full_dataset
    /\ rows d
       = filter (fun r => passes (Some ["Unknown"; "United Kingdom"]) (cell_at 9 r)
                          /\ passes (Some ["Non-Commercial"]) (cell_at 8 r)
                          /\ dispatched_within (Some (1704153600, 1704326400)%Z)
                               (cell_at 2 r))
           (rows Cases.full_dataset)
    /\ sublist (rows d) (rows Cases.full_dataset)
    /\ (d ← apply_filters (E := Sample.externals) Cases.full_dataset
              (Some ["Unknown"]) None None None;
        apply_filters (E := Sample.externals) d None (Some ["Commercial"]) None None)
       = apply_filters (E := Sample.externals) Cases.full_dataset
           (Some ["Unknown"]) (Some ["Commercial"]) None None
    /\ (forall (h : store) (l : nat),
          h !! l = Some Cases.full_dataset ->
          exists l' h',
            apply_filters_store (E := Sample.externals) h l
              (Some ["Unknown"; "United Kingdom"]) (Some ["Non-Commercial"])
              (Some "2024-01-02") (Some "2024-01-04") = Ok (l', h')
            /\ h' !! l' = Some d
            /\ l' <> l
            /\ forall l0 d0, h !! l0 = Some d0 -> h' !! l0 = Some d0).
Proof.
  apply (C6_filter_engine (E := Sample.externals) Cases.full_dataset
           (Some ["Unknown"; "United Kingdom"]) (Some ["Non-Commercial"])
           (Some "2024-01-02") (Some "2024-01-04") 9 8 2
           (Some (1704153600, 1704326400)%Z)).
  - reflexivity.
  - reflexivity.
  - reflexivity.
  - repeat (constructor; [right; eexists; reflexivity|]). constructor.
  - apply (reads_both (E := Sample.externals)); [discriminate|discriminate|reflexivity..].
Defined.

(** C10: when exactly one of the start date and the end date is supplied, no
    date predicate is applied: the result is the records passing the country
    and campaign-type predicates, whatever their dispatch times and whatever
    the supplied date is, the same as with no date at all. *)
Theorem C10_one_date_only {E : Externals} (df : DataFrame)
    (fc ft : option (list string)) (sd ed : option string) (ic it : nat) :
  get_loc df "country_name" = Ok ic ->
  get_loc df "campaign_type" = Ok it ->
  (is_Some sd /\ ed = None) \/ (sd = None /\ is_Some ed) ->
  apply_filters df fc ft sd ed
  = Ok (mkDF (columns df)
          (List.filter (fun r => dimension_ok fc ic r && dimension_ok ft it r) (rows df)))
  /\ apply_filters df fc ft sd ed = apply_filters df fc ft None None.
Proof.
  intros Hc Ht Hone.
  assert (truthy_str sd && truthy_str ed = false) as Hdates.
  { destruct Hone as [[_ ->]|[-> _]]; [apply andb_false_r | done]. }
  assert (forall sd' ed', truthy_str sd' && truthy_str ed' = false ->
            apply_filters df fc ft sd' ed'
            = Ok (select df (fun r => dimension_ok fc ic r && dimension_ok ft it r)))
    as Hno.
  { intros sd' ed' H. unfold apply_filters. rewrite H.
    rewrite (dimension_stage df fc "country_name" ic Hc), bind_Ok.
    rewrite (dimension_stage _ ft "campaign_type" it) by done.
    rewrite bind_Ok. by rewrite select_select. }
  split.
  - by rewrite Hno.
  - by rewrite !Hno.
Qed.

(** C10 on the four-record dataset with a start date and no end date. *)
Lemma C10_one_date_only_witness :
  apply_filters (E := Sample.externals) Cases.full_dataset
    (Some ["United Kingdom"]) None (Some "2024-01-03") None
  = Ok (mkDF (columns Cases.full_dataset)
          (List.filter (fun r => dimension_ok (Some ["United Kingdom"]) 9 r
                                 && dimension_ok None 8 r)
             (rows Cases.full_dataset)))
  /\ apply_filters (E := Sample.externals) Cases.full_dataset
       (Some ["United Kingdom"]) None (Some "2024-01-03") None
     = apply_filters (E := Sample.externals) Cases.full_dataset
         (Some ["United Kingdom"]) None None None.
Proof.
  apply (C10_one_date_only (E := Sample.externals) Cases.full_dataset
           (Some ["United Kingdom"]) None (Some "2024-01-03") None 9 8).
  - reflexivity.
  - reflexivity.
  - left. split; [by eexists | reflexivity].
Defined.

(** ** Record Enricher *)

(** Once [process_uploaded_file] has returned, the frame is in the slot. *)
Lemma processed_upload_fills_slot {E : Externals} (data : option DataFrame)
    (decoded : result DataFrame) (df : DataFrame) (tab : string)
    (fc ft : option (list string)) (sd ed : option string) :
  process_uploaded_file decoded = Ok df ->
  (update_content data ["upload-data"] (Some decoded) tab fc ft sd ed).1 = Some df.
Proof.
  intros H. unfold update_content. simpl. rewrite H.
  by destruct (upload_success _ df).
Qed.

(** C5: after a successful upload every record of the dataset has a valid
    dispatch time, a campaign type that is Commercial or Non-Commercial and
    a country name that is a string; the dataset is, in the order of the raw
    rows, the enriched rows whose dispatch time parsed, each enriched row
    being its raw row with only those three cells set; and it is what the
    upload stores in the dataset slot. *)
Theorem C5_enriched_dataset {E : Externals} (raw df : DataFrame) :
  process_uploaded_file (Ok raw) = Ok df ->
  exists (enriched : list (list cell)) (id it ic : nat) (col : list cell),
    getitem raw "dispatched_at" = Ok col /\
    get_loc df "dispatched_at" = Ok id /\
    get_loc df "campaign_type" = Ok it /\
    get_loc df "country_name" = Ok ic /\
    length enriched = length (rows raw) /\
    (forall k r, enriched !! k = Some r ->
       exists r0, rows raw !! k = Some r0 /\
         cell_at id r = of_datetime (nth k (to_datetime col) None) /\
         forall j, j <> id -> j <> it -> j <> ic -> cell_at j r = cell_at j r0) /\
    rows df = List.filter (fun r => notna (cell_at id r)) enriched /\
    sublist (rows df) enriched /\
    Forall (fun r =>
              (exists t, cell_at id r = Timestamp t) /\
              (cell_at it r = Str "Commercial" \/ cell_at it r = Str "Non-Commercial") /\
              (exists s, cell_at ic r = Str s)) (rows df) /\
    (forall data tab fc ft sd ed,
       (update_content data ["upload-data"] (Some (Ok raw)) tab fc ft sd ed).1 = Some df).
Proof.
  intros H.
  destruct (process_uploaded_file_rows (Ok raw) df H)
    as (raw' & Hraw & enriched & id & it & ic & col
        & Hcol & Hid & Hit & Hic & Hrows & Hlen & Hrow).
  injection Hraw as <-.
  exists enriched, id, it, ic, col.
  repeat (split; [done|]).
  split.
  { intros k r Hr. destruct (Hrow k r Hr) as (r0 & H0 & Hd & _ & _ & Hother).
    by exists r0. }
  split; [done|].
  split; [rewrite Hrows; apply filter_sublist|].
  split.
  2: { intros. by apply processed_upload_fills_slot. }
  rewrite Hrows. apply Forall_forall. intros r Hr.
  apply list_elem_of_In, filter_In in Hr as [Hr Hvalid].
  apply list_elem_of_In, list_elem_of_lookup in Hr as [k Hk].
  destruct (Hrow k r Hk) as (r0 & _ & Hd & Ht & Hc & _).
  split; [|done].
  rewrite Hd in Hvalid |- *. by apply of_datetime_notna.
Qed.

(** C5 on the five-row upload, one row of which has no readable date. *)
Lemma C5_enriched_dataset_witness :
  exists (enriched : list (list cell)) (id it ic : nat) (col : list cell),
    getitem Cases.full_upload "dispatched_at" = Ok col /\
    get_loc Cases.full_dataset "dispatched_at" = Ok id /\
    get_loc Cases.full_dataset "campaign_type" = Ok it /\
    get_loc Cases.full_dataset "country_name" = Ok ic /\
    length enriched = length (rows Cases.full_upload) /\
    (forall k r, enriched !! k = Some r ->
       exists r0, rows Cases.full_upload !! k = Some r0 /\
         cell_at id r
         = of_datetime (nth k (to_datetime (Externals := Sample.externals) col) None) /\
         forall j, j <> id -> j <> it -> j <> ic -> cell_at j r = cell_at j r0) /\
    rows Cases.full_dataset = List.filter (fun r => notna (cell_at id r)) enriched /\
    sublist (rows Cases.full_dataset) enriched /\
    Forall (fun r =>
              (exists t, cell_at id r = Timestamp t) /\
              (cell_at it r = Str "Commercial" \/ cell_at it r = Str "Non-Commercial") /\
              (exists s, cell_at ic r = Str s)) (rows Cases.full_dataset) /\
    (forall data tab fc ft sd ed,
       (update_content (E := Sample.externals) data ["upload-data"]
          (Some (Ok Cases.full_upload)) tab fc ft sd ed).1 = Some Cases.full_dataset).
Proof.
  apply (C5_enriched_dataset (E := Sample.externals) Cases.full_upload Cases.full_dataset).
  vm_compute. reflexivity.
Defined.

(** ** Cost Analysis *)

(** C2 (as amended): on a dataset of at most a million records with the
    campaign_type, campaign_name and delivered_at columns, when the sum that
    pandas runs adds the groups' costs by float64 additions, the Cost
    Analysis rows are one row per Non-Commercial campaign, whose count is the
    number of delivered records of the campaign and whose cost is the float64
    product of the count and 0.04, followed by one last row named "Total"
    whose count is the sum of the groups' counts and whose cost is the
    float64 sum of the groups' costs, taken on the numeric rows before they
    are formatted; that cost is 0.04 times the sum of the counts up to a
    ten-billionth by message, and every row shows 4 cents a message. *)
Theorem C2_cost_total {E : Externals} (df : DataFrame) (t k d : nat) :
  get_loc df "campaign_type" = Ok t ->
  get_loc df "campaign_name" = Ok k ->
  get_loc df "delivered_at" = Ok d ->
  (Z.of_nat (length (rows df)) <= 1000000)%Z ->
  (forall groups, cost_groups df = Ok groups ->
     exists n, (n <= 2 * length groups + 1)%nat /\
               float_sums n (map cost groups) (float_sum (map cost groups))) ->
  exists (groups : list cost_row) (delivered_total : Z) (total : Q),
    cost_groups df = Ok groups /\
    NoDup (map cost_campaign groups) /\
    (forall c, c ∈ map cost_campaign groups <->
       c <> NaN /\ exists r, r ∈ rows df /\ cell_at t r = Str "Non-Commercial"
                             /\ cell_at k r = c) /\
    Forall (fun g =>
      delivered_messages g
      = Z.of_nat (length (List.filter
                            (fun r => bool_decide (cell_at t r = Str "Non-Commercial")
                                      && bool_decide (cell_at k r = cost_campaign g)
                                      && notna (cell_at d r))
                            (rows df))) /\
      cost g = fmul (of_int (delivered_messages g)) usd_per_message) groups /\
    delivered_total = fold_right Z.add 0%Z (map delivered_messages groups) /\
    total = float_sum (map cost groups) /\
    cost_rows df = Ok (groups ++ [mkCost (Str "Total") delivered_total total]) /\
    (Qabs (total - inject_Z delivered_total * (4 # 100))
     <= inject_Z delivered_total * (1 # 10000000000))%Q /\
    create_cost_analysis_table df =
      Ok (DataTable "cost-table"
            (mkDF ["campaign_name"; "Delivered Messages"; "Cost (USD)"]
               (map (fun g => [ cost_campaign g; Int (delivered_messages g);
                                Str (usd (4 * delivered_messages g)) ]) groups
                ++ [[Str "Total"; Int delivered_total; Str (usd (4 * delivered_total))]]))).
Proof.
  intros Ht Hk Hd Hrows Hfloat.
  destruct (cost_table_spec df t k d Ht Hk Hd Hrows Hfloat)
    as (groups & Hgroups & Hnd & Hin & Hall & _ & Hcost & Herr & Htable).
  by exists groups, (sum (map delivered_messages groups)), (float_sum (map cost groups)).
Qed.

(** C2 on the four-record dataset: two Non-Commercial campaigns, added as
    numpy adds them. *)
Lemma C2_cost_total_witness :
  exists (groups : list cost_row) (delivered_total : Z) (total : Q),
    cost_groups Cases.full_dataset = Ok groups /\
    NoDup (map cost_campaign groups) /\
    (forall c, c ∈ map cost_campaign groups <->
       c <> NaN /\ exists r, r ∈ rows Cases.full_dataset
                             /\ cell_at 8 r = Str "Non-Commercial" /\ cell_at 0 r = c) /\
    Forall (fun g =>
      delivered_messages g
      = Z.of_nat (length (List.filter
                            (fun r => bool_decide (cell_at 8 r = Str "Non-Commercial")
                                      && bool_decide (cell_at 0 r = cost_campaign g)
                                      && notna (cell_at 4 r))
                            (rows Cases.full_dataset))) /\
      cost g = fmul (of_int (delivered_messages g)) usd_per_message) groups /\
    delivered_total = fold_right Z.add 0%Z (map delivered_messages groups) /\
    total = float_sum (Externals := Sample.externals) (map cost groups) /\
    cost_rows (E := Sample.externals) Cases.full_dataset
    = Ok (groups ++ [mkCost (Str "Total") delivered_total total]) /\
    (Qabs (total - inject_Z delivered_total * (4 # 100))
     <= inject_Z delivered_total * (1 # 10000000000))%Q /\
    create_cost_analysis_table (E := Sample.externals) Cases.full_dataset =
      Ok (DataTable "cost-table"
            (mkDF ["campaign_name"; "Delivered Messages"; "Cost (USD)"]
               (map (fun g => [ cost_campaign g; Int (delivered_messages g);
                                Str (usd (4 * delivered_messages g)) ]) groups
                ++ [[Str "Total"; Int delivered_total; Str (usd (4 * delivered_total))]]))).
Proof.
  apply (C2_cost_total (E := Sample.externals) Cases.full_dataset 8 0 4);
    [reflexivity|reflexivity|reflexivity|vm_compute; discriminate|].
  intros groups [= <-]. exists 3%nat. split; [simpl; lia|].
  apply (float_sums_add 0 2 [] _ 0%Q).
  - apply float_sums_nil.
  - apply (float_sums_add 1 0 [_] [_]).
    + apply (float_sums_add 0 0 [] [_] 0%Q); [apply float_sums_nil|apply float_sums_one].
    + apply float_sums_one.
Defined.

(** C2 as first stated fails: with campaigns of one and of five delivered
    records the Total cost is 0.04 + 0.2 in float64, 0.24000000000000002,
    which is neither the float64 product of 0.04 and 6 nor the real number
    0.24. *)
Lemma C2_float_total_counterexample :
  exists (g1 g5 : cost_row) (total : Q),
    cost_rows (E := Sample.externals) Cases.one_and_five
    = Ok [g1; g5; mkCost (Str "Total") 6 total] /\
    delivered_messages g1 = 1%Z /\ delivered_messages g5 = 5%Z /\
    total = fadd (cost g1) (cost g5) /\
    (total == 8646911284551353 # 36028797018963968)%Q /\
    (fmul (of_int (1 + 5)) usd_per_message == 4323455642275676 # 18014398509481984)%Q /\
    ~ (total == fmul (of_int (1 + 5)) usd_per_message)%Q /\
    ~ (total == inject_Z (1 + 5) * (4 # 100))%Q.
Proof.
  eexists _, _, _. split; [vm_compute; reflexivity|].
  cbn [delivered_messages cost].
  repeat split; try (vm_compute; reflexivity); vm_compute; discriminate.
Qed.

(** ** Country Analysis *)

(** C8 (as amended): when the sort that [sort_values] runs returns a sorting
    permutation of the Dispatched counts, the rows of the Country Analysis
    view are the per-country rows, each once, in descending order of
    Dispatched; nothing is said of the order among equal counts. *)
Theorem C8_country_rows_sorted {E : Externals} (df c : DataFrame) :
  country_df df = Ok c ->
  sorts (rev (map dispatched_of (rows c))) (argsort (rev (map dispatched_of (rows c)))) ->
  exists t,
    create_country_analysis_table df = Ok (DataTable "country-table" t) /\
    columns t = country_labels /\
    rows t ≡ₚ rows c /\
    Sorted Z.ge (map dispatched_of (rows t)).
Proof.
  intros Hc Hsorts.
  pose proof (country_df_columns df c Hc) as Hcols.
  exists (take c (nargsort (map dispatched_of (rows c)) false)).
  split.
  { unfold create_country_analysis_table.
    rewrite Hc, bind_Ok, (sort_values_dispatched c Hcols). done. }
  split; [done|].
  split.
  - apply take_perm. rewrite <- (length_map dispatched_of).
    by apply nargsort_desc_perm.
  - rewrite take_dispatched. by apply nargsort_desc_sorted.
Qed.

(** C8 on the four-record dataset, sorted by numpy's index quicksort. *)
Lemma C8_country_rows_sorted_witness :
  exists t,
    create_country_analysis_table (E := Sample.externals) Cases.full_dataset
    = Ok (DataTable "country-table" t) /\
    columns t = country_labels /\
    rows t ≡ₚ rows Cases.full_country_df /\
    Sorted Z.ge (map dispatched_of (rows t)).
Proof.
  apply (C8_country_rows_sorted (E := Sample.externals)
           Cases.full_dataset Cases.full_country_df).
  - reflexivity.
  - split.
    + apply (bool_decide_unpack _). vm_compute. exact I.
    + apply (bool_decide_unpack _). vm_compute. exact I.
Defined.

(** C8, the claim as stated fails: with numpy's index quicksort behind
    [sort_values], twenty countries listed in alphabetical order, Kenya with
    two dispatched records and the others with one each, come out sorted by
    Dispatched but with Bahrain second and Algeria eleventh, which is not the
    stable order of the grouped rows. *)
Lemma C8_stable_order_counterexample :
  exists c t,
    country_df Cases.twenty_dataset = Ok c /\
    create_country_analysis_table (E := Sample.externals) Cases.twenty_dataset
    = Ok (DataTable "country-table" t) /\
    map (cell_at 0) (rows c) = map Str Cases.twenty_countries /\
    (cell_at 0 <$> rows t !! 1%nat) = Some (Str "Bahrain") /\
    (dispatched_of <$> rows t !! 1%nat) = Some 1%Z /\
    (cell_at 0 <$> rows t !! 10%nat) = Some (Str "Algeria") /\
    (dispatched_of <$> rows t !! 10%nat) = Some 1%Z /\
    rows t <> stable_sort_desc (rows c).
Proof.
  eexists. eexists.
  split; [vm_compute; reflexivity|].
  split; [vm_compute; reflexivity|].
  repeat split; try (vm_compute; reflexivity).
  vm_compute. discriminate.
Qed.

(** ** Zero divisors in the Country Analysis *)

(** A rate over a zero count is not a number, or infinite. *)
Lemma rate_zero_divisor (n : Z) :
  percent (rate n 0) = if (n =? 0)%Z then "nan%" else "inf%".
Proof. unfold rate. simpl. by destruct (n =? 0)%Z. Qed.

(** C1, at a failing input: with no delivered record for a country the view
    does not raise, but its Read Rate cell is "nan%" (or "inf%" when a read
    time is present), neither "0%" nor "N/A". *)
Theorem C1_zero_delivered_read_rate :
  create_country_analysis_table (E := Sample.externals) Cases.undelivered_dataset
  = Ok (DataTable "country-table"
          (mkDF country_labels
             [ [ Str "Egypt"; Int 1; Int 0; Int 0; Int 0; Int 0;
                 Str "0.0%"; Str "nan%" ];
               [ Str "Ghana"; Int 1; Int 0; Int 1; Int 0; Int 0;
                 Str "0.0%"; Str "inf%" ] ]))
  /\ percent (rate 0 0) <> "0%" /\ percent (rate 0 0) <> "N/A"
  /\ percent (rate 1 0) <> "0%" /\ percent (rate 1 0) <> "N/A".
Proof. repeat split; try (vm_compute; reflexivity); vm_compute; discriminate. Qed.

(** ** Uploads and the dataset slot *)

Section Uploads.
Context {E : Externals}.

(** An upload that fails inside [process_uploaded_file] leaves the slot. *)
Lemma failed_processing_keeps_data (data : option DataFrame)
    (decoded : result DataFrame) (e : exn) (tab : string)
    (fc ft : option (list string)) (sd ed : option string) :
  process_uploaded_file decoded = Raise e ->
  update_content data ["upload-data"] (Some decoded) tab fc ft sd ed
  = (data, Ok (upload_error e)).
Proof. intros H. unfold update_content. simpl. by rewrite H. Qed.

(** No campaign column after the renames: the upload fails with the schema
    message and the slot is left as it was. *)
Lemma schema_error_keeps_data (data : option DataFrame) (raw : DataFrame)
    (tab : string) (fc ft : option (list string)) (sd ed : option string) :
  has_column (apply_column_mapping raw) "campaign_name" = false ->
  campaign_cols (apply_column_mapping raw) = [] ->
  update_content data ["upload-data"] (Some (Ok raw)) tab fc ft sd ed
  = (data, Ok (upload_error
                 (ValueError "Could not find campaign name column in the CSV file"))).
Proof.
  intros Hno Hcols. apply failed_processing_keeps_data.
  unfold process_uploaded_file. rewrite bind_Ok.
  unfold resolve_campaign_name. by rewrite Hno, Hcols.
Qed.

(** An upload that fails after [data = df] has replaced the slot. *)
Lemma late_failure_replaces_data (data : option DataFrame)
    (decoded : result DataFrame) (df : DataFrame) (e : exn) (tab : string)
    (fc ft : option (list string)) (sd ed : option string) :
  process_uploaded_file decoded = Ok df ->
  upload_success (campaign_name_dtype decoded) df = Raise e ->
  update_content data ["upload-data"] (Some decoded) tab fc ft sd ed
  = (Some df, Ok (upload_error e)).
Proof. intros H1 H2. unfold update_content. simpl. by rewrite H1, H2. Qed.

(** Away from the data-table tab a filter request builds the campaign
    summary, whatever the tab. *)
Lemma filter_request_builds_summary (d : DataFrame) (tab : string)
    (fc ft : option (list string)) (sd ed : option string)
    (contents : option (result DataFrame)) :
  String.eqb tab "data-table-tab" = false ->
  (update_content (Some d) ["filter-button"] contents tab fc ft sd ed).2
  = (filtered_data ← apply_filters d fc ft sd ed;
     t ← create_summary_table filtered_data;
     Ok (only_content (Set_ t))).
Proof. intros H. unfold update_content. simpl. by rewrite H. Qed.

End Uploads.

(** C4, at a failing input: an upload without any campaign column fails with
    the schema message and leaves the dataset; but an upload whose only
    delivery column is [Delivered] is reported as failed (the product cards
    find no [delivered_at]) after the dataset slot has been replaced by the
    new frame. *)
Theorem C4_failed_upload_replaces_dataset :
  update_content (E := Sample.externals) (Some Cases.example_dataset) ["upload-data"]
    (Some (Ok Cases.no_campaign_upload)) "data-table-tab" None None None None
  = (Some Cases.example_dataset,
     Ok (mkOut (Set_ "none") (Set_ []) (Set_ None) (Set_ None)
           (Set_ (Div "Error: Could not find campaign name column in the CSV file"))
           (Set_ None)))
  /\ update_content (E := Sample.externals) (Some Cases.example_dataset) ["upload-data"]
       (Some (Ok Cases.delivered_upload)) "data-table-tab" None None None None
     = (Some Cases.delivered_dataset,
        Ok (mkOut (Set_ "none") (Set_ []) (Set_ None) (Set_ None)
              (Set_ (Div "Error: 'delivered_at'")) (Set_ None)))
  /\ Cases.delivered_dataset <> Cases.example_dataset.
Proof. repeat split; try (vm_compute; reflexivity). discriminate. Qed.

(** ** Views on request *)

(** C7, at a failing input: a filter request made on the cost-analysis tab,
    or on the country-analysis tab, returns the campaign summary of the
    filtered dataset, not the view of the active tab. *)
Theorem C7_filter_request_ignores_tab :
  let summary :=
    DataTable "summary-table"
      (mkDF [ "campaign_name"; "Dispatched"; "Sent"; "Delivered"; "Read";
              "Button Clicks"; "Link Clicks" ]
         [ [ Str "Auto CPC Promo"; Int 1; Int 1; Int 1; Int 1; Int 1; Int 0 ];
           [ Str "Survey"; Int 1; Int 1; Int 1; Int 0; Int 0; Int 1 ];
           [ Str "Winter Sale"; Int 2; Int 2; Int 1; Int 0; Int 0; Int 0 ] ]) in
  update_content (E := Sample.externals) (Some Cases.full_dataset) ["filter-button"]
    None "cost-analysis-tab" None None None None
  = (Some Cases.full_dataset, Ok (only_content (Set_ summary)))
  /\ update_content (E := Sample.externals) (Some Cases.full_dataset) ["filter-button"]
       None "country-analysis-tab" None None None None
     = (Some Cases.full_dataset, Ok (only_content (Set_ summary)))
  /\ create_cost_analysis_table (E := Sample.externals) Cases.full_dataset <> Ok summary
  /\ create_country_analysis_table (E := Sample.externals) Cases.full_dataset <> Ok summary.
Proof. repeat split; try (vm_compute; reflexivity); vm_compute; discriminate. Qed.

(** C9, at a failing input: the dataset of the end-to-end example has no
    sent_at, read_at, button_clicks or link_clicks column; a request for its
    campaign summary raises a KeyError out of the callback, where the check of
    [handle_upload_and_tabs] would report the four missing names. *)
Theorem C9_missing_columns_raise :
  process_uploaded_file (E := Sample.externals) (Ok Sample.example_upload)
  = Ok Cases.example_dataset
  /\ update_content (E := Sample.externals) (Some Cases.example_dataset) ["tabs"]
       None "campaign-summary-tab" None None None None
     = (Some Cases.example_dataset,
        Raise (KeyErrorColumns ["button_clicks"; "link_clicks"; "read_at"; "sent_at"]))
  /\ missing_columns_report Cases.example_dataset
     = Some (Div "Missing columns: sent_at, read_at, button_clicks, link_clicks").
Proof. repeat split; vm_compute; reflexivity. Qed.

(** * Further properties *)

(** ** Campaign Classifier *)

Lemma lower_ascii_idemp (c : ascii) :
  Py.lower_ascii (Py.lower_ascii c) = Py.lower_ascii c.
Proof. destruct c as [[] [] [] [] [] [] [] []]; reflexivity. Qed.

Lemma lower_idemp (s : string) : Py.lower (Py.lower s) = Py.lower s.
Proof.
  induction s as [|c s IH]; simpl; [done|]. by rewrite lower_ascii_idemp, IH.
Qed.

Lemma lower_ascii_underscore (c : ascii) :
  (if Ascii.eqb (Py.lower_ascii c) "_" then " "%char else Py.lower_ascii c)
  = Py.lower_ascii (if Ascii.eqb c "_" then " "%char else c).
Proof. destruct c as [[] [] [] [] [] [] [] []]; reflexivity. Qed.

Lemma replace_lower (s : string) :
  Py.replace "_" " " (Py.lower s) = Py.lower (Py.replace "_" " " s).
Proof.
  induction s as [|c s IH]; simpl; [done|].
  by rewrite lower_ascii_underscore, IH.
Qed.

Lemma replace_idemp (s : string) :
  Py.replace "_" " " (Py.replace "_" " " s) = Py.replace "_" " " s.
Proof.
  induction s as [|c s IH]; simpl; [done|]. rewrite IH. f_equal.
  destruct (Ascii.eqb c "_") eqn:Hc; [done|]. by rewrite Hc.
Qed.

Lemma startswith_replace (hay k : string) :
  Py.startswith hay k = true ->
  Py.startswith (Py.replace "_" " " hay) (Py.replace "_" " " k) = true.
Proof.
  revert hay. induction k as [|a k IH]; intros hay; simpl; [by destruct hay|].
  destruct hay as [|b hay]; simpl; [done|].
  intros H. apply andb_true_iff in H as [Hab Hk].
  apply Ascii.eqb_eq in Hab as ->. rewrite Ascii.eqb_refl. simpl. by apply IH.
Qed.

Lemma contains_replace (k hay : string) :
  Py.contains k hay = true ->
  Py.contains (Py.replace "_" " " k) (Py.replace "_" " " hay) = true.
Proof.
  induction hay as [|b hay IH]; simpl.
  - rewrite orb_false_r. intros H. apply (startswith_replace EmptyString k) in H.
    simpl in H. by rewrite H.
  - intros H. apply orb_true_iff in H as [H|H].
    + apply (startswith_replace (String b hay) k) in H. simpl in H.
      by rewrite H.
    + rewrite (IH H). apply orb_true_r.
Qed.

Lemma contains_underscore_cons (a : ascii) (k : string) :
  Py.contains "_" (String a k) = Ascii.eqb "_" a || Py.contains "_" k.
Proof. simpl. by destruct k; rewrite andb_true_r. Qed.

Lemma startswith_underscore_free (hay k : string) :
  Py.contains "_" k = true ->
  Py.contains "_" hay = false ->
  Py.startswith hay k = false.
Proof.
  revert hay. induction k as [|a k IH]; intros hay Hk Hhay; [done|].
  destruct hay as [|b hay]; [done|].
  rewrite contains_underscore_cons in Hk, Hhay.
  apply orb_false_iff in Hhay as [Hb Hhay].
  cbn [Py.startswith].
  destruct (Ascii.eqb a b) eqn:Hab; [|done].
  apply Ascii.eqb_eq in Hab as ->. rewrite Hb in Hk. simpl in Hk.
  simpl. by apply IH.
Qed.

Lemma contains_underscore_free (hay k : string) :
  Py.contains "_" k = true ->
  Py.contains "_" hay = false ->
  Py.contains k hay = false.
Proof.
  intros Hk. induction hay as [|b hay IH]; intros Hhay.
  - cbn [Py.contains]. rewrite (startswith_underscore_free EmptyString k) by done. done.
  - cbn [Py.contains]. rewrite (startswith_underscore_free _ k) by done.
    rewrite contains_underscore_cons in Hhay.
    apply orb_false_iff in Hhay as [_ Hhay]. simpl. by apply IH.
Qed.

Lemma replace_no_underscore (s : string) :
  Py.contains "_" (Py.replace "_" " " s) = false.
Proof.
  induction s as [|c s IH]; [done|].
  cbn [Py.replace]. rewrite contains_underscore_cons, IH, orb_false_r.
  destruct (Ascii.eqb c "_") eqn:Hc; [done|].
  rewrite Ascii.eqb_sym. done.
Qed.

(** The name as the classifier matches it. *)
Lemma is_commercial_campaign_Str (s : string) :
  is_commercial_campaign (Str s)
  = existsb (fun keyword => Py.contains keyword (Py.replace "_" " " (Py.lower s)))
      commercial_keywords.
Proof. reflexivity. Qed.

(** X1: A name that contains one of the keywords, in any case, is Commercial:
    matching is done on the lower-cased name, and a keyword written with an
    underscore is found through its spelling with a space. *)
Theorem keyword_makes_commercial (name keyword : string) :
  keyword ∈ commercial_keywords ->
  Py.contains keyword (Py.lower name) = true ->
  campaign_type_of (Str name) = Str "Commercial".
Proof.
  intros Hk Hc. unfold campaign_type_of.
  replace (is_commercial_campaign (Str name)) with true; [done|].
  symmetry. rewrite is_commercial_campaign_Str. apply existsb_exists.
  exists (Py.replace "_" " " keyword). split.
  - unfold commercial_keywords in *.
    repeat (apply elem_of_cons in Hk as [->|Hk]; [simpl; auto 10|]).
    by apply elem_of_nil in Hk.
  - by apply contains_replace.
Qed.

Lemma keyword_makes_commercial_witness :
  campaign_type_of (Str "Promo_GEMS_BONUS") = Str "Commercial".
Proof.
  apply (keyword_makes_commercial "Promo_GEMS_BONUS" "gem").
  - set_solver.
  - reflexivity.
Defined.

(** X2: The keyword [top_up] never matches by itself, since underscores are
    replaced before matching: the classifier decides by the six other
    keywords. *)
Theorem top_up_keyword_is_dead (campaign_name : cell) :
  Py.contains "top_up" (Py.replace "_" " " (Py.lower (py_str campaign_name))) = false
  /\ is_commercial_campaign campaign_name
     = existsb (fun keyword =>
                  Py.contains keyword
                    (Py.replace "_" " " (Py.lower (py_str campaign_name))))
         [ "cpc"; "dt"; "gem"; "top up"; "topup"; "automation" ].
Proof.
  assert (Py.contains "top_up"
            (Py.replace "_" " " (Py.lower (py_str campaign_name))) = false) as H.
  { apply contains_underscore_free; [reflexivity|]. apply replace_no_underscore. }
  split; [done|].
  unfold is_commercial_campaign, commercial_keywords.
  cbn [existsb]. rewrite H. reflexivity.
Qed.

(** X3: The classification does not depend on the case of the name, nor on
    whether its words are joined by underscores or by spaces. *)
Theorem classifier_ignores_case_and_underscores (name : string) :
  is_commercial_campaign (Str (Py.lower name)) = is_commercial_campaign (Str name)
  /\ is_commercial_campaign (Str (Py.replace "_" " " name))
     = is_commercial_campaign (Str name).
Proof.
  rewrite !is_commercial_campaign_Str. split.
  - by rewrite lower_idemp.
  - by rewrite <- replace_lower, replace_idemp.
Qed.

(** ** Schema Normalizer *)

Lemma has_column_true (df : DataFrame) (label : string) :
  has_column df label = true <-> label ∈ columns df.
Proof. unfold has_column. apply bool_decide_eq_true. Qed.

Lemma has_column_false (df : DataFrame) (label : string) :
  has_column df label = false <-> label ∉ columns df.
Proof. unfold has_column. apply bool_decide_eq_false. Qed.

Lemma has_column_get_loc (df : DataFrame) (label : string) :
  has_column df label = true <-> exists i, get_loc df label = Ok i.
Proof.
  split.
  - intros H. apply has_column_true in H. unfold get_loc.
    destruct (index_of label (columns df)) as [i|] eqn:Hi; [by exists i|].
    exfalso. revert H Hi. generalize (columns df). intros l.
    induction l as [|c l IH]; simpl.
    + intros H. by apply elem_of_nil in H.
    + intros H. apply elem_of_cons in H as [->|H].
      * by rewrite String.eqb_refl.
      * destruct (String.eqb c label); [done|].
        destruct (index_of label l); [done|]. intros _. by apply IH.
  - intros [i Hi]. by apply get_loc_has_column in Hi.
Qed.

Lemma get_loc_absent (df : DataFrame) (label : string) :
  has_column df label = false -> get_loc df label = Raise (KeyError label).
Proof.
  intros H. unfold get_loc.
  destruct (index_of label (columns df)) as [i|] eqn:Hi; [|done].
  assert (has_column df label = true) as Ht.
  { apply (get_loc_has_column df label i). by apply get_loc_Ok. }
  congruence.
Qed.

Lemma rename_absent (df : DataFrame) (old new : string) :
  has_column df old = false -> columns (rename df old new) = columns df.
Proof.
  intros H. apply has_column_false in H. unfold rename. simpl.
  induction (columns df) as [|c l IH]; simpl; [done|].
  apply not_elem_of_cons in H as [Hc Hl].
  rewrite IH by done.
  replace (String.eqb c old) with false; [done|].
  symmetry. apply String.eqb_neq. congruence.
Qed.

Lemma rename_step_columns (df : DataFrame) (old new : string) :
  columns (if has_column df old then rename df old new else df)
  = map (fun c => if String.eqb c old then new else c) (columns df).
Proof.
  destruct (has_column df old) eqn:H; [reflexivity|].
  symmetry. exact (rename_absent df old new H).
Qed.

Lemma canonical_label_not_alias (mapping : list (string * string)) (label : string) :
  label ∉ map fst mapping -> canonical_label mapping label = label.
Proof.
  induction mapping as [|[old new] m IH]; simpl; [done|].
  intros H. apply not_elem_of_cons in H as [Hne Hm].
  replace (String.eqb label old) with false
    by (symmetry; by apply String.eqb_neq).
  by apply IH.
Qed.

(** Renaming entry by entry is renaming every label to its canonical name. *)
Lemma sequential_renames (mapping : list (string * string)) (df : DataFrame) :
  renames_apart mapping = true ->
  columns (foldl (fun d '(old_col, new_col) =>
                    if has_column d old_col then rename d old_col new_col else d)
             df mapping)
  = map (canonical_label mapping) (columns df).
Proof.
  revert df. induction mapping as [|[old new] m IH]; intros df Hm; simpl.
  - by rewrite map_id.
  - apply andb_true_iff in Hm as [Hnew Hm].
    apply negb_true_iff, bool_decide_eq_false in Hnew.
    rewrite IH by done. rewrite rename_step_columns, map_map.
    apply map_ext. intros c. rewrite String.eqb_sym.
    destruct (String.eqb old c) eqn:Hc.
    + by apply canonical_label_not_alias.
    + done.
Qed.

Lemma apply_column_mapping_columns (df : DataFrame) :
  columns (apply_column_mapping df) = map (canonical_label column_mapping) (columns df).
Proof. unfold apply_column_mapping. by apply sequential_renames. Qed.

(** X4: The rename pass gives every column its canonical name at once, keeps
    the rows, and leaves no alias of the table among the labels. *)
Theorem column_mapping_is_simultaneous (df : DataFrame) :
  columns (apply_column_mapping df) = map (canonical_label column_mapping) (columns df)
  /\ rows (apply_column_mapping df) = rows df
  /\ Forall (fun alias => has_column (apply_column_mapping df) alias = false)
       (map fst column_mapping).
Proof.
  pose proof (apply_column_mapping_columns df) as Hcols.
  split; [done|]. split; [apply apply_column_mapping_rows|].
  apply Forall_forall. intros alias Halias.
  apply has_column_false. rewrite Hcols. intros Hin.
  apply list_elem_of_fmap in Hin as (c & Hc & _).
  assert (Forall (fun new => new ∉ map fst column_mapping) (map snd column_mapping))
    as Hnews.
  { repeat constructor; vm_compute; intros H;
      repeat (apply elem_of_cons in H as [H|H]; [discriminate|]);
      by apply elem_of_nil in H. }
  assert (forall m, canonical_label m c = c \/ canonical_label m c ∈ map snd m) as Hcases.
  { induction m as [|[o n] m IHm]; simpl; [by left|].
    destruct (String.eqb c o); [right; by left|].
    destruct IHm as [->|IHm]; [by left | right; by right]. }
  destruct (Hcases column_mapping) as [Heq|Hnew].
  - rewrite Heq in Hc.
    assert (canonical_label column_mapping alias <> alias) as Hne.
    { unfold column_mapping in *.
      repeat (apply elem_of_cons in Halias as [->|Halias]; [vm_compute; discriminate|]).
      by apply elem_of_nil in Halias. }
    congruence.
  - rewrite Forall_forall in Hnews. apply (Hnews _ Hnew). by rewrite <- Hc.
Qed.

Lemma filter_nil_iff {A} (p : A -> bool) (l : list A) :
  List.filter p l = [] <-> Forall (fun x => p x = false) l.
Proof.
  induction l as [|x l IH]; simpl.
  - split; [constructor | done].
  - destruct (p x) eqn:Hx.
    + split; [done|]. intros H. apply Forall_cons in H as [H _]. congruence.
    + rewrite IH. split; [by constructor|]. intros H. by apply Forall_cons in H as [_ H].
Qed.

Lemma rename_has_new (df : DataFrame) (old new : string) :
  has_column df old = true -> has_column (rename df old new) new = true.
Proof.
  intros H. apply has_column_true in H. apply has_column_true.
  unfold rename. simpl. apply list_elem_of_fmap. exists old.
  by rewrite String.eqb_refl.
Qed.

Lemma resolve_campaign_name_none (df : DataFrame) :
  Forall (fun label => Py.contains "campaign" (Py.lower label) = false) (columns df) ->
  resolve_campaign_name df
  = Raise (ValueError "Could not find campaign name column in the CSV file").
Proof.
  intros Hall. unfold resolve_campaign_name.
  destruct (has_column df "campaign_name") eqn:Hcn.
  { apply has_column_true in Hcn. rewrite Forall_forall in Hall.
    specialize (Hall _ Hcn). discriminate. }
  unfold campaign_cols. apply filter_nil_iff in Hall. by rewrite Hall.
Qed.

(** X5: The campaign column is resolved exactly when some label contains
    "campaign" in any case; the resolved frame has a [campaign_name] column,
    the same rows and as many columns; otherwise the schema error is raised. *)
Theorem resolve_campaign_name_spec (df : DataFrame) :
  (Exists (fun label => Py.contains "campaign" (Py.lower label) = true) (columns df) ->
   exists df', resolve_campaign_name df = Ok df'
     /\ has_column df' "campaign_name" = true
     /\ rows df' = rows df
     /\ length (columns df') = length (columns df))
  /\ (Forall (fun label => Py.contains "campaign" (Py.lower label) = false) (columns df) ->
      resolve_campaign_name df
      = Raise (ValueError "Could not find campaign name column in the CSV file")).
Proof.
  split.
  - intros Hex. unfold resolve_campaign_name.
    destruct (has_column df "campaign_name") eqn:Hcn.
    { exists df. by repeat split. }
    unfold campaign_cols.
    destruct (List.filter _ (columns df)) as [|c k] eqn:Hf.
    { exfalso. apply filter_nil_iff in Hf. apply Exists_exists in Hex as (x & Hx & Hc).
      rewrite Forall_forall in Hf. specialize (Hf x Hx). simpl in Hf. congruence. }
    exists (rename df c "campaign_name"). repeat split.
    + apply rename_has_new. apply has_column_true.
      assert (In c (List.filter (fun col => Py.contains "campaign" (Py.lower col))
                      (columns df))) as Hin by (rewrite Hf; by left).
      apply filter_In in Hin as [Hin _]. by apply list_elem_of_In.
    + unfold rename. simpl. by rewrite length_map.
  - apply resolve_campaign_name_none.
Qed.

Lemma resolve_campaign_name_spec_witness :
  (exists df', resolve_campaign_name Cases.delivered_upload = Ok df'
     /\ has_column df' "campaign_name" = true
     /\ rows df' = rows Cases.delivered_upload
     /\ length (columns df') = length (columns Cases.delivered_upload))
  /\ resolve_campaign_name Cases.no_campaign_upload
     = Raise (ValueError "Could not find campaign name column in the CSV file").
Proof.
  split.
  - apply (proj1 (resolve_campaign_name_spec Cases.delivered_upload)).
    apply Exists_cons_hd. reflexivity.
  - apply (proj2 (resolve_campaign_name_spec Cases.no_campaign_upload)).
    repeat constructor.
Defined.

(** ** Record Enricher: the columns an upload needs *)

Lemma canonical_label_reflects (P : string -> Prop)
    (mapping : list (string * string)) (label : string) :
  Forall (fun p => P p.2 -> P p.1) mapping ->
  P (canonical_label mapping label) -> P label.
Proof.
  induction 1 as [|[old new] m Hp _ IH]; simpl; [done|].
  destruct (String.eqb label old) eqn:Hl; [|done].
  apply String.eqb_eq in Hl as ->. exact Hp.
Qed.

Lemma has_column_rename_other (df : DataFrame) (label old new : string) :
  label <> old -> label <> new ->
  has_column (rename df old new) label = has_column df label.
Proof.
  intros Ho Hn.
  destruct (has_column df label) eqn:H.
  - apply has_column_get_loc in H as [i Hi]. apply has_column_get_loc. exists i.
    by rewrite get_loc_rename_other.
  - apply get_loc_absent in H.
    destruct (has_column (rename df old new) label) eqn:H'; [|done].
    apply has_column_get_loc in H' as [i Hi].
    rewrite get_loc_rename_other in Hi by done. congruence.
Qed.

Lemma apply_column_mapping_has_column (df : DataFrame) (label : string) :
  label ∉ map fst column_mapping -> label ∉ map snd column_mapping ->
  has_column (apply_column_mapping df) label = has_column df label.
Proof.
  unfold apply_column_mapping. generalize column_mapping. intros m. revert df.
  induction m as [|[old new] m IH]; intros df Ho Hn; simpl in *; [done|].
  apply not_elem_of_cons in Ho as [Ho1 Ho]. apply not_elem_of_cons in Hn as [Hn1 Hn].
  rewrite IH by done. destruct (has_column df old); [|done].
  by apply has_column_rename_other.
Qed.

Lemma resolve_campaign_name_has_column (df df' : DataFrame) (label : string) :
  resolve_campaign_name df = Ok df' ->
  Py.contains "campaign" (Py.lower label) = false ->
  has_column df' label = has_column df label.
Proof.
  unfold resolve_campaign_name. intros H Hl.
  destruct (has_column df "campaign_name"); [by injection H as <-|].
  destruct (campaign_cols df) as [|c k] eqn:Hc; [done|]. injection H as <-.
  apply has_column_rename_other.
  - intros ->. apply filter_head in Hc. congruence.
  - intros ->. discriminate.
Qed.

Lemma has_column_setitem_other (df : DataFrame) (label other : string) (vals : list cell) :
  other <> label -> has_column (setitem df label vals) other = has_column df other.
Proof.
  intros Hne. destruct (setitem_spec df label vals) as (i & _ & Hother & _).
  specialize (Hother other Hne).
  destruct (has_column df other) eqn:H.
  - apply has_column_get_loc in H as [j Hj]. apply has_column_get_loc. exists j.
    congruence.
  - apply get_loc_absent in H.
    destruct (has_column (setitem df label vals) other) eqn:H'; [|done].
    apply has_column_get_loc in H' as [j Hj]. congruence.
Qed.

Lemma has_column_setitem_same (df : DataFrame) (label : string) (vals : list cell) :
  has_column (setitem df label vals) label = true.
Proof.
  destruct (setitem_spec df label vals) as (i & Hi & _).
  apply has_column_get_loc. by exists i.
Qed.

Lemma getitem_present (df : DataFrame) (label : string) :
  has_column df label = true -> exists col, getitem df label = Ok col.
Proof.
  intros H. apply has_column_get_loc in H as [i Hi]. unfold getitem.
  rewrite Hi, bind_Ok. eauto.
Qed.

Lemma getitem_absent (df : DataFrame) (label : string) :
  has_column df label = false -> getitem df label = Raise (KeyError label).
Proof. intros H. unfold getitem. by rewrite (get_loc_absent df label H). Qed.

Section Requirements.
Context {E : Externals}.

Lemma process_uploaded_file_requires (decoded : result DataFrame) (df : DataFrame) :
  process_uploaded_file decoded = Ok df ->
  exists raw df1,
    decoded = Ok raw /\
    resolve_campaign_name (apply_column_mapping raw) = Ok df1 /\
    has_column df1 "customer_external_id" = true /\
    has_column df1 "dispatched_at" = true.
Proof.
  intros H. unfold process_uploaded_file in H.
  destruct decoded as [raw|e]; [rewrite bind_Ok in H | done].
  destruct (resolve_campaign_name (apply_column_mapping raw)) as [df1|e] eqn:H1;
    [rewrite bind_Ok in H | done].
  exists raw, df1. split; [done|]. split; [done|].
  destruct (campaign_name_series df1) as [names|e]; [rewrite bind_Ok in H | done].
  destruct (has_column df1 "customer_external_id") eqn:Hc.
  2: { rewrite getitem_absent in H; [done|].
       by rewrite has_column_setitem_other. }
  split; [done|].
  destruct (getitem _ "customer_external_id") as [ids|e]; [rewrite bind_Ok in H | done].
  destruct (getitem _ "country_name") as [countries|e];
    [rewrite bind_Ok in H | done].
  destruct (has_column df1 "dispatched_at") eqn:Hd; [done|].
  rewrite getitem_absent in H; [done|].
  by rewrite !has_column_setitem_other.
Qed.

Lemma process_uploaded_file_succeeds (decoded : result DataFrame) (raw df1 : DataFrame)
    (names : list cell) :
  decoded = Ok raw ->
  resolve_campaign_name (apply_column_mapping raw) = Ok df1 ->
  campaign_name_series df1 = Ok names ->
  has_column df1 "customer_external_id" = true ->
  has_column df1 "dispatched_at" = true ->
  exists df, process_uploaded_file decoded = Ok df.
Proof.
  intros -> H1 Hn Hc Hd. unfold process_uploaded_file.
  rewrite bind_Ok, H1, bind_Ok, Hn, bind_Ok.
  destruct (getitem_present (setitem df1 "campaign_type" (map campaign_type_of names))
              "customer_external_id") as [ids Hids].
  { by rewrite has_column_setitem_other. }
  rewrite Hids, bind_Ok.
  match goal with |- context [setitem ?d "country_name" ?v] =>
    destruct (getitem_present (setitem d "country_name" v) "country_name")
      as [countries Hcountries]; [apply has_column_setitem_same|]
  end.
  rewrite Hcountries, bind_Ok.
  match goal with |- context [getitem ?d "dispatched_at"] =>
    destruct (getitem_present d "dispatched_at") as [disp Hdisp]
  end.
  { by rewrite !has_column_setitem_other. }
  rewrite Hdisp, bind_Ok. unfold dropna.
  match goal with |- context [get_loc ?d "dispatched_at"] =>
    destruct (proj1 (has_column_get_loc d "dispatched_at")) as [i Hi];
      [apply has_column_setitem_same|]
  end.
  rewrite Hi, bind_Ok. eauto.
Qed.

(** X6: An upload can succeed only if the raw frame has a [customer_external_id]
    column, a [dispatched_at] column, and a label containing "campaign" in
    any case. *)
Theorem upload_requires_columns (raw df : DataFrame) :
  process_uploaded_file (Ok raw) = Ok df ->
  has_column raw "customer_external_id" = true
  /\ has_column raw "dispatched_at" = true
  /\ Exists (fun label => Py.contains "campaign" (Py.lower label) = true) (columns raw).
Proof.
  intros H.
  destruct (process_uploaded_file_requires _ _ H) as (raw' & df1 & Hraw & H1 & Hc & Hd).
  injection Hraw as <-.
  rewrite (resolve_campaign_name_has_column _ _ _ H1) in Hc by reflexivity.
  rewrite (resolve_campaign_name_has_column _ _ _ H1) in Hd by reflexivity.
  assert (forall label (l : list string),
            forallb (fun x => negb (String.eqb label x)) l = true -> label ∉ l)
    as Hfresh.
  { intros label l. induction l as [|x l IH]; simpl; intros Hl Hin.
    - by apply elem_of_nil in Hin.
    - apply andb_true_iff in Hl as [Hx Hl]. apply negb_true_iff, String.eqb_neq in Hx.
      apply elem_of_cons in Hin as [Hin|Hin]; [done | by apply IH]. }
  rewrite apply_column_mapping_has_column in Hc by (by apply Hfresh).
  rewrite apply_column_mapping_has_column in Hd by (by apply Hfresh).
  split; [done|]. split; [done|].
  destruct (List.filter (fun label => Py.contains "campaign" (Py.lower label))
              (columns (apply_column_mapping raw))) as [|label k] eqn:Hf.
  { apply filter_nil_iff in Hf.
    apply resolve_campaign_name_none in Hf. congruence. }
  assert (In label (List.filter (fun label => Py.contains "campaign" (Py.lower label))
                      (columns (apply_column_mapping raw)))) as Hin
    by (rewrite Hf; by left).
  apply filter_In in Hin as [Hin Hl].
  pose proof (apply_column_mapping_columns raw) as Hcols.
  rewrite Hcols in Hin. apply list_elem_of_In, list_elem_of_fmap in Hin as (c & Heq & Hc').
  subst label.
  apply Exists_exists. exists c. split; [done|].
  revert Hl.
  apply (canonical_label_reflects
           (fun l => Py.contains "campaign" (Py.lower l) = true)).
  repeat constructor; simpl; vm_compute; done.
Qed.

(** X7: With those columns present, a resolved campaign column and no repeated
    [campaign_name] label, the upload is processed to a dataset. *)
Theorem upload_succeeds_with_columns (raw df1 : DataFrame) (names : list cell) :
  resolve_campaign_name (apply_column_mapping raw) = Ok df1 ->
  campaign_name_series df1 = Ok names ->
  has_column raw "customer_external_id" = true ->
  has_column raw "dispatched_at" = true ->
  exists df, process_uploaded_file (Ok raw) = Ok df.
Proof.
  intros H1 Hn Hc Hd.
  assert (forall label (l : list string),
            forallb (fun x => negb (String.eqb label x)) l = true -> label ∉ l)
    as Hfresh.
  { intros label l. induction l as [|x l IH]; simpl; intros Hl Hin.
    - by apply elem_of_nil in Hin.
    - apply andb_true_iff in Hl as [Hx Hl]. apply negb_true_iff, String.eqb_neq in Hx.
      apply elem_of_cons in Hin as [Hin|Hin]; [done | by apply IH]. }
  apply (process_uploaded_file_succeeds (Ok raw) raw df1 names); try done.
  - rewrite (resolve_campaign_name_has_column _ _ _ H1) by reflexivity.
    rewrite apply_column_mapping_has_column by (by apply Hfresh). done.
  - rewrite (resolve_campaign_name_has_column _ _ _ H1) by reflexivity.
    rewrite apply_column_mapping_has_column by (by apply Hfresh). done.
Qed.

End Requirements.

Lemma upload_succeeds_with_columns_witness :
  exists df, process_uploaded_file (E := Sample.externals) (Ok Cases.delivered_upload) = Ok df.
Proof.
  apply (upload_succeeds_with_columns (E := Sample.externals) Cases.delivered_upload
           (apply_column_mapping Cases.delivered_upload)
           [Str "Spring Sale"]); reflexivity.
Defined.

Lemma upload_requires_columns_witness :
  has_column Cases.full_upload "customer_external_id" = true
  /\ has_column Cases.full_upload "dispatched_at" = true
  /\ Exists (fun label => Py.contains "campaign" (Py.lower label) = true)
       (columns Cases.full_upload).
Proof.
  apply (upload_requires_columns (E := Sample.externals)
           Cases.full_upload Cases.full_dataset).
  vm_compute. reflexivity.
Defined.

(** ** Country Resolver *)

(** X8: A number resolves the same with or without its leading [+]. *)
Theorem leading_plus_is_optional {E : Externals} (phone_number : string) :
  get_country_name (with_plus phone_number) = get_country_name phone_number
  /\ (Py.startswith phone_number "+" = false ->
      get_country_name ("+" +:+ phone_number) = get_country_name phone_number).
Proof.
  assert (with_plus (with_plus phone_number) = with_plus phone_number) as Hidem.
  { unfold with_plus. destruct (Py.startswith phone_number "+") eqn:Hs.
    - by rewrite Hs.
    - simpl. by destruct phone_number. }
  assert (get_country_name (with_plus phone_number) = get_country_name phone_number)
    as Heq.
  { unfold get_country_name. fold (with_plus (with_plus phone_number)).
    fold (with_plus phone_number). by rewrite Hidem. }
  split; [done|]. intros Hs. rewrite <- Heq. unfold with_plus. by rewrite Hs.
Qed.

Lemma leading_plus_is_optional_witness :
  get_country_name (E := Sample.externals) (with_plus "442071838750")
  = get_country_name (E := Sample.externals) "442071838750"
  /\ (Py.startswith "442071838750" "+" = false ->
      get_country_name (E := Sample.externals) ("+" +:+ "442071838750")
      = get_country_name (E := Sample.externals) "442071838750").
Proof. apply (leading_plus_is_optional (E := Sample.externals) "442071838750"). Defined.

(** ** Filter Engine, on any frame *)

Lemma select_all (df : DataFrame) (p : list cell -> bool) :
  Forall (fun r => p r = true) (rows df) -> select df p = df.
Proof.
  intros H. unfold select. destruct df as [cols rs]. simpl in *. f_equal.
  induction H as [|r l Hr _ IH]; simpl; [done|]. by rewrite Hr, IH.
Qed.

Lemma Forall_of_sublist {A} (P : A -> Prop) (l k : list A) :
  sublist l k -> Forall P k -> Forall P l.
Proof.
  intros Hs Hk. apply Forall_forall. intros x Hx.
  rewrite Forall_forall in Hk. apply Hk. by eapply elem_of_sublist.
Qed.

Lemma get_loc_same_columns (df df' : DataFrame) (label : string) :
  columns df' = columns df -> get_loc df' label = get_loc df label.
Proof. intros H. unfold get_loc. by rewrite H. Qed.

Lemma dt_date_Ok (col : list cell) (dates : list (option Z)) :
  dt_date col = Ok dates -> Forall (fun c => is_datetimelike c = true) col.
Proof.
  unfold dt_date. destruct (forallb is_datetimelike col) eqn:H; [|done].
  intros _. apply Forall_forall. intros c Hc.
  rewrite forallb_forall in H. apply H. by apply list_elem_of_In.
Qed.

Section AnyFrame.
Context {E : Externals}.

(** What a successful call of [apply_filters] has done: it selected rows
    by a predicate, and it does the same on every frame with the same
    labels whose rows are among those of the first one. *)
Lemma apply_filters_Ok (df d : DataFrame)
    (fc ft : option (list string)) (sd ed : option string) :
  apply_filters df fc ft sd ed = Ok d ->
  exists p, d = select df p /\
    forall df', columns df' = columns df -> sublist (rows df') (rows df) ->
      apply_filters df' fc ft sd ed = Ok (select df' p).
Proof.
  unfold apply_filters. intros H.
  (* country *)
  assert (exists pc,
            (if truthy_list fc then
               i ← get_loc df "country_name";
               Ok (select df (fun r => isin fc (cell_at i r)))
             else Ok df) = Ok (select df pc) /\
            forall df', columns df' = columns df ->
              (if truthy_list fc then
                 i ← get_loc df' "country_name";
                 Ok (select df' (fun r => isin fc (cell_at i r)))
               else Ok df') = Ok (select df' pc)) as (pc & Hc & Hc').
  { destruct (truthy_list fc).
    - destruct (get_loc df "country_name") as [i|e] eqn:Hi; [|done].
      exists (fun r => isin fc (cell_at i r)). split; [done|].
      intros df' Hcols. by rewrite (get_loc_same_columns df df' _ Hcols), Hi.
    - exists (fun _ => true). split.
      + by rewrite select_all by (by apply Forall_forall).
      + intros df' _. by rewrite select_all by (by apply Forall_forall). }
  rewrite Hc, bind_Ok in H.
  (* campaign type *)
  assert (exists pt,
            (if truthy_list ft then
               i ← get_loc (select df pc) "campaign_type";
               Ok (select (select df pc) (fun r => isin ft (cell_at i r)))
             else Ok (select df pc)) = Ok (select (select df pc) pt) /\
            forall df', columns df' = columns df ->
              (if truthy_list ft then
                 i ← get_loc df' "campaign_type";
                 Ok (select df' (fun r => isin ft (cell_at i r)))
               else Ok df') = Ok (select df' pt)) as (pt & Ht & Ht').
  { destruct (truthy_list ft).
    - change (get_loc (select df pc) "campaign_type") with (get_loc df "campaign_type")
        in *.
      destruct (get_loc df "campaign_type") as [i|e] eqn:Hi; [|done].
      exists (fun r => isin ft (cell_at i r)). split; [done|].
      intros df' Hcols. by rewrite (get_loc_same_columns df df' _ Hcols), Hi.
    - exists (fun _ => true). split.
      + by rewrite (select_all (select df pc)) by (by apply Forall_forall).
      + intros df' _. by rewrite select_all by (by apply Forall_forall). }
  rewrite Ht, bind_Ok in H.
  (* dates *)
  remember (select (select df pc) pt) as fd eqn:Hfd.
  assert (columns fd = columns df) as Hfdcols by (by subst fd).
  assert (exists pd,
            d = select fd pd /\
            forall df', columns df' = columns df -> sublist (rows df') (rows fd) ->
              (if truthy_str sd && truthy_str ed then
                 dispatched_at ← getitem df' "dispatched_at";
                 dates ← dt_date dispatched_at;
                 lo ← scalar_date sd;
                 hi ← scalar_date ed;
                 Ok (boolean_index df'
                       (map (fun d => match d with
                                      | Some d => (lo <=? d)%Z && (d <=? hi)%Z
                                      | None => false
                                      end) dates))
               else Ok df') = Ok (select df' pd)) as (pd & Hd & Hd').
  { destruct (truthy_str sd && truthy_str ed) eqn:Hdates.
    - destruct (getitem fd "dispatched_at") as [col|e] eqn:Hcol;
        [rewrite bind_Ok in H | done].
      apply getitem_Ok in Hcol as (i & Hi & ->).
      destruct (dt_date (map (cell_at i) (rows fd))) as [dates|e] eqn:Hdt;
        [rewrite bind_Ok in H | done].
      pose proof (dt_date_Ok _ _ Hdt) as Hlike. apply Forall_map in Hlike.
      destruct (scalar_date sd) as [lo|e] eqn:Hlo; [rewrite bind_Ok in H | done].
      destruct (scalar_date ed) as [hi|e] eqn:Hhi; [rewrite bind_Ok in H | done].
      assert (date_range sd ed = Ok (Some (lo, hi))) as Hrange.
      { unfold date_range. by rewrite Hdates, Hlo, bind_Ok, Hhi. }
      exists (in_range (Some (lo, hi)) i). split.
      + pose proof (date_stage fd sd ed i (Some (lo, hi)) Hi Hlike Hrange) as Hst.
        rewrite Hdates in Hst. unfold getitem in Hst.
        rewrite Hi in Hst. rewrite !bind_Ok in Hst.
        rewrite Hdt in Hst. rewrite !bind_Ok in Hst.
        rewrite Hlo in Hst. rewrite !bind_Ok in Hst.
        rewrite Hhi in Hst. rewrite !bind_Ok in Hst.
        congruence.
      + intros df' Hcols Hsub.
        pose proof (date_stage df' sd ed i (Some (lo, hi))) as Hst.
        rewrite Hdates, Hlo, Hhi in Hst. apply Hst.
        * rewrite (get_loc_same_columns fd df'); [done | congruence].
        * exact (Forall_of_sublist _ _ _ Hsub Hlike).
        * exact Hrange.
    - injection H as <-. exists (fun _ => true). split.
      + by rewrite select_all by (by apply Forall_forall).
      + intros df' _ _. by rewrite select_all by (by apply Forall_forall). }
  exists (fun r => pc r && pt r && pd r). split.
  { rewrite Hd. subst fd. by rewrite (select_select df), (select_select df). }
  intros df' Hcols Hsub.
  rewrite (Hc' df' Hcols), bind_Ok.
  rewrite (Ht' (select df' pc)) by done. rewrite bind_Ok.
  rewrite (Hd' (select (select df' pc) pt)); [| done |].
  - by rewrite (select_select df'), (select_select df').
  - subst fd. simpl. rewrite !filter_filter.
    clear -Hsub. induction Hsub as [|x l k Hs IH|x l k Hs IH]; simpl.
    + constructor.
    + destruct (pc x && pt x); [by apply sublist_skip | done].
    + destruct (pc x && pt x); [by apply sublist_cons | done].
Qed.

(** X9: A successful filter call keeps the labels and returns some of the rows,
    in their order. *)
Theorem filters_keep_columns_and_order (df d : DataFrame)
    (fc ft : option (list string)) (sd ed : option string) :
  apply_filters df fc ft sd ed = Ok d ->
  columns d = columns df /\ sublist (rows d) (rows df).
Proof.
  intros H. apply apply_filters_Ok in H as (p & -> & _).
  split; [done|]. apply filter_sublist.
Qed.

(** X10: Filtering is idempotent: the same filters applied to their own result
    return it unchanged. *)
Theorem filters_are_idempotent (df d : DataFrame)
    (fc ft : option (list string)) (sd ed : option string) :
  apply_filters df fc ft sd ed = Ok d ->
  apply_filters d fc ft sd ed = Ok d.
Proof.
  intros H. apply apply_filters_Ok in H as (p & -> & Hagain).
  rewrite (Hagain (select df p)); [| done | apply filter_sublist].
  f_equal. apply select_all. simpl. apply Forall_forall. intros r Hr.
  apply list_elem_of_In, filter_In in Hr. tauto.
Qed.

End AnyFrame.

Lemma filters_keep_columns_and_order_witness :
  columns (select Cases.full_dataset (fun r => isin (Some ["United Kingdom"]) (cell_at 9 r)))
  = columns Cases.full_dataset
  /\ sublist
       (rows (select Cases.full_dataset
                (fun r => isin (Some ["United Kingdom"]) (cell_at 9 r))))
       (rows Cases.full_dataset).
Proof.
  apply (filters_keep_columns_and_order (E := Sample.externals) Cases.full_dataset _
           (Some ["United Kingdom"]) None None None).
  reflexivity.
Defined.

Lemma filters_are_idempotent_witness :
  apply_filters (E := Sample.externals)
    (select Cases.full_dataset
       (fun r => isin (Some ["Non-Commercial"]) (cell_at 8 r)
                 && in_range (Some (19724, 19726)%Z) 2 r))
    None (Some ["Non-Commercial"]) (Some "2024-01-02") (Some "2024-01-04")
  = Ok (select Cases.full_dataset
          (fun r => isin (Some ["Non-Commercial"]) (cell_at 8 r)
                    && in_range (Some (19724, 19726)%Z) 2 r)).
Proof.
  apply (filters_are_idempotent (E := Sample.externals) Cases.full_dataset).
  vm_compute. reflexivity.
Defined.

Section FilterErrors.
Context {E : Externals}.

(** X11: A filter on a column that the frame lacks raises a KeyError naming it,
    the country filter being examined before the campaign-type filter. *)
Theorem filter_on_absent_column (df : DataFrame)
    (fc ft : option (list string)) (sd ed : option string) :
  (truthy_list fc = true -> has_column df "country_name" = false ->
   apply_filters df fc ft sd ed = Raise (KeyError "country_name"))
  /\ (truthy_list fc = false \/ has_column df "country_name" = true ->
      truthy_list ft = true -> has_column df "campaign_type" = false ->
      apply_filters df fc ft sd ed = Raise (KeyError "campaign_type")).
Proof.
  split.
  - intros Hfc Hno. unfold apply_filters.
    by rewrite Hfc, (get_loc_absent df _ Hno).
  - intros Hc Hft Hno. unfold apply_filters. rewrite Hft.
    assert (exists p, (if truthy_list fc then
                         i ← get_loc df "country_name";
                         Ok (select df (fun r => isin fc (cell_at i r)))
                       else Ok df) = Ok (select df p)) as [p ->].
    { destruct (truthy_list fc) eqn:Hfc.
      - destruct Hc as [Hc|Hc]; [done|].
        apply has_column_get_loc in Hc as [i Hi]. rewrite Hi. eauto.
      - exists (fun _ => true). by rewrite select_all by (by apply Forall_forall). }
    rewrite bind_Ok.
    change (get_loc (select df p) "campaign_type") with (get_loc df "campaign_type").
    by rewrite (get_loc_absent df _ Hno).
Qed.

(** X12: A date range whose start lies after its end selects no record. *)
Theorem reversed_date_range_is_empty (df : DataFrame)
    (fc ft : option (list string)) (sd ed : option string)
    (ic it id : nat) (lo hi : Z) :
  get_loc df "country_name" = Ok ic ->
  get_loc df "campaign_type" = Ok it ->
  get_loc df "dispatched_at" = Ok id ->
  Forall (fun r => is_datetimelike (cell_at id r) = true) (rows df) ->
  date_range sd ed = Ok (Some (lo, hi)) ->
  (hi < lo)%Z ->
  apply_filters df fc ft sd ed = Ok (mkDF (columns df) []).
Proof.
  intros Hc Ht Hd Hdt Hrange Hlt.
  rewrite (apply_filters_spec df fc ft sd ed ic it id _ Hc Ht Hd Hdt Hrange).
  unfold select.
  match goal with |- context [List.filter ?p (rows df)] =>
    replace (List.filter p (rows df)) with (@nil (list cell)); [done|]
  end.
  symmetry. apply filter_nil_iff. apply Forall_forall. intros r _.
  apply andb_false_iff. right. simpl.
  destruct (cell_at id r); try done.
  apply andb_false_iff.
  destruct (Z.leb_spec lo (date_of t)); [right; apply Z.leb_gt; lia | by left].
Qed.

(** X13: With both columns present, filtering by campaign type and then by
    country is filtering by country and then by campaign type. *)
Theorem filters_commute (df : DataFrame) (fc ft : option (list string)) (ic it : nat) :
  get_loc df "country_name" = Ok ic ->
  get_loc df "campaign_type" = Ok it ->
  (d ← apply_filters df None ft None None; apply_filters d fc None None None)
  = (d ← apply_filters df fc None None None; apply_filters d None ft None None).
Proof.
  intros Hc Ht.
  assert (forall (d : DataFrame) fc' ft', columns d = columns df ->
            apply_filters d fc' ft' None None
            = Ok (select d (fun r => dimension_ok fc' ic r && dimension_ok ft' it r)))
    as Hboth.
  { intros d fc' ft' Hcols. unfold apply_filters.
    rewrite (dimension_stage d fc' "country_name" ic)
      by (by rewrite (get_loc_same_columns df d)).
    rewrite bind_Ok.
    rewrite (dimension_stage _ ft' "campaign_type" it)
      by (by rewrite (get_loc_same_columns df)).
    rewrite bind_Ok. simpl. by rewrite select_select. }
  rewrite !(Hboth df) by done. rewrite !bind_Ok. rewrite !Hboth by done.
  rewrite !select_select. f_equal. unfold select. f_equal.
  apply filter_ext. intros r. unfold dimension_ok. simpl.
  destruct (truthy_list fc), (truthy_list ft);
    try destruct (isin fc (cell_at ic r)); try destruct (isin ft (cell_at it r)); done.
Qed.

End FilterErrors.

Lemma filter_on_absent_column_witness :
  apply_filters (E := Sample.externals) Cases.no_campaign_upload
    (Some ["Egypt"]) None None None = Raise (KeyError "country_name")
  /\ apply_filters (E := Sample.externals) Cases.no_campaign_upload
       None (Some ["Commercial"]) None None = Raise (KeyError "campaign_type").
Proof.
  split.
  - apply (proj1 (filter_on_absent_column (E := Sample.externals)
                    Cases.no_campaign_upload (Some ["Egypt"]) None None None));
      reflexivity.
  - apply (proj2 (filter_on_absent_column (E := Sample.externals)
                    Cases.no_campaign_upload None (Some ["Commercial"]) None None)).
    + by left.
    + reflexivity.
    + reflexivity.
Defined.

Lemma reversed_date_range_is_empty_witness :
  apply_filters (E := Sample.externals) Cases.full_dataset None None
    (Some "2024-01-04") (Some "2024-01-02")
  = Ok (mkDF (columns Cases.full_dataset) []).
Proof.
  apply (reversed_date_range_is_empty (E := Sample.externals) Cases.full_dataset
           None None (Some "2024-01-04") (Some "2024-01-02") 9 8 2 19726 19724).
  - reflexivity.
  - reflexivity.
  - reflexivity.
  - repeat constructor.
  - reflexivity.
  - reflexivity.
Defined.

Lemma filters_commute_witness :
  (d ← apply_filters (E := Sample.externals) Cases.full_dataset
         None (Some ["Non-Commercial"]) None None;
   apply_filters (E := Sample.externals) d (Some ["Unknown"]) None None None)
  = (d ← apply_filters (E := Sample.externals) Cases.full_dataset
           (Some ["Unknown"]) None None None;
     apply_filters (E := Sample.externals) d None (Some ["Non-Commercial"]) None None).
Proof.
  apply (filters_commute (E := Sample.externals) Cases.full_dataset
           (Some ["Unknown"]) (Some ["Non-Commercial"]) 9 8); reflexivity.
Defined.

(** ** Grouped counts *)

Lemma filter_missing_nil (df : DataFrame) (aggs : list string) :
  Forall (fun c => has_column df c = true) aggs ->
  List.filter (fun c => negb (has_column df c)) aggs = [].
Proof.
  intros H. apply filter_nil_iff. eapply Forall_impl; [exact H|].
  intros c Hc. simpl in Hc. by rewrite Hc.
Qed.

(** [groupby_count] on a frame that has the key and every counted column. *)
Lemma groupby_count_Ok (df : DataFrame) (key : string) (aggs : list string) (k : nat) :
  get_loc df key = Ok k ->
  Forall (fun c => has_column df c = true) aggs ->
  groupby_count df key aggs =
    Ok (mkDF (key :: aggs)
          (map (fun g =>
                  g :: map (fun c =>
                              Int (count_at (default 0%nat (index_of c (columns df)))
                                     (group_rows df k g))) aggs)
             (group_keys (map (cell_at k) (rows df))))).
Proof.
  intros Hk Haggs. unfold groupby_count. rewrite Hk, bind_Ok.
  rewrite (filter_missing_nil df aggs Haggs). cbv zeta.
  do 2 f_equal. apply map_ext. intros g. f_equal. by rewrite map_map.
Qed.

Lemma groupby_count_missing (df : DataFrame) (key : string) (aggs : list string) (k : nat) :
  get_loc df key = Ok k ->
  List.filter (fun c => negb (has_column df c)) aggs <> [] ->
  groupby_count df key aggs
  = Raise (KeyErrorColumns
             (sorted_labels (List.filter (fun c => negb (has_column df c)) aggs))).
Proof.
  intros Hk Hm. unfold groupby_count. rewrite Hk, bind_Ok.
  by destruct (List.filter _ aggs).
Qed.

Lemma rename_columns_rows (df : DataFrame) (mapping : list (string * string)) :
  rows (rename_columns df mapping) = rows df.
Proof.
  unfold rename_columns. revert df.
  induction mapping as [|[o n] m IH]; intros df; simpl; [done|]. by rewrite IH.
Qed.

Lemma elem_of_insert_label (x k : string) (l : list string) :
  x ∈ insert_label k l <-> x = k \/ x ∈ l.
Proof.
  induction l as [|y l IH]; simpl.
  - rewrite list_elem_of_singleton. split; [by left | intros [?|H]; [done|]].
    by apply elem_of_nil in H.
  - destruct (String.compare k y) eqn:Hc.
    + apply String.compare_eq_iff in Hc as ->. split; [by right|].
      intros [->|H]; [by left | done].
    + by rewrite elem_of_cons.
    + rewrite !elem_of_cons, IH. tauto.
Qed.

Lemma insert_label_sorted (k : string) (l : list string) :
  StronglySorted label_lt l -> StronglySorted label_lt (insert_label k l).
Proof.
  induction 1 as [|y l Hl IH Hy]; simpl.
  - repeat constructor.
  - destruct (String.compare k y) eqn:Hc.
    + by constructor.
    + constructor; [by constructor|]. constructor; [done|].
      eapply Forall_impl; [exact Hy|]. intros z Hz.
      by apply (string_compare_trans k y z).
    + constructor; [done|]. apply Forall_forall. intros z Hz.
      apply elem_of_insert_label in Hz as [->|Hz].
      * unfold label_lt. rewrite String.compare_antisym, Hc. done.
      * rewrite Forall_forall in Hy. by apply Hy.
Qed.

Lemma sorted_labels_sorted (l : list string) : StronglySorted label_lt (sorted_labels l).
Proof.
  unfold sorted_labels. induction l as [|x l IH]; simpl; [constructor|].
  by apply insert_label_sorted.
Qed.

Lemma elem_of_sorted_labels (x : string) (l : list string) :
  x ∈ sorted_labels l <-> x ∈ l.
Proof.
  unfold sorted_labels. induction l as [|y l IH]; simpl; [done|].
  rewrite elem_of_insert_label, elem_of_cons, IH. done.
Qed.

Lemma label_sorted_NoDup (l : list string) : StronglySorted label_lt l -> NoDup l.
Proof.
  induction 1 as [|y l Hl IH Hy]; constructor; [|done].
  intros Hin. rewrite Forall_forall in Hy. specialize (Hy y Hin).
  unfold label_lt in Hy. by rewrite string_compare_refl in Hy.
Qed.

(** Sorting labels that are pairwise distinct rearranges them. *)
Lemma sorted_labels_perm (l : list string) : NoDup l -> sorted_labels l ≡ₚ l.
Proof.
  intros Hl. apply NoDup_Permutation; [|done|].
  - apply label_sorted_NoDup, sorted_labels_sorted.
  - intros x. apply elem_of_sorted_labels.
Qed.

Lemma NoDup_filter_bool {A} (p : A -> bool) (l : list A) :
  NoDup l -> NoDup (List.filter p l).
Proof.
  induction 1 as [|x l Hx Hl IH]; simpl; [constructor|].
  destruct (p x); [|done]. constructor; [|done].
  intros Hin. apply Hx. apply list_elem_of_In, filter_In in Hin as [Hin _].
  by apply list_elem_of_In.
Qed.

(** X14: The campaign summary is built exactly when the frame has the seven
    columns that [handle_upload_and_tabs] checks; without the campaign column
    the KeyError names it; with it, the KeyError lists the missing counted
    columns, each once and sorted. *)
Theorem summary_needs_required_columns (df : DataFrame) :
  (missing_columns df = [] -> exists t, create_summary_table df = Ok t)
  /\ (has_column df "campaign_name" = false ->
      create_summary_table df = Raise (KeyError "campaign_name"))
  /\ (has_column df "campaign_name" = true -> missing_columns df <> [] ->
      exists missing,
        create_summary_table df = Raise (KeyErrorColumns missing)
        /\ missing ≡ₚ missing_columns df
        /\ StronglySorted label_lt missing).
Proof.
  assert (missing_columns df
          = (if has_column df "campaign_name" then [] else ["campaign_name"])
            ++ List.filter (fun c => negb (has_column df c)) summary_columns) as Hm.
  { unfold missing_columns, required_columns, summary_columns.
    cbn [List.filter]. by destruct (has_column df "campaign_name"). }
  unfold create_summary_table. repeat split.
  - intros Hnone. rewrite Hm in Hnone. apply app_eq_nil in Hnone as [Hc Hs].
    destruct (has_column df "campaign_name") eqn:Hcn; [|done].
    apply has_column_get_loc in Hcn as [k Hk].
    rewrite (groupby_count_Ok df _ _ k Hk), bind_Ok; [eauto|].
    apply filter_nil_iff in Hs. eapply Forall_impl; [exact Hs|].
    intros c Hc'. simpl in Hc'. by apply negb_false_iff.
  - intros Hno. unfold groupby_count. by rewrite (get_loc_absent df _ Hno).
  - intros Hcn Hsome. rewrite Hm, Hcn in Hsome |- *.
    change ([] ++ ?l) with l in Hsome |- *.
    apply has_column_get_loc in Hcn as [k Hk].
    rewrite (groupby_count_missing df _ _ k Hk) by done.
    eexists. split; [reflexivity|]. split; [|apply sorted_labels_sorted].
    apply sorted_labels_perm, NoDup_filter_bool.
    unfold summary_columns. apply (bool_decide_unpack _). by vm_compute.
Qed.

Lemma summary_needs_required_columns_witness :
  (exists t, create_summary_table Cases.full_dataset = Ok t)
  /\ create_summary_table Cases.no_campaign_upload = Raise (KeyError "campaign_name")
  /\ (exists missing,
        create_summary_table Cases.example_dataset = Raise (KeyErrorColumns missing)
        /\ missing ≡ₚ ["sent_at"; "read_at"; "button_clicks"; "link_clicks"]
        /\ StronglySorted label_lt missing).
Proof.
  split; [|split].
  - apply (proj1 (summary_needs_required_columns Cases.full_dataset)). reflexivity.
  - apply (proj1 (proj2 (summary_needs_required_columns Cases.no_campaign_upload))).
    reflexivity.
  - apply (proj2 (proj2 (summary_needs_required_columns Cases.example_dataset))).
    + reflexivity.
    + discriminate.
Defined.

(** X15: The campaign summary has one row per campaign name that occurs in the
    dataset, each once and in increasing order; records without a campaign
    name belong to no row. *)
Theorem summary_has_one_row_per_campaign (df : DataFrame) (k : nat) :
  get_loc df "campaign_name" = Ok k ->
  Forall (fun c => has_column df c = true) summary_columns ->
  exists t,
    create_summary_table df = Ok (DataTable "summary-table" t) /\
    NoDup (map (cell_at 0) (rows t)) /\
    StronglySorted cell_lt (map (cell_at 0) (rows t)) /\
    forall g, g ∈ map (cell_at 0) (rows t)
              <-> g <> NaN /\ exists r, r ∈ rows df /\ cell_at k r = g.
Proof.
  intros Hk Hcols. unfold create_summary_table.
  rewrite (groupby_count_Ok df _ _ k Hk Hcols), bind_Ok.
  eexists. split; [reflexivity|].
  rewrite rename_columns_rows. cbn [rows]. rewrite map_map.
  cbn [cell_at nth]. rewrite map_id.
  destruct (group_keys_spec (map (cell_at k) (rows df))) as (Hnd & Hs & Hin).
  split; [done|]. split; [done|].
  intros g. rewrite Hin, list_elem_of_fmap. split.
  - intros [(r & -> & Hr) Hna]. eauto.
  - intros [Hna (r & Hr & <-)]. eauto.
Qed.

Lemma summary_has_one_row_per_campaign_witness :
  exists t,
    create_summary_table Cases.full_dataset = Ok (DataTable "summary-table" t) /\
    NoDup (map (cell_at 0) (rows t)) /\
    StronglySorted cell_lt (map (cell_at 0) (rows t)) /\
    forall g, g ∈ map (cell_at 0) (rows t)
              <-> g <> NaN /\ exists r, r ∈ rows Cases.full_dataset /\ cell_at 0 r = g.
Proof.
  apply (summary_has_one_row_per_campaign Cases.full_dataset 0).
  - reflexivity.
  - repeat constructor.
Defined.

(** ** Counting over groups *)

(** X16: On a dataset of at most a million records, when the sum of the costs
    is made of float64 additions, the Total row of the Cost Analysis counts
    the Non-Commercial records that have a delivery time and a campaign
    name, shows them at 0.04 USD (4 cents) each, and its float64 cost is 0.04
    times their number up to a ten-billionth by record: a record without a
    campaign name is in no group and is not counted. *)
Theorem cost_total_counts_delivered_records {E : Externals} (df : DataFrame)
    (t k d : nat) :
  get_loc df "campaign_type" = Ok t ->
  get_loc df "campaign_name" = Ok k ->
  get_loc df "delivered_at" = Ok d ->
  (Z.of_nat (length (rows df)) <= 1000000)%Z ->
  (forall groups, cost_groups df = Ok groups ->
     exists n, (n <= 2 * length groups + 1)%nat /\
               float_sums n (map cost groups) (float_sum (map cost groups))) ->
  let delivered :=
    Z.of_nat (length (List.filter
                        (fun r => bool_decide (cell_at t r = Str "Non-Commercial")
                                  && notna (cell_at k r) && notna (cell_at d r))
                        (rows df))) in
  exists (groups : list cost_row) (total : Q) (shown : list (list cell)),
    cost_rows df = Ok (groups ++ [mkCost (Str "Total") delivered total]) /\
    (Qabs (total - inject_Z delivered * (4 # 100))
     <= inject_Z delivered * (1 # 10000000000))%Q /\
    length shown = length groups /\
    create_cost_analysis_table df =
      Ok (DataTable "cost-table"
            (mkDF ["campaign_name"; "Delivered Messages"; "Cost (USD)"]
               (shown ++ [[Str "Total"; Int delivered; Str (usd (4 * delivered))]]))).
Proof.
  intros Ht Hk Hd Hrows Hfloat delivered.
  destruct (cost_table_spec df t k d Ht Hk Hd Hrows Hfloat)
    as (groups & _ & _ & _ & _ & Hsum & Hcost & Herr & Htable).
  fold delivered in Hsum. rewrite Hsum in Hcost, Herr, Htable.
  eexists groups, _, _. split; [exact Hcost|]. split; [exact Herr|].
  split; [|exact Htable]. by rewrite length_map.
Qed.

Lemma cost_total_counts_delivered_records_witness :
  let delivered :=
    Z.of_nat (length (List.filter
                        (fun r => bool_decide (cell_at 8 r = Str "Non-Commercial")
                                  && notna (cell_at 0 r) && notna (cell_at 4 r))
                        (rows Cases.full_dataset))) in
  exists (groups : list cost_row) (total : Q) (shown : list (list cell)),
    cost_rows (E := Sample.externals) Cases.full_dataset
    = Ok (groups ++ [mkCost (Str "Total") delivered total]) /\
    (Qabs (total - inject_Z delivered * (4 # 100))
     <= inject_Z delivered * (1 # 10000000000))%Q /\
    length shown = length groups /\
    create_cost_analysis_table (E := Sample.externals) Cases.full_dataset =
      Ok (DataTable "cost-table"
            (mkDF ["campaign_name"; "Delivered Messages"; "Cost (USD)"]
               (shown ++ [[Str "Total"; Int delivered; Str (usd (4 * delivered))]]))).
Proof.
  apply (cost_total_counts_delivered_records (E := Sample.externals)
           Cases.full_dataset 8 0 4);
    [reflexivity|reflexivity|reflexivity|vm_compute; discriminate|].
  intros groups [= <-]. exists 3%nat. split; [simpl; lia|].
  apply (float_sums_add 0 2 [] _ 0%Q).
  - apply float_sums_nil.
  - apply (float_sums_add 1 0 [_] [_]).
    + apply (float_sums_add 0 0 [] [_] 0%Q); [apply float_sums_nil|apply float_sums_one].
    + apply float_sums_one.
Defined.

(** X17: Without any Non-Commercial record (an empty dataset included), when
    the sum of no cost is made of float64 additions of zeros, the Cost
    Analysis is the single row Total, 0, "$0.00". *)
Theorem cost_table_without_non_commercial {E : Externals} (df : DataFrame)
    (t k d : nat) (n : nat) :
  get_loc df "campaign_type" = Ok t ->
  get_loc df "campaign_name" = Ok k ->
  get_loc df "delivered_at" = Ok d ->
  Forall (fun r => cell_at t r <> Str "Non-Commercial") (rows df) ->
  float_sums n [] (float_sum []) ->
  create_cost_analysis_table df
  = Ok (DataTable "cost-table"
          (mkDF ["campaign_name"; "Delivered Messages"; "Cost (USD)"]
             [[Str "Total"; Int 0; Str "$0.00"]])).
Proof.
  intros Ht Hk Hd Hnone Hfloat.
  destruct (cost_groups_spec df t k d Ht Hk Hd) as (groups & Hgroups & Hkeys & _).
  assert (List.filter (fun r => bool_decide (cell_at t r = Str "Non-Commercial")) (rows df)
          = []) as Hnil.
  { apply filter_nil_iff. eapply Forall_impl; [exact Hnone|].
    intros r Hr. simpl. by apply bool_decide_eq_false. }
  rewrite Hnil in Hkeys. apply map_eq_nil in Hkeys. subst groups.
  assert (Hzero : (Qabs (float_sum [] - 0) <= 0)%Q).
  { destruct (float_sums_error 0 n [] (float_sum []) Hfloat) as [_ Herr];
      [constructor|vm_compute; discriminate|lra|].
    change (Qsum []) with 0%Q in Herr. lra. }
  assert (Hshown : format_cost (float_sum []) = "$0.00").
  { unfold format_cost. rewrite (rint_near _ 0); [reflexivity|].
    apply Qabs_Qle_condition in Hzero as [H1 H2].
    apply Qabs_Qlt_condition. change (inject_Z 0) with 0%Q. split; lra. }
  unfold create_cost_analysis_table, cost_rows. rewrite Hgroups, !bind_Ok.
  cbn [app map totals]. unfold totals, format_cost_row.
  cbn [map cost_campaign delivered_messages cost]. by rewrite Hshown.
Qed.

Lemma cost_table_without_non_commercial_witness :
  create_cost_analysis_table (E := Sample.externals)
    (select Cases.full_dataset (fun r => bool_decide (cell_at 8 r = Str "Commercial")))
  = Ok (DataTable "cost-table"
          (mkDF ["campaign_name"; "Delivered Messages"; "Cost (USD)"]
             [[Str "Total"; Int 0; Str "$0.00"]])).
Proof.
  apply (cost_table_without_non_commercial (E := Sample.externals) _ 8 0 4 1);
    try reflexivity.
  - repeat constructor; discriminate.
  - apply (float_sums_add 0 0 [] [] 0%Q 0%Q); apply float_sums_nil.
Defined.

(** ** Delivery rates of a dataset with dispatch times *)

Lemma count_at_le (i : nat) (l : list (list cell)) :
  (0 <= count_at i l <= Z.of_nat (length l))%Z.
Proof.
  unfold count_at, count. split; [lia|]. apply inj_le.
  rewrite <- (length_map (cell_at i) l).
  generalize (map (cell_at i) l). intros m.
  induction m as [|c m IH]; simpl; [done|]. destruct (notna c); simpl; lia.
Qed.

Lemma count_at_all (i : nat) (l : list (list cell)) :
  Forall (fun r => notna (cell_at i r) = true) l ->
  count_at i l = Z.of_nat (length l).
Proof.
  intros H. unfold count_at, count. f_equal.
  induction H as [|r l Hr _ IH]; simpl; [done|]. rewrite Hr. simpl. by rewrite IH.
Qed.

(** X18: When every record has a dispatch time, as after an upload, every row of
    the Country Analysis has at least one dispatched message, at most as many
    delivered ones, and a finite Delivery Rate between 0 and 100 percent. *)
Theorem dispatched_dataset_has_finite_delivery_rates (df : DataFrame) (k i : nat) :
  get_loc df "country_name" = Ok k ->
  get_loc df "dispatched_at" = Ok i ->
  Forall (fun c => has_column df c = true) country_columns ->
  Forall (fun r => notna (cell_at i r) = true) (rows df) ->
  exists c,
    country_df df = Ok c /\
    Forall (fun row =>
              (1 <= dispatched_of row)%Z /\
              (0 <= int_of (cell_at 2 row) <= dispatched_of row)%Z /\
              exists h, (0 <= h <= 10000)%Z /\
                        cell_at 6 row = Str (percent (Finite h))) (rows c).
Proof.
  intros Hk Hi Hcols Hdisp. unfold country_df.
  rewrite (groupby_count_Ok df _ _ k Hk Hcols), bind_Ok.
  eexists. split; [reflexivity|].
  cbn [rows]. rewrite map_map. apply Forall_forall. intros row Hrow.
  apply list_elem_of_fmap in Hrow as (g & -> & Hg).
  apply group_keys_spec in Hg as [Hg _].
  apply list_elem_of_fmap in Hg as (r & Hr & Hin).
  unfold country_columns. cbn [map].
  apply get_loc_Ok in Hi. rewrite Hi. cbn [default].
  set (grp := group_rows df k g).
  assert (1 <= Z.of_nat (length grp))%Z as Hne.
  { assert (r ∈ grp) as Hrg.
    { apply list_elem_of_In, filter_In. split; [by apply list_elem_of_In|].
      by apply bool_decide_eq_true. }
    destruct grp; [by apply elem_of_nil in Hrg | simpl; lia]. }
  assert (count_at i grp = Z.of_nat (length grp)) as Hall.
  { apply count_at_all. apply Forall_forall. intros x Hx.
    apply list_elem_of_In, filter_In in Hx as [Hx _].
    rewrite Forall_forall in Hdisp. apply Hdisp. by apply list_elem_of_In. }
  match goal with |- context [Int (count_at _ grp) :: Int (count_at ?j grp) :: _] =>
    pose proof (count_at_le j grp) as Hdel; set (delivered := count_at j grp) in *
  end.
  unfold with_rates, dispatched_of. cbn [cell_at nth app int_of].
  change (id i) with i. rewrite Hall. split; [done|]. split; [lia|].
  unfold rate. replace (Z.of_nat (length grp) =? 0)%Z with false
    by (symmetry; apply Z.eqb_neq; lia).
  eexists. split; [|reflexivity].
  apply rate_bounds; lia.
Qed.

Lemma dispatched_dataset_has_finite_delivery_rates_witness :
  exists c,
    country_df Cases.undelivered_dataset = Ok c /\
    Forall (fun row =>
              (1 <= dispatched_of row)%Z /\
              (0 <= int_of (cell_at 2 row) <= dispatched_of row)%Z /\
              exists h, (0 <= h <= 10000)%Z /\
                        cell_at 6 row = Str (percent (Finite h))) (rows c).
Proof.
  apply (dispatched_dataset_has_finite_delivery_rates Cases.undelivered_dataset 0 1).
  - reflexivity.
  - reflexivity.
  - repeat constructor.
  - repeat constructor.
Defined.

(** X29: A rate is rounded from the float64 product, not from the exact ratio:
    23 delivered of 160 dispatched is 14.374999999999998 percent in float64
    and shows as 14.37%, where the exact 14.375 would round to 14.38; a
    ratio that float64 holds exactly, 1 of 8, shows as 12.5%. *)
Theorem rate_rounds_the_float64_product :
  (fmul (fdiv (of_int 23) (of_int 160)) 100 < 14375 # 1000)%Q
  /\ rate 23 160 = Finite 1437
  /\ percent (rate 23 160) = "14.37%"
  /\ percent (rate 1 8) = "12.5%".
Proof. repeat split; vm_compute; reflexivity. Qed.

(** ** The callback *)

Section Callback.
Context {E : Externals}.

(** X19: Only an upload writes the dataset slot: a request whose first trigger is
    not the upload component, or that has no trigger, leaves it as it was. *)
Theorem only_uploads_write_the_slot (data : option DataFrame) (triggered : list string)
    (contents : option (result DataFrame)) (tab : string)
    (fc ft : option (list string)) (sd ed : option string) :
  head triggered <> Some "upload-data" ->
  (update_content data triggered contents tab fc ft sd ed).1 = data.
Proof.
  intros Hne. unfold update_content.
  destruct triggered as [|trigger rest]; [done|].
  destruct (String.eqb trigger "upload-data") eqn:Hu.
  { apply String.eqb_eq in Hu. subst. done. }
  destruct (String.eqb trigger "tabs").
  - destruct data as [d|]; [|done].
    destruct (String.eqb tab "data-table-tab"); [done|].
    destruct (String.eqb tab "campaign-summary-tab"); [done|].
    by destruct (String.eqb tab "cost-analysis-tab").
  - destruct (is_filter_trigger trigger); [|done]. by destruct data.
Qed.

(** X20: An upload request never raises: every exception becomes an error
    message; and the slot holds the new frame exactly when
    [process_uploaded_file] returned one. *)
Theorem upload_never_raises (data : option DataFrame) (rest : list string)
    (contents : option (result DataFrame)) (tab : string)
    (fc ft : option (list string)) (sd ed : option string) :
  exists o,
    update_content data ("upload-data" :: rest) contents tab fc ft sd ed
    = (match contents with
       | Some decoded =>
           match process_uploaded_file decoded with
           | Ok df => Some df
           | Raise _ => data
           end
       | None => data
       end, Ok o).
Proof.
  unfold update_content. cbn [String.eqb Ascii.eqb Bool.eqb].
  destruct contents as [decoded|]; [|eauto].
  destruct (process_uploaded_file decoded) as [df|e]; [|eauto].
  destruct (upload_success _ df); eauto.
Qed.

End Callback.

Lemma only_uploads_write_the_slot_witness :
  (update_content (E := Sample.externals) (Some Cases.example_dataset) ["tabs"] None
     "campaign-summary-tab" None None None None).1 = Some Cases.example_dataset.
Proof.
  apply (only_uploads_write_the_slot (E := Sample.externals)). discriminate.
Defined.

(** ** Product patterns *)

Lemma string_app_assoc (a b c : string) : (a +:+ b) +:+ c = a +:+ b +:+ c.
Proof. induction a as [|x a IH]; [done|]. change (String x ((a +:+ b) +:+ c) = String x (a +:+ b +:+ c)). by f_equal. Qed.

Lemma string_app_nil_r (a : string) : a +:+ EmptyString = a.
Proof. induction a as [|x a IH]; [done|]. change (String x (a +:+ EmptyString) = String x a). by f_equal. Qed.

Lemma string_app_nil_l (a : string) : EmptyString +:+ a = a.
Proof. reflexivity. Qed.

Lemma string_app_cons (c : ascii) (a b : string) :
  String c a +:+ b = String c (a +:+ b).
Proof. reflexivity. Qed.

Lemma string_app_eq_nil (a b : string) :
  a +:+ b = EmptyString -> a = EmptyString /\ b = EmptyString.
Proof. destruct a; [done|discriminate]. Qed.

Lemma matches_cat_inv (r1 r2 : regex) (s : string) :
  matches (Cat r1 r2) s ->
  exists s1 s2, s = s1 +:+ s2 /\ matches r1 s1 /\ matches r2 s2.
Proof. inversion 1; subst; eauto. Qed.

Lemma nullable_matches (r : regex) : nullable r = true <-> matches r EmptyString.
Proof.
  induction r as [| | c | | r1 IH1 r2 IH2 | r1 IH1 r2 IH2 | r IH]; simpl.
  - split; [done|]. inversion 1.
  - split; [constructor|done].
  - split; [done|]. inversion 1.
  - split; [done|]. inversion 1.
  - rewrite orb_true_iff, IH1, IH2. split.
    + intros [H|H]; [by apply matches_alt_l|by apply matches_alt_r].
    + inversion 1; subst; [by left|by right].
  - rewrite andb_true_iff, IH1, IH2. split.
    + intros [H1 H2]. by apply (matches_cat r1 r2 EmptyString EmptyString).
    + intros (s1 & s2 & Heq & H1 & H2)%matches_cat_inv. symmetry in Heq.
      apply string_app_eq_nil in Heq as [-> ->]. done.
  - split; [constructor|done].
Qed.

Lemma matches_star_String (r : regex) (c : ascii) (s : string) :
  matches (Star r) (String c s) ->
  exists s1 s2, s = s1 +:+ s2 /\ matches r (String c s1) /\ matches (Star r) s2.
Proof.
  intros H. remember (Star r) as r' eqn:Hr. remember (String c s) as s' eqn:Hs.
  revert s Hs.
  induction H as [| | | | | | |r0 s1 s2 H1 _ H2 IH2]; try discriminate; intros s Hs.
  injection Hr as ->.
  destruct s1 as [|c1 s1]; rewrite ?string_app_nil_l, ?string_app_cons in Hs.
  - by apply IH2.
  - injection Hs as -> <-. by exists s1, s2.
Qed.

Lemma deriv_matches (r : regex) (c : ascii) (s : string) :
  matches (deriv c r) s <-> matches r (String c s).
Proof.
  revert s.
  induction r as [| | a | | r1 IH1 r2 IH2 | r1 IH1 r2 IH2 | r IH]; intros s; simpl.
  - split; inversion 1.
  - split; inversion 1.
  - destruct (Ascii.eqb_spec a c) as [->|Hne].
    + split; inversion 1; subst; constructor.
    + split; inversion 1; subst; done.
  - destruct (Ascii.eqb_spec c newline) as [->|Hne].
    + split; inversion 1; subst; done.
    + split; inversion 1; subst; by constructor.
  - split.
    + inversion 1; subst; [apply matches_alt_l|apply matches_alt_r]; by apply IH1 || apply IH2.
    + inversion 1; subst; [apply matches_alt_l|apply matches_alt_r]; by apply IH1 || apply IH2.
  - assert (Hcat : matches (Cat (deriv c r1) r2) s ->
                   matches (Cat r1 r2) (String c s)).
    { intros (s1 & s2 & -> & H1 & H2)%matches_cat_inv.
      apply IH1 in H1. by apply (matches_cat r1 r2 (String c s1) s2). }
    assert (Hinv : matches (Cat r1 r2) (String c s) ->
                   matches (Cat (deriv c r1) r2) s
                   \/ (matches r1 EmptyString /\ matches r2 (String c s))).
    { intros (s1 & s2 & Heq & H1 & H2)%matches_cat_inv.
      destruct s1 as [|c1 s1]; rewrite ?string_app_nil_l, ?string_app_cons in Heq.
      - right. subst s2. by split.
      - injection Heq as <- ->. left. apply matches_cat; [by apply IH1|done]. }
    destruct (nullable r1) eqn:Hn.
    + split.
      * inversion 1; subst; [by apply Hcat|].
        apply (matches_cat r1 r2 EmptyString (String c s)); [by apply nullable_matches|].
        by apply IH2.
      * intros H. destruct (Hinv H) as [H'|[_ H']]; [by apply matches_alt_l|].
        apply matches_alt_r. by apply IH2.
    + split; [done|].
      intros H. destruct (Hinv H) as [H'|[H' _]]; [done|].
      apply nullable_matches in H'. congruence.
  - split.
    + intros (s1 & s2 & -> & H1 & H2)%matches_cat_inv.
      apply IH in H1. by apply (matches_star_cons r (String c s1) s2).
    + intros H. apply matches_star_String in H as (s1 & s2 & -> & H1 & H2).
      apply matches_cat; [by apply IH|done].
Qed.

(** [re.match] succeeds exactly when a prefix is in the language. *)
Lemma re_match_spec (r : regex) (s : string) :
  re_match r s = true <-> exists p q, s = p +:+ q /\ matches r p.
Proof.
  revert r. induction s as [|c s IH]; intros r; simpl.
  - rewrite orb_false_r, nullable_matches. split.
    + intros H. by exists EmptyString, EmptyString.
    + intros (p & q & Heq & H). symmetry in Heq.
      apply string_app_eq_nil in Heq as [-> _]. done.
  - rewrite orb_true_iff, nullable_matches, IH. split.
    + intros [H|(p & q & -> & H)].
      * by exists EmptyString, (String c s).
      * exists (String c p), q. split; [done|]. by apply deriv_matches.
    + intros (p & q & Heq & H). destruct p as [|c' p]; [by left|].
      rewrite ?string_app_nil_l, ?string_app_cons in Heq. injection Heq as <- ->. right.
      exists p, q. split; [done|]. by apply deriv_matches.
Qed.

(** [re.search] succeeds exactly when a substring is in the language. *)
Lemma re_search_spec (r : regex) (s : string) :
  re_search r s = true <-> exists pre p q, s = pre +:+ p +:+ q /\ matches r p.
Proof.
  induction s as [|c s IH]; cbn [re_search].
  - rewrite orb_false_r, re_match_spec. split.
    + intros (p & q & Heq & H). by exists EmptyString, p, q.
    + intros (pre & p & q & Heq & H). symmetry in Heq.
      apply string_app_eq_nil in Heq as [-> Heq]. by exists p, q.
  - rewrite orb_true_iff, re_match_spec, IH. split.
    + intros [(p & q & Heq & H)|(pre & p & q & -> & H)].
      * by exists EmptyString, p, q.
      * by exists (String c pre), p, q.
    + intros (pre & p & q & Heq & H). destruct pre as [|c' pre].
      * left. by exists p, q.
      * rewrite ?string_app_nil_l, ?string_app_cons in Heq. injection Heq as <- ->. right. by exists pre, p, q.
Qed.

Lemma matches_lits (w s : string) : matches (lits w) s <-> s = w.
Proof.
  revert s. induction w as [|c w IH]; intros s; simpl.
  - split; [by inversion 1|intros ->; constructor].
  - split.
    + intros (s1 & s2 & -> & H1 & H2)%matches_cat_inv.
      inversion H1; subst. apply IH in H2 as ->. done.
    + intros ->. apply (matches_cat (Lit c) (lits w) (String c EmptyString) w);
        [constructor|by apply IH].
Qed.

Lemma matches_dot_star (s : string) : matches dot_star s <-> one_line s = true.
Proof.
  unfold dot_star. split.
  - intros H. remember (Star AnyChar) as r eqn:Hr.
    induction H as [| | | | | | |r0 s1 s2 H1 _ H2 IH2]; try discriminate; [done|].
    injection Hr as ->. inversion H1 as [| |c Hc| | | | |]; subst.
    rewrite string_app_cons, string_app_nil_l. cbn [one_line].
    rewrite IH2 by done. by destruct (Ascii.eqb_spec c newline).
  - induction s as [|c s IH]; simpl; [constructor|].
    intros [Hc Hs]%andb_true_iff.
    apply (matches_star_cons AnyChar (String c EmptyString) s); [|by apply IH].
    constructor. intros ->. by rewrite Ascii.eqb_refl in Hc.
Qed.

(** A pattern [first.*second] is found exactly in the strings that hold the
    two words in order on one line. *)
Lemma re_search_two_words (first second s : string) :
  re_search (Cat (lits first) (Cat dot_star (lits second))) s = true
  <-> in_order first second s.
Proof.
  rewrite re_search_spec. unfold in_order. split.
  - intros (pre & p & q & -> & H).
    apply matches_cat_inv in H as (s1 & s2 & -> & H1 & H2).
    apply matches_cat_inv in H2 as (s3 & s4 & -> & H3 & H4).
    apply matches_lits in H1 as ->. apply matches_lits in H4 as ->.
    apply matches_dot_star in H3.
    exists pre, s3, q. by rewrite !string_app_assoc.
  - intros (pre & mid & suf & -> & Hmid).
    exists pre, (first +:+ mid +:+ second), suf.
    split; [by rewrite !string_app_assoc|].
    apply matches_cat; [by apply matches_lits|].
    apply matches_cat; [by apply matches_dot_star|by apply matches_lits].
Qed.

(** Around such a pattern a leading and a trailing [.*] change nothing for
    [re.search]. *)
Lemma re_search_padded (first second s : string) :
  re_search (Cat dot_star (Cat (lits first) (Cat dot_star (Cat (lits second) dot_star)))) s
  = true
  <-> in_order first second s.
Proof.
  rewrite re_search_spec. unfold in_order. split.
  - intros (pre & p & q & -> & H).
    apply matches_cat_inv in H as (s0 & s1' & -> & H0 & H1').
    apply matches_cat_inv in H1' as (s1 & s2 & -> & H1 & H2).
    apply matches_cat_inv in H2 as (s3 & s4 & -> & H3 & H4).
    apply matches_cat_inv in H4 as (s5 & s6 & -> & H5 & H6).
    apply matches_lits in H1 as ->. apply matches_lits in H5 as ->.
    apply matches_dot_star in H3.
    exists (pre +:+ s0), s3, (s6 +:+ q). by rewrite !string_app_assoc.
  - intros (pre & mid & suf & -> & Hmid).
    exists pre, (EmptyString +:+ first +:+ mid +:+ second +:+ EmptyString), suf.
    split; [simpl; by rewrite !string_app_assoc|].
    apply matches_cat; [by apply matches_dot_star|].
    apply matches_cat; [by apply matches_lits|].
    apply matches_cat; [by apply matches_dot_star|].
    apply matches_cat; [by apply matches_lits|by apply matches_dot_star].
Qed.

(** X21: Which campaign names a card counts: the CPC, Gem and DT cards those
    whose lower-cased name holds [auto] and later, on the same line, the
    product word; the Top Up card those that hold [top] and later [up]. *)
Theorem cards_select_by_two_words (name : string) :
  Forall2 (fun p words =>
             str_contains p.2.2 (Some name) = true
             <-> in_order words.1 words.2 (Py.lower name))
    products
    [ ("auto", "cpc"); ("top", "up"); ("auto", "gem"); ("auto", "dt") ].
Proof.
  unfold products.
  constructor; [apply (re_search_two_words "auto" "cpc")|].
  constructor; [apply (re_search_padded "top" "up")|].
  constructor; [apply (re_search_two_words "auto" "gem")|].
  constructor; [apply (re_search_two_words "auto" "dt")|].
  constructor.
Qed.

(** ** Product cards *)

Lemma boolean_index_sublist (df : DataFrame) (mask : list bool) :
  columns (boolean_index df mask) = columns df
  /\ sublist (rows (boolean_index df mask)) (rows df).
Proof.
  split; [done|]. unfold boolean_index. simpl.
  generalize (rows df). intros l. revert mask.
  induction l as [|r l IH]; intros [|b mask]; simpl; try apply sublist_nil_l.
  destruct b; simpl; [apply sublist_skip|apply sublist_cons]; apply IH.
Qed.

Lemma mapM_Ok {A B} (f : A -> result B) (l : list A) (k : list B) :
  mapM f l = Ok k <-> Forall2 (fun x y => f x = Ok y) l k.
Proof.
  revert k. induction l as [|x l IH]; intros k; simpl.
  - split; [intros [= <-]; constructor|by inversion 1].
  - destruct (f x) as [y|e] eqn:Hx; simpl.
    + destruct (mapM f l) as [k'|e] eqn:Hl; simpl.
      * split.
        -- intros [= <-]. constructor; [done|by apply IH].
        -- inversion 1 as [|? y' ? k'' Hy Hk]; subst.
           apply IH in Hk. rewrite Hx in Hy. by simplify_eq.
      * split; [done|]. inversion 1 as [|? y' ? k'' Hy Hk]; subst.
        apply IH in Hk. done.
    + split; [done|]. inversion 1; congruence.
Qed.

Lemma mapM_Raise {A B} (f : A -> result B) (x : A) (l : list A) (e : exn) :
  f x = Raise e -> mapM f (x :: l) = Raise e.
Proof. intros H. simpl. by rewrite H. Qed.

(** What one card holds: counts over a selection of the records. *)
Lemma product_card_Ok (object_names : bool) (df : DataFrame)
    (p : string * (string * regex)) (c : card) :
  product_card object_names df p = Ok c ->
  exists rs i j,
    sublist rs (rows df) /\
    get_loc df "dispatched_at" = Ok i /\
    get_loc df "delivered_at" = Ok j /\
    product c = p.1 /\
    dispatched c = count_at i rs /\
    delivered c = count_at j rs /\
    delivery_rate c
    = if (0 <? dispatched c)%Z
      then fmul (fdiv (of_int (delivered c)) (of_int (dispatched c))) 100
      else 0%Q.
Proof.
  destruct p as [prod [col pat]]. unfold product_card.
  destruct (getitem df "campaign_name") as [names|e]; [|done]. rewrite bind_Ok.
  destruct (str_accessor object_names names) as [strs|e]; [|done]. rewrite bind_Ok.
  set (pd := boolean_index df (map (str_contains pat) strs)).
  destruct (boolean_index_sublist df (map (str_contains pat) strs)) as [Hcols Hsub].
  fold pd in Hcols, Hsub.
  unfold getitem.
  rewrite !(get_loc_same_columns df pd _ Hcols).
  destruct (get_loc df "dispatched_at") as [i|e]; [|done]. rewrite !bind_Ok.
  destruct (get_loc df "delivered_at") as [j|e]; [|done]. rewrite !bind_Ok.
  intros [= <-]. exists (rows pd), i, j. by repeat split.
Qed.

(** X22: The outcome of the cards, case by case.  Without a campaign column
    they raise the KeyError that names it.  [.str] refuses a campaign column
    that is not of object dtype, and one that holds a number and otherwise
    only numbers and missing values.  On an object column whose names are all
    missing, or that holds a string, they raise the KeyError naming the
    dispatch or the delivery column when that one is absent, and otherwise
    there is one card per product, in the order CPC, Top Up, Gem, DT. *)
Theorem product_cards_outcome (object_names : bool) (df : DataFrame) :
  (has_column df "campaign_name" = false ->
   create_product_summary_cards object_names df = Raise (KeyError "campaign_name"))
  /\ (forall names,
        getitem df "campaign_name" = Ok names ->
        object_names = false
        \/ (Exists (fun c => exists n, c = Int n) names
            /\ Forall (fun c => c = NaN \/ exists n, c = Int n) names) ->
        create_product_summary_cards object_names df
        = Raise (AttributeError "Can only use .str accessor with string values!"))
  /\ (forall names,
        getitem df "campaign_name" = Ok names ->
        object_names = true ->
        Forall (fun c => c = NaN) names \/ Exists (fun c => exists s, c = Str s) names ->
        (has_column df "dispatched_at" = false ->
         create_product_summary_cards object_names df = Raise (KeyError "dispatched_at"))
        /\ (has_column df "dispatched_at" = true ->
            has_column df "delivered_at" = false ->
            create_product_summary_cards object_names df
            = Raise (KeyError "delivered_at"))
        /\ (has_column df "dispatched_at" = true ->
            has_column df "delivered_at" = true ->
            exists cards,
              create_product_summary_cards object_names df = Ok cards
              /\ map product cards = ["CPC"; "Top Up"; "Gem"; "DT"])).
Proof.
  unfold create_product_summary_cards, products.
  split; [|split].
  - intros H. apply mapM_Raise. unfold product_card.
    by rewrite (getitem_absent df _ H).
  - intros names Hn Hrefused. apply mapM_Raise. unfold product_card.
    rewrite Hn, bind_Ok. unfold str_accessor.
    destruct Hrefused as [->|[Hex Hall]]; [done|].
    assert (Hints : forallb is_int (List.filter notna names) = true).
    { apply forallb_forall. intros c [Hc Hv]%filter_In.
      apply list_elem_of_In in Hc.
      destruct (proj1 (Forall_forall _ _) Hall c Hc) as [->|[n ->]]; done. }
    apply Exists_exists in Hex as (c & Hc & n & ->).
    assert (Hin : In (Int n) (List.filter notna names)).
    { apply filter_In. split; [by apply list_elem_of_In|done]. }
    destruct (List.filter notna names) as [|v values]; [done|].
    cbv zeta. rewrite Hints. by rewrite andb_false_r.
  - intros names Hn -> Hstr.
    assert (Hacc : exists strs, str_accessor true names = Ok strs).
    { unfold str_accessor. destruct (List.filter notna names) as [|v values] eqn:Hv;
        [eauto|].
      destruct Hstr as [Hmissing|Hex].
      { exfalso. assert (Hin : In v (List.filter notna names)) by (rewrite Hv; by left).
        apply filter_In in Hin as [Hin Hval]. apply list_elem_of_In in Hin.
        by rewrite (proj1 (Forall_forall _ _) Hmissing v Hin) in Hval. }
      apply Exists_exists in Hex as (c & Hc & s & ->).
      assert (Hin : In (Str s) (v :: values)).
      { rewrite <- Hv. apply filter_In. split; [by apply list_elem_of_In|done]. }
      cbv zeta.
      replace (forallb is_int (v :: values)) with false.
      2: { symmetry. apply not_true_is_false. intros Hall.
           by apply (proj1 (forallb_forall _ _) Hall) in Hin. }
      replace (forallb is_timestamp (v :: values)) with false.
      2: { symmetry. apply not_true_is_false. intros Hall.
           by apply (proj1 (forallb_forall _ _) Hall) in Hin. }
      eauto. }
    destruct Hacc as [strs Hacc].
    assert (Hcard : forall p,
              product_card true df p
              = (let product_data := boolean_index df (map (str_contains p.2.2) strs) in
                 dispatched_at ← getitem product_data "dispatched_at";
                 delivered_at ← getitem product_data "delivered_at";
                 let dispatched := count dispatched_at in
                 let delivered := count delivered_at in
                 Ok (mkCard p.1 p.2.1 dispatched delivered
                       (if (0 <? dispatched)%Z
                        then fmul (fdiv (of_int delivered) (of_int dispatched)) 100
                        else 0%Q)))).
    { intros [prod [col pat]]. unfold product_card. by rewrite Hn, bind_Ok, Hacc, bind_Ok. }
    assert (Hget : forall mask label,
              getitem (boolean_index df mask) label
              = (i ← get_loc df label; Ok (map (cell_at i) (rows (boolean_index df mask))))).
    { intros mask label. unfold getitem.
      by rewrite (get_loc_same_columns df (boolean_index df mask) label). }
    split; [|split].
    + intros H. apply mapM_Raise. rewrite Hcard. cbv zeta.
      by rewrite !Hget, (get_loc_absent df _ H).
    + intros [i Hi]%has_column_get_loc H. apply mapM_Raise. rewrite Hcard. cbv zeta.
      by rewrite !Hget, Hi, bind_Ok, (get_loc_absent df _ H).
    + intros [i Hi]%has_column_get_loc [j Hj]%has_column_get_loc.
      cbn [mapM]. rewrite !Hcard. cbv zeta.
      rewrite !Hget, Hi, Hj, !bind_Ok. cbn [mbind result_bind mret result_ret].
      eexists. split; [reflexivity|]. reflexivity.
Qed.

Lemma product_cards_outcome_witness :
  (exists cards,
     create_product_summary_cards true
       (mkDF ["campaign_name"; "dispatched_at"; "delivered_at"]
          [[NaN; Timestamp 0; Timestamp 60]]) = Ok cards
     /\ map product cards = ["CPC"; "Top Up"; "Gem"; "DT"])
  /\ create_product_summary_cards false
       (mkDF ["campaign_name"; "dispatched_at"; "delivered_at"]
          [[NaN; Timestamp 0; Timestamp 60]])
     = Raise (AttributeError "Can only use .str accessor with string values!").
Proof.
  split.
  - apply (proj2 (proj2 (product_cards_outcome true
                           (mkDF ["campaign_name"; "dispatched_at"; "delivered_at"]
                              [[NaN; Timestamp 0; Timestamp 60]])))) with (names := [NaN]);
      try reflexivity.
    left. by repeat constructor.
  - apply (proj1 (proj2 (product_cards_outcome false
                           (mkDF ["campaign_name"; "dispatched_at"; "delivered_at"]
                              [[NaN; Timestamp 0; Timestamp 60]])))) with (names := [NaN]);
      [reflexivity|by left].
Defined.

(** X23: On a dataset whose records all have a dispatch time, as an upload leaves
    it, no card counts more deliveries than dispatches, its rate lies between
    0 and 100, and a product without a record gets the rate 0. *)
Theorem product_cards_rates (object_names : bool) (df : DataFrame) (i : nat)
    (cards : list card) :
  get_loc df "dispatched_at" = Ok i ->
  Forall (fun r => notna (cell_at i r) = true) (rows df) ->
  create_product_summary_cards object_names df = Ok cards ->
  Forall (fun c =>
            (0 <= delivered c <= dispatched c)%Z
            /\ (0 <= delivery_rate c <= inject_Z 100)%Q
            /\ (dispatched c = 0%Z -> delivery_rate c = 0%Q)) cards.
Proof.
  intros Hi Hall Hcards. apply mapM_Ok in Hcards.
  apply Forall_forall. intros c Hc.
  apply list_elem_of_lookup in Hc as [n Hn].
  destruct (Forall2_lookup_r _ _ _ n c Hcards Hn) as (p & _ & Hp).
  apply product_card_Ok in Hp as (rs & i' & j & Hsub & Hi' & Hj & _ & Hd & Hv & Hr).
  rewrite Hi in Hi'. injection Hi' as <-.
  assert (Hdisp : dispatched c = Z.of_nat (length rs)).
  { rewrite Hd. apply count_at_all. by apply (Forall_of_sublist _ rs (rows df)). }
  pose proof (count_at_le j rs) as Hle. rewrite <- Hv, <- Hdisp in Hle.
  split; [done|]. rewrite Hr.
  destruct (Z.ltb_spec 0 (dispatched c)) as [Hpos|Hzero].
  - split; [by apply float_rate_bounds|lia].
  - split; [|done]. split; done.
Qed.

Lemma product_cards_rates_witness :
  Forall (fun c =>
            (0 <= delivered c <= dispatched c)%Z
            /\ (0 <= delivery_rate c <= inject_Z 100)%Q
            /\ (dispatched c = 0%Z -> delivery_rate c = 0%Q))
    [ mkCard "CPC" "primary" 1 1 100;
      mkCard "Top Up" "success" 0 0 0;
      mkCard "Gem" "warning" 0 0 0;
      mkCard "DT" "danger" 0 0 0 ].
Proof.
  apply (product_cards_rates true Cases.full_dataset 2);
    [reflexivity|repeat constructor|vm_compute; reflexivity].
Defined.

(** ** What an upload offers to the filters *)

Section Offers.
Context {E : Externals}.

Lemma processed_rows (decoded : result DataFrame) (df : DataFrame) :
  process_uploaded_file decoded = Ok df ->
  exists id ic,
    get_loc df "dispatched_at" = Ok id /\
    get_loc df "country_name" = Ok ic /\
    Forall (fun r => (exists t, cell_at id r = Timestamp t)
                     /\ exists s, cell_at ic r = Str s) (rows df).
Proof.
  intros H.
  destruct (process_uploaded_file_rows decoded df H)
    as (raw & _ & enriched & id & it & ic & col
        & _ & Hid & _ & Hic & Hrows & _ & Hrow).
  exists id, ic. repeat (split; [done|]).
  rewrite Hrows. apply Forall_forall. intros r Hr.
  apply list_elem_of_In, filter_In in Hr as [Hr Hvalid].
  apply list_elem_of_In, list_elem_of_lookup in Hr as [k Hk].
  destruct (Hrow k r Hk) as (r0 & _ & Hd & _ & Hc & _).
  split; [|done]. rewrite Hd in Hvalid |- *. by apply of_datetime_notna.
Qed.

Lemma foldl_min_le (ts : list Z) (a x : Z) :
  x = a \/ x ∈ ts -> (foldl Z.min a ts <= x)%Z.
Proof.
  revert a x. induction ts as [|t ts IH]; intros a x; simpl.
  - intros [->|H]; [lia|by apply elem_of_nil in H].
  - intros [->|[->|H]%elem_of_cons].
    + etrans; [apply (IH _ (Z.min a t)); by left|lia].
    + etrans; [apply (IH _ (Z.min a t)); by left|lia].
    + apply IH. by right.
Qed.

Lemma foldl_max_ge (ts : list Z) (a x : Z) :
  x = a \/ x ∈ ts -> (x <= foldl Z.max a ts)%Z.
Proof.
  revert a x. induction ts as [|t ts IH]; intros a x; simpl.
  - intros [->|H]; [lia|by apply elem_of_nil in H].
  - intros [->|[->|H]%elem_of_cons].
    + etrans; [|apply (IH _ (Z.max a t)); by left]. lia.
    + etrans; [|apply (IH _ (Z.max a t)); by left]. lia.
    + apply IH. by right.
Qed.

Lemma date_of_mono (a b : Z) : (a <= b)%Z -> (date_of a <= date_of b)%Z.
Proof. intros H. unfold date_of. by apply Z.div_le_mono. Qed.

Lemma elem_of_timestamps (t : Z) (col : list cell) :
  t ∈ timestamps col <-> Timestamp t ∈ col.
Proof.
  unfold timestamps. rewrite list_elem_of_omap. split.
  - intros (c & Hc & Ht). destruct c; try done. by injection Ht as ->.
  - intros H. by exists (Timestamp t).
Qed.

(** The offered range spans the dates of the column. *)
Lemma min_max_date_span (col : list cell) (t : Z) :
  Timestamp t ∈ col ->
  exists lo hi, min_date col = Some lo /\ max_date col = Some hi
                /\ (lo <= date_of t <= hi)%Z.
Proof.
  intros H%elem_of_timestamps. unfold min_date, max_date.
  destruct (timestamps col) as [|a ts]; [by apply elem_of_nil in H|].
  apply elem_of_cons in H.
  eexists _, _. repeat split.
  - by apply date_of_mono, foldl_min_le.
  - by apply date_of_mono, foldl_max_ge.
Qed.

Lemma upload_success_Ok (object_names : bool) (df : DataFrame) (o : outputs) :
  upload_success object_names df = Ok o ->
  exists ic id,
    get_loc df "country_name" = Ok ic /\
    get_loc df "dispatched_at" = Ok id /\
    country_options o = Set_ (sorted_unique (map (cell_at ic) (rows df))) /\
    start_date_out o = Set_ (min_date (map (cell_at id) (rows df))) /\
    end_date_out o = Set_ (max_date (map (cell_at id) (rows df))).
Proof.
  unfold upload_success, getitem.
  destruct (get_loc df "country_name") as [ic|e]; [|done]. rewrite !bind_Ok.
  destruct (get_loc df "dispatched_at") as [id|e]; [|done]. rewrite !bind_Ok.
  destruct (create_product_summary_cards object_names df) as [cards|e]; [|done].
  rewrite bind_Ok.
  intros [= <-]. by exists ic, id.
Qed.

(** X24: After an upload the offered country options are the country names of the
    dataset, each once and in increasing order, and the offered date range
    spans the dispatch date of every record. *)
Theorem upload_offers_covering_filters
    (decoded : result DataFrame) (df : DataFrame) (o : outputs) :
  process_uploaded_file decoded = Ok df ->
  upload_success (campaign_name_dtype decoded) df = Ok o ->
  exists ic id opts,
    get_loc df "country_name" = Ok ic /\
    get_loc df "dispatched_at" = Ok id /\
    country_options o = Set_ opts /\
    StronglySorted cell_lt opts /\
    (forall c, c ∈ opts <-> exists r, r ∈ rows df /\ cell_at ic r = c) /\
    (forall r, r ∈ rows df ->
       exists t lo hi,
         cell_at id r = Timestamp t /\
         start_date_out o = Set_ (Some lo) /\
         end_date_out o = Set_ (Some hi) /\
         (lo <= date_of t <= hi)%Z).
Proof.
  intros Hp Hs.
  destruct (processed_rows decoded df Hp) as (id & ic & Hid & Hic & Hrows).
  destruct (upload_success_Ok _ df o Hs)
    as (ic' & id' & Hic' & Hid' & Hopts & Hlo & Hhi).
  rewrite Hic in Hic'. injection Hic' as <-.
  rewrite Hid in Hid'. injection Hid' as <-.
  exists ic, id, (sorted_unique (map (cell_at ic) (rows df))).
  repeat (split; [done|]).
  split; [apply sorted_unique_sorted|].
  split.
  { intros c. rewrite elem_of_sorted_unique, list_elem_of_fmap. split.
    - intros (r & -> & Hr). by exists r.
    - intros (r & Hr & <-). by exists r. }
  intros r Hr.
  destruct (proj1 (Forall_forall _ _) Hrows r Hr) as [[t Ht] _].
  assert (Hin : Timestamp t ∈ map (cell_at id) (rows df)).
  { apply list_elem_of_fmap. by exists r. }
  destruct (min_max_date_span _ t Hin) as (lo & hi & Hmin & Hmax & Hspan).
  exists t, lo, hi. by rewrite Hlo, Hhi, Hmin, Hmax.
Qed.

(** X25: Filtering by the very date range that the upload offered keeps every
    record of the dataset. *)
Theorem offered_range_keeps_every_record
    (decoded : result DataFrame) (df : DataFrame) (o : outputs)
    (lo hi : Z) (sd ed : string) :
  process_uploaded_file decoded = Ok df ->
  upload_success (campaign_name_dtype decoded) df = Ok o ->
  start_date_out o = Set_ (Some lo) ->
  end_date_out o = Set_ (Some hi) ->
  date_range (Some sd) (Some ed) = Ok (Some (lo, hi)) ->
  apply_filters df None None (Some sd) (Some ed) = Ok df.
Proof.
  intros Hp Hs Hstart Hend Hrange.
  destruct (processed_rows decoded df Hp) as (id & ic & Hid & Hic & Hrows).
  destruct (upload_success_Ok _ df o Hs) as (ic' & id' & _ & Hid' & _ & Hlo & Hhi).
  rewrite Hid in Hid'. injection Hid' as <-.
  rewrite Hstart in Hlo. rewrite Hend in Hhi.
  injection Hlo as Hlo. injection Hhi as Hhi.
  unfold date_range in Hrange. unfold apply_filters.
  cbn [truthy_list]. rewrite !bind_Ok.
  destruct (truthy_str (Some sd) && truthy_str (Some ed)); [|done].
  destruct (scalar_date (Some sd)) as [lo'|e]; [|done]. rewrite bind_Ok in Hrange.
  destruct (scalar_date (Some ed)) as [hi'|e]; [|done]. rewrite bind_Ok in Hrange.
  injection Hrange as -> ->.
  unfold getitem. rewrite Hid, !bind_Ok.
  assert (Hdt : Forall (fun c => is_datetimelike c = true) (map (cell_at id) (rows df))).
  { apply Forall_fmap. eapply Forall_impl; [exact Hrows|].
    intros r [[t Ht] _]. simpl. by rewrite Ht. }
  unfold dt_date.
  replace (forallb is_datetimelike (map (cell_at id) (rows df))) with true.
  2: { symmetry. apply forallb_forall. intros c Hc%list_elem_of_In.
       by apply (proj1 (Forall_forall _ _) Hdt). }
  rewrite !bind_Ok, !map_map.
  rewrite boolean_index_filter. f_equal. apply select_all.
  apply Forall_forall. intros r Hr.
  destruct (proj1 (Forall_forall _ _) Hrows r Hr) as [[t Ht] _].
  assert (Hin : Timestamp t ∈ map (cell_at id) (rows df)).
  { apply list_elem_of_fmap. by exists r. }
  destruct (min_max_date_span _ t Hin) as (lo' & hi' & Hmin & Hmax & Hspan).
  rewrite Ht. rewrite Hmin in Hlo. rewrite Hmax in Hhi.
  injection Hlo as ->. injection Hhi as ->.
  apply andb_true_iff. split; apply Z.leb_le; lia.
Qed.

End Offers.

Lemma upload_offers_covering_filters_witness :
  let o :=
    mkOut (Set_ "block")
      (Set_ [Str "United Kingdom"; Str "United States"; Str "Unknown"])
      (Set_ (Some 19723%Z)) (Set_ (Some 19727%Z))
      (Set_ (create_data_table Cases.full_dataset))
      (Set_ (Some [ mkCard "CPC" "primary" 1 1 100;
                    mkCard "Top Up" "success" 0 0 0;
                    mkCard "Gem" "warning" 0 0 0;
                    mkCard "DT" "danger" 0 0 0 ])) in
  exists ic id opts,
    get_loc Cases.full_dataset "country_name" = Ok ic /\
    get_loc Cases.full_dataset "dispatched_at" = Ok id /\
    country_options o = Set_ opts /\
    StronglySorted cell_lt opts /\
    (forall c, c ∈ opts <-> exists r, r ∈ rows Cases.full_dataset /\ cell_at ic r = c) /\
    (forall r, r ∈ rows Cases.full_dataset ->
       exists t lo hi,
         cell_at id r = Timestamp t /\
         start_date_out o = Set_ (Some lo) /\
         end_date_out o = Set_ (Some hi) /\
         (lo <= date_of t <= hi)%Z).
Proof.
  intros o.
  apply (upload_offers_covering_filters (E := Sample.externals)
           (Ok Cases.full_upload) Cases.full_dataset o);
    vm_compute; reflexivity.
Defined.

Lemma offered_range_keeps_every_record_witness :
  apply_filters (E := Sample.externals) Cases.full_dataset None None
    (Some "2024-01-01") (Some "2024-01-05")
  = Ok Cases.full_dataset.
Proof.
  apply (offered_range_keeps_every_record (E := Sample.externals)
           (Ok Cases.full_upload) Cases.full_dataset
           (mkOut (Set_ "block")
              (Set_ [Str "United Kingdom"; Str "United States"; Str "Unknown"])
              (Set_ (Some 19723%Z)) (Set_ (Some 19727%Z))
              (Set_ (create_data_table Cases.full_dataset))
              (Set_ (Some [ mkCard "CPC" "primary" 1 1 100;
                            mkCard "Top Up" "success" 0 0 0;
                            mkCard "Gem" "warning" 0 0 0;
                            mkCard "DT" "danger" 0 0 0 ])))
           19723 19727);
    vm_compute; reflexivity.
Defined.

(** ** The unregistered callback *)

Lemma startswith_prefix (a b hay : string) :
  Py.startswith hay (a +:+ b) = true -> Py.startswith hay a = true.
Proof.
  revert hay. induction a as [|c a IH]; intros hay; [by destruct hay|].
  change (String c a +:+ b) with (String c (a +:+ b)).
  destruct hay as [|h hay]; [done|]. cbn [Py.startswith].
  intros [Hc H]%andb_true_iff. apply andb_true_iff. split; [done|by apply IH].
Qed.

Lemma contains_prefix (a b hay : string) :
  Py.contains (a +:+ b) hay = true -> Py.contains a hay = true.
Proof.
  induction hay as [|h hay IH]; cbn [Py.contains].
  - rewrite !orb_false_r. apply startswith_prefix.
  - intros [H|H]%orb_true_iff; apply orb_true_iff;
      [left; by apply (startswith_prefix a b)|right; by apply IH].
Qed.

Lemma missing_columns_nil (df : DataFrame) :
  missing_columns df = [] ->
  exists k, get_loc df "campaign_name" = Ok k
            /\ Forall (fun c => has_column df c = true) summary_columns.
Proof.
  intros H. unfold missing_columns in H. apply filter_nil_iff in H.
  assert (Hall : Forall (fun c => has_column df c = true) required_columns).
  { eapply Forall_impl; [exact H|]. intros c Hc. simpl in Hc. by apply negb_false_iff. }
  unfold required_columns in Hall. apply Forall_cons in Hall as [Hc Hall].
  apply has_column_get_loc in Hc as [k Hk]. by exists k.
Qed.

Section LegacyProofs.
Context {E : Externals}.

Lemma legacy_process_columns (decoded : result DataFrame) (df : DataFrame) :
  legacy_process decoded = Ok df ->
  has_column df "dispatched_at" = true /\ has_column df "country_name" = true.
Proof.
  unfold legacy_process. destruct decoded as [raw|e]; [|done]. rewrite bind_Ok.
  cbv zeta.
  destruct (getitem _ "campaign_name") as [names|e]; [|done]. rewrite bind_Ok.
  destruct (mapM legacy_campaign_type names) as [types|e]; [|done]. rewrite bind_Ok.
  destruct (getitem _ "customer_external_id") as [ids|e]; [|done]. rewrite bind_Ok.
  destruct (getitem _ "country_name") as [countries|e]; [|done]. rewrite bind_Ok.
  destruct (getitem _ "dispatched_at") as [dispatched_at|e]; [|done]. rewrite bind_Ok.
  unfold dropna.
  match goal with |- context [get_loc ?d "dispatched_at"] => set (df5 := d) end.
  assert (Hd : has_column df5 "dispatched_at" = true) by apply has_column_setitem_same.
  assert (Hc : has_column df5 "country_name" = true).
  { unfold df5. rewrite has_column_setitem_other by done.
    apply has_column_setitem_same. }
  destruct (get_loc df5 "dispatched_at") as [i|e]; [|done]. rewrite bind_Ok.
  intros [= <-]. done.
Qed.

(** X26: An upload to the old callback is all or nothing: when its processing
    succeeds the dataset slot holds the new frame and the table shows it;
    on any exception the slot is left as it was and the details are
    reported. *)
Theorem legacy_upload_is_atomic (data : option DataFrame) (rest : list string)
    (decoded : result DataFrame) (tab : string) :
  match legacy_process decoded with
  | Ok df =>
      exists opts lo hi,
        handle_upload_and_tabs data ("upload-data" :: rest) (Some decoded) tab
        = (Some df,
           Ok (mkLegacyOut (Set_ "block") (Set_ opts) (Set_ lo) (Set_ hi)
                 (Set_ (LegacyView (DataTable "data-table" df)))))
  | Raise e =>
      handle_upload_and_tabs data ("upload-data" :: rest) (Some decoded) tab
      = (data,
         Ok (mkLegacyOut (Set_ "none") (Set_ []) (Set_ None) (Set_ None)
               (Set_ (LegacyError "Error Processing File"
                        ("Details: " +:+ exn_str e)))))
  end.
Proof.
  unfold handle_upload_and_tabs. cbn [String.eqb Ascii.eqb Bool.eqb].
  destruct (legacy_process decoded) as [df|e] eqn:Hp; [|done].
  destruct (legacy_process_columns decoded df Hp) as [Hd Hc].
  apply getitem_present in Hd as [col Hd]. apply getitem_present in Hc as [cs Hc].
  rewrite bind_Ok, Hd, bind_Ok, Hc, bind_Ok. eauto.
Qed.

(** X27: The campaign-summary tab of the old callback never raises: with every
    required column present it shows the table that [create_summary_table]
    builds, otherwise the list of the missing columns. *)
Theorem legacy_summary_reports_missing_columns (d : DataFrame) (rest : list string)
    (contents : option (result DataFrame)) :
  exists c,
    handle_upload_and_tabs (Some d) ("tabs" :: rest) contents "campaign-summary-tab"
    = (Some d, Ok (legacy_only_content (LegacyView c)))
    /\ (missing_columns d = [] -> create_summary_table d = Ok c)
    /\ (missing_columns d <> [] ->
        c = Div ("Missing columns: " +:+ Py.join ", " (missing_columns d))).
Proof.
  unfold handle_upload_and_tabs. cbn [String.eqb Ascii.eqb Bool.eqb].
  unfold legacy_summary, missing_columns_report, create_summary_table.
  destruct (missing_columns d) as [|m ms] eqn:Hm.
  - destruct (missing_columns_nil d Hm) as (k & Hk & Hall).
    rewrite (groupby_count_Ok d _ _ k Hk Hall), !bind_Ok.
    eexists. split; [reflexivity|]. split; [done|]. by intros [].
  - rewrite bind_Ok. eexists. split; [reflexivity|]. split; [done|]. done.
Qed.

End LegacyProofs.

(** X28: Every campaign name that the old classifier calls Commercial is
    Commercial for [process_uploaded_file] too, unless [cps] is the only one
    of the old keywords in it. *)
Theorem legacy_classifier_is_narrower (name : string) :
  legacy_campaign_type (Str name) = Ok (Str "Commercial") ->
  campaign_type_of (Str name) = Str "Commercial"
  \/ (Py.contains "cps" (Py.lower name) = true
      /\ Forall (fun keyword => Py.contains keyword (Py.lower name) = false)
           ["top up"; "gems"; "dt"]).
Proof.
  unfold legacy_campaign_type, legacy_keywords. cbn [existsb]. intros H.
  destruct (Py.contains "top up" (Py.lower name)) eqn:Htop;
    [|destruct (Py.contains "gems" (Py.lower name)) eqn:Hgems;
      [|destruct (Py.contains "dt" (Py.lower name)) eqn:Hdt]].
  4: { right. destruct (Py.contains "cps" (Py.lower name)); [|done].
       split; [done|]. by repeat constructor. }
  all: left; unfold campaign_type_of; rewrite is_commercial_campaign_Str.
  all: assert (Hk : exists keyword,
                 keyword ∈ commercial_keywords
                 /\ Py.replace "_" " " keyword = keyword
                 /\ Py.contains keyword (Py.lower name) = true);
    [|destruct Hk as (keyword & Hin & Hrep & Hc);
      apply contains_replace in Hc; rewrite Hrep in Hc;
      replace (existsb _ commercial_keywords) with true; [done|];
      symmetry; apply existsb_exists; exists keyword;
      split; [by apply list_elem_of_In|done]].
  - exists "top up". split; [|done]. unfold commercial_keywords. set_solver.
  - exists "gem". split; [unfold commercial_keywords; set_solver|].
    split; [done|]. by apply (contains_prefix "gem" "s").
  - exists "dt". split; [|done]. unfold commercial_keywords. set_solver.
Qed.

Lemma legacy_classifier_is_narrower_witness :
  campaign_type_of (Str "CPS DT reminder") = Str "Commercial"
  \/ (Py.contains "cps" (Py.lower "CPS DT reminder") = true
      /\ Forall (fun keyword => Py.contains keyword (Py.lower "CPS DT reminder") = false)
           ["top up"; "gems"; "dt"]).
Proof.
  apply (legacy_classifier_is_narrower "CPS DT reminder"); reflexivity.
Defined.
